(** * Batch sequences of [stellargraph.mapper.sequences]

    A shallow embedding of the Keras-compatible batch generators of
    [stellargraph/mapper/sequences.py] and the properties of their batching,
    shuffling and padding logic.

    Conventions of the embedding.
    - Python integers are [Z]; lengths and list positions are [nat].
    - A method is a computation in a state-and-exception monad: it reads and
      writes the receiver [self] and the process state ([World]), and either
      returns a value or raises; whatever was mutated before a [raise] stays
      mutated, as in Python.
    - Numeric payloads (matrix entries, features) are integers: the
      properties below are about positions, shapes and zero padding, never
      about rounding.
    - Collaborators that live outside the module (the random generators, the
      sampling function, the walker, adjacency normalisation) are parameters
      with the part of their contract that is used stated as a hypothesis. *)

From stdpp Require Import base numbers list gmap strings.

Local Open Scope Z_scope.

(** ** Python preliminaries *)

(** The exception classes raised by the module or by the built-ins it calls. *)
Inductive exn : Type :=
| IndexError
| TypeError
| ValueError
| AttributeError
| ZeroDivisionError.

Inductive outcome (A : Type) : Type :=
| Return (a : A)
| Raise (e : exn).
Arguments Return {A} a.
Arguments Raise {A} e.

Module Py.

(** State and exception monad: the state after a [Raise] is the state at the
    point of the raise. *)
Definition M (St A : Type) : Type := St → outcome A * St.

Definition ret {St A} (a : A) : M St A := λ s, (Return a, s).

Definition raise {St A} (e : exn) : M St A := λ s, (Raise e, s).

Definition bind {St A B} (m : M St A) (k : A → M St B) : M St B :=
  λ s, match m s with
       | (Return a, s') => k a s'
       | (Raise e, s') => (Raise e, s')
       end.

Definition get {St} : M St St := λ s, (Return s, s).
Definition put {St} (s : St) : M St unit := λ _, (Return tt, s).

(** A pure fallible step inside a method. *)
Definition lift {St A} (o : outcome A) : M St A := λ s, (o, s).

(** [for x in l: body x], threading the state, stopping at the first raise. *)
Fixpoint for_each {St A} (l : list A) (body : A → M St unit) : M St unit :=
  match l with
  | [] => ret tt
  | x :: l' => bind (body x) (λ _, for_each l' body)
  end.

(** A list comprehension [[f x for x in l]] whose body has effects. *)
Fixpoint map_m {St A B} (f : A → M St B) (l : list A) : M St (list B) :=
  match l with
  | [] => ret []
  | x :: l' => bind (f x) (λ y, bind (map_m f l') (λ ys, ret (y :: ys)))
  end.

(** [enumerate(l)] *)
Definition enumerate {A} (l : list A) : list (nat * A) := zip (seq 0 (length l)) l.

(** A list comprehension [[f x for x in l]] whose body may raise. *)
Fixpoint comprehension {A B} (f : A → outcome B) (l : list A) : outcome (list B) :=
  match l with
  | [] => Return []
  | x :: l' =>
      match f x with
      | Raise e => Raise e
      | Return y =>
          match comprehension f l' with
          | Raise e => Raise e
          | Return ys => Return (y :: ys)
          end
      end
  end.

(** Normalisation of one bound of a slice [l[start:stop]]: a negative bound
    counts from the end, and every bound is clipped to [0, len]. *)
Definition slice_bound (len : nat) (i : Z) : nat :=
  if decide (i < 0) then Z.to_nat (Z.max 0 (i + Z.of_nat len))
  else Z.to_nat (Z.min i (Z.of_nat len)).

(** [l[start:stop]] for a list or a one-dimensional array. *)
Definition slice {A} (l : list A) (start stop : Z) : list A :=
  let a := slice_bound (length l) start in
  let b := slice_bound (length l) stop in
  take (b - a)%nat (drop a l).

(** [l[i]]: a negative index counts from the end; out of range raises
    [IndexError]. *)
Definition index {A} (l : list A) (i : Z) : outcome A :=
  let j := if decide (i < 0) then i + Z.of_nat (length l) else i in
  if decide (j < 0) then Raise IndexError
  else match l !! Z.to_nat j with
       | Some x => Return x
       | None => Raise IndexError
       end.

(** [a[idxs]] for an array [a] and a list of integer positions
    (NumPy integer-array indexing along the first axis). *)
Definition take_rows {A} (a : list A) (idxs : list nat) : outcome (list A) :=
  comprehension (λ i, index a (Z.of_nat i)) idxs.

(** [max(l)] of a list of naturals; [ValueError] on the empty list. *)
Definition max_of (l : list nat) : outcome nat :=
  match l with
  | [] => Raise ValueError
  | x :: l' => Return (foldr Nat.max x l')
  end.

(** [int(np.ceil(n / d))] on integers: true division followed by the
    ceiling.  Division by zero raises.  (The quotient of two Python ints is
    a double; for the list lengths at hand, below [2^52], rounding it up
    gives the exact ceiling.) *)
Definition ceil_div (n d : Z) : outcome Z :=
  if decide (d = 0) then Raise ZeroDivisionError
  else Return (- ((- n) `div` d)).

(** [list(range(n))] *)
Definition range (n : nat) : list nat := seq 0 n.

End Py.

Global Instance M_ret {St} : MRet (Py.M St) := λ A, @Py.ret St A.
Global Instance M_bind {St} : MBind (Py.M St) := λ A B k m, Py.bind m k.

(** An argument that the constructors test with [is_real_iterable]. *)
Inductive pyarg (A : Type) : Type :=
| Iterable (l : list A)
| NotIterable.
Arguments Iterable {A} l.
Arguments NotIterable {A}.

(** An argument that the constructors test with
    [isinstance(_, collections.abc.Callable)]. *)
Inductive pyfun (F : Type) : Type :=
| Callable (f : F)
| NotCallable.
Arguments Callable {F} f.
Arguments NotCallable {F}.

(** ** Random generators

    [random.Random] objects and the module-level generator of [random] expose
    [shuffle], which permutes a list in place and advances the generator. *)

Class RandomGen (rng : Type) : Type :=
  { rs_shuffle : rng → list nat → list nat * rng }.

(** The part of the contract of [shuffle] used below: the result is a
    rearrangement of the argument. *)
Class RandomGenLaws (rng : Type) `{RandomGen rng} : Prop :=
  { rs_shuffle_perm : ∀ g l, (rs_shuffle g l).1 ≡ₚ l }.

(** What [self._rs] refers to: a generator object owned by the instance (its
    state is stored with the reference), or the generator of the [random]
    module, which is shared by the whole process. *)
Inductive rs_handle (rng : Type) : Type :=
| OwnRS (g : rng)
| GlobalRS.
Arguments OwnRS {rng} g.
Arguments GlobalRS {rng}.

(** ** Sparse matrices ([scipy.sparse]) in coordinate storage

    A matrix is its shape and the stored (row, column, value) triples, in
    storage order.  SciPy allows a coordinate to be stored more than once;
    the matrix entry is then the sum of the stored values. *)

Module Sparse.

Record spmatrix : Type := mk_spmatrix
  { shape : nat * nat;
    entries : list (nat * nat * Z) }.

(** The arrays [A.row], [A.col] and [A.data]. *)
Definition row (A : spmatrix) : list nat := (λ e, e.1.1) <$> entries A.
Definition col (A : spmatrix) : list nat := (λ e, e.1.2) <$> entries A.
Definition data (A : spmatrix) : list Z := (λ e, e.2) <$> entries A.

(** Every stored coordinate lies inside the shape (checked by SciPy when a
    matrix is built). *)
Definition in_bounds (A : spmatrix) : Prop :=
  Forall (λ e, (e.1.1 < (shape A).1)%nat ∧ (e.1.2 < (shape A).2)%nat) (entries A).

(** [A.resize(shape)], in place: entries outside a smaller shape are dropped,
    a larger shape only changes the shape. *)
Definition resize (new_shape : nat * nat) (A : spmatrix) : spmatrix :=
  let '(new_M, new_N) := new_shape in
  let '(M, N) := shape A in
  if decide (new_M < M ∨ new_N < N)%nat then
    {| shape := new_shape;
       entries := filter (λ e, (e.1.1 < new_M)%nat ∧ (e.1.2 < new_N)%nat) (entries A) |}
  else {| shape := new_shape; entries := entries A |}.

Definition zeros (m n : nat) : list (list Z) := replicate m (replicate n 0).

(** [B[i, j] += v] *)
Definition add_at (B : list (list Z)) (i j : nat) (v : Z) : list (list Z) :=
  alter (alter (λ x, x + v) j) i B.

(** [A.toarray()]: a zero matrix to which every stored value is added at its
    coordinate. *)
Definition toarray (A : spmatrix) : list (list Z) :=
  foldl (λ B e, add_at B e.1.1 e.1.2 e.2) (zeros (shape A).1 (shape A).2) (entries A).

End Sparse.

(** ** The process state

    [random_module] is the state of the generator behind the functions of
    the [random] module, [numpy_random] that of the generator behind
    [np.random]; [heap] holds the sparse matrix objects, which are mutated
    in place through references; [collab] is whatever state the injected
    collaborators (sampling function, walker) keep. *)

Record World (rng C : Type) : Type := mk_world
  { random_module : rng;
    numpy_random : rng;
    heap : gmap nat Sparse.spmatrix;
    collab : C }.
Arguments mk_world {rng C}.
Arguments random_module {rng C}.
Arguments numpy_random {rng C}.
Arguments heap {rng C}.
Arguments collab {rng C}.

Definition set_random_module {rng C} (g : rng) (w : World rng C) : World rng C :=
  mk_world g (numpy_random w) (heap w) (collab w).
Definition set_numpy_random {rng C} (g : rng) (w : World rng C) : World rng C :=
  mk_world (random_module w) g (heap w) (collab w).
Definition set_heap {rng C} (h : gmap nat Sparse.spmatrix) (w : World rng C) : World rng C :=
  mk_world (random_module w) (numpy_random w) h (collab w).
Definition set_collab {rng C} (c : C) (w : World rng C) : World rng C :=
  mk_world (random_module w) (numpy_random w) (heap w) c.

(** Call an injected collaborator, which sees only its own state. *)
Definition call {rng C St A} (f : Py.M C A) : Py.M (St * World rng C) A :=
  λ '(self, w),
    let '(r, c') := f (collab w) in (r, (self, set_collab c' w)).

(** ** [NodeSequence] *)

Module NodeSequence.
Section NodeSequence.
Context {rng : Type} `{RandomGen rng} {C Id Tgt Feats : Type}.

(** [stellargraph.random.random_state], which maps the [seed] argument to
    the generator the instance shuffles with. *)
Context (random_state : option Z → rs_handle rng).

(** The injected sampling function: [(head_ids, batch_num) -> features],
    opaque, with its own state. *)
Definition sample_function : Type := list Id → Z → Py.M C Feats.

(** The attributes of an instance.  [indices] is first assigned by
    [on_epoch_end], which [__init__] calls last. *)
Record t : Type := mk
  { targets : option (list Tgt);
    _sample_function : sample_function;
    ids : list Id;
    data_size : nat;
    shuffle : bool;
    batch_size : Z;
    _rs : rs_handle rng;
    indices : list nat }.

Definition set_indices (l : list nat) (self : t) : t :=
  mk (targets self) (_sample_function self) (ids self) (data_size self)
     (shuffle self) (batch_size self) (_rs self) l.
Definition set__rs (r : rs_handle rng) (self : t) : t :=
  mk (targets self) (_sample_function self) (ids self) (data_size self)
     (shuffle self) (batch_size self) r (indices self).

Definition state : Type := t * World rng C.

(** [on_epoch_end]: the identity order, shuffled by [self._rs] when
    [self.shuffle] is set. *)
Definition on_epoch_end : Py.M state unit :=
  '(self, w) ← Py.get;
  let indices := Py.range (data_size self) in
  if shuffle self then
    match _rs self with
    | OwnRS g =>
        let '(indices, g') := rs_shuffle g indices in
        Py.put (set_indices indices (set__rs (OwnRS g') self), w)
    | GlobalRS =>
        let '(indices, g') := rs_shuffle (random_module w) indices in
        Py.put (set_indices indices self, set_random_module g' w)
    end
  else Py.put (set_indices indices self, w).

(** [__init__(sample_function, batch_size, ids, targets, shuffle, seed)] *)
(** Run a method body on an object under construction. *)
Definition construct (self : t) (body : Py.M state unit) : Py.M (World rng C) t :=
  λ w, let '(r, (self, w)) := body (self, w) in
       match r with
       | Return _ => (Return self, w)
       | Raise e => (Raise e, w)
       end.

Definition init (sample : pyfun sample_function) (batch_size : Z)
    (ids : pyarg Id) (targets : option (pyarg Tgt)) (shuffle : bool)
    (seed : option Z) : Py.M (World rng C) t :=
  match ids with
  | NotIterable => Py.raise TypeError
  | Iterable ids =>
      targets ←
        match targets with
        | Some NotIterable => Py.raise TypeError
        | Some (Iterable ts) =>
            if decide (length ids ≠ length ts) then Py.raise ValueError
            else mret (Some ts)
        | None => mret None
        end;
      match sample with
      | NotCallable => Py.raise TypeError
      | Callable f =>
          construct
            (mk targets f ids (length ids) shuffle batch_size (random_state seed) [])
            on_epoch_end
      end
  end.

(** [__len__] *)
Definition len (self : t) : outcome Z :=
  Py.ceil_div (Z.of_nat (data_size self)) (batch_size self).

(** The locals [batch_indices] and [head_ids] of [__getitem__]. *)
Definition batch_indices (self : t) (batch_num : Z) : list nat :=
  let start_idx := batch_size self * batch_num in
  let end_idx := start_idx + batch_size self in
  Py.slice (indices self) start_idx end_idx.

Definition head_ids (self : t) (batch_num : Z) : outcome (list Id) :=
  Py.comprehension (λ ii, Py.index (ids self) (Z.of_nat ii))
    (batch_indices self batch_num).

(** [__getitem__(batch_num)] *)
Definition getitem (batch_num : Z) : Py.M state (Feats * option (list Tgt)) :=
  '(self, _) ← Py.get;
  let start_idx := batch_size self * batch_num in
  if decide (start_idx >= Z.of_nat (data_size self)) then Py.raise IndexError
  else
    let batch_indices := batch_indices self batch_num in
    head_ids ← Py.lift (head_ids self batch_num);
    batch_targets ←
      match targets self with
      | None => mret None
      | Some ts => ts ← Py.lift (Py.take_rows ts batch_indices); mret (Some ts)
      end;
    batch_feats ← call (_sample_function self head_ids batch_num);
    mret (batch_feats, batch_targets).

End NodeSequence.
End NodeSequence.

(** ** [LinkSequence] *)

Module LinkSequence.
Section LinkSequence.
Context {rng : Type} `{RandomGen rng} {C Id Tgt Feats : Type}.
Context (random_state : option Z → rs_handle rng).

Definition sample_function : Type := list Id → Z → Py.M C Feats.

Record t : Type := mk
  { targets : option (list Tgt);
    _sample_features : sample_function;
    batch_size : Z;
    ids : list Id;
    data_size : nat;
    shuffle : bool;
    _rs : rs_handle rng;
    indices : list nat }.

Definition set_indices (l : list nat) (self : t) : t :=
  mk (targets self) (_sample_features self) (batch_size self) (ids self)
     (data_size self) (shuffle self) (_rs self) l.
Definition set__rs (r : rs_handle rng) (self : t) : t :=
  mk (targets self) (_sample_features self) (batch_size self) (ids self)
     (data_size self) (shuffle self) r (indices self).

Definition state : Type := t * World rng C.

Definition on_epoch_end : Py.M state unit :=
  '(self, w) ← Py.get;
  let indices := Py.range (data_size self) in
  if shuffle self then
    match _rs self with
    | OwnRS g =>
        let '(indices, g') := rs_shuffle g indices in
        Py.put (set_indices indices (set__rs (OwnRS g') self), w)
    | GlobalRS =>
        let '(indices, g') := rs_shuffle (random_module w) indices in
        Py.put (set_indices indices self, set_random_module g' w)
    end
  else Py.put (set_indices indices self, w).

Definition construct (self : t) (body : Py.M state unit) : Py.M (World rng C) t :=
  λ w, let '(r, (self, w)) := body (self, w) in
       match r with
       | Return _ => (Return self, w)
       | Raise e => (Raise e, w)
       end.

(** [__init__]; the length of the targets is compared with the length of the
    ids a second time after the first validation. *)
Definition init (sample : pyfun sample_function) (batch_size : Z)
    (ids : pyarg Id) (targets : option (pyarg Tgt)) (shuffle : bool)
    (seed : option Z) : Py.M (World rng C) t :=
  match ids with
  | NotIterable => Py.raise TypeError
  | Iterable ids =>
      targets ←
        match targets with
        | Some NotIterable => Py.raise TypeError
        | Some (Iterable ts) =>
            if decide (length ids ≠ length ts) then Py.raise ValueError
            else mret (Some ts)
        | None => mret None
        end;
      let mismatch : bool :=
        match targets with
        | Some ts => bool_decide (length ids ≠ length ts)
        | None => false
        end in
      if mismatch then Py.raise ValueError
      else
        match sample with
        | NotCallable => Py.raise TypeError
        | Callable f =>
            construct
              (mk targets f batch_size ids (length ids) shuffle (random_state seed) [])
              on_epoch_end
        end
  end.

Definition len (self : t) : outcome Z :=
  Py.ceil_div (Z.of_nat (data_size self)) (batch_size self).

Definition batch_indices (self : t) (batch_num : Z) : list nat :=
  let start_idx := batch_size self * batch_num in
  let end_idx := start_idx + batch_size self in
  Py.slice (indices self) start_idx end_idx.

Definition head_ids (self : t) (batch_num : Z) : outcome (list Id) :=
  Py.comprehension (λ ii, Py.index (ids self) (Z.of_nat ii))
    (batch_indices self batch_num).

Definition getitem (batch_num : Z) : Py.M state (Feats * option (list Tgt)) :=
  '(self, _) ← Py.get;
  let start_idx := batch_size self * batch_num in
  if decide (start_idx >= Z.of_nat (data_size self)) then Py.raise IndexError
  else
    let batch_indices := batch_indices self batch_num in
    head_ids ← Py.lift (head_ids self batch_num);
    batch_targets ←
      match targets self with
      | None => mret None
      | Some ts => ts ← Py.lift (Py.take_rows ts batch_indices); mret (Some ts)
      end;
    batch_feats ← call (_sample_features self head_ids batch_num);
    mret (batch_feats, batch_targets).

End LinkSequence.
End LinkSequence.

(** ** [OnDemandLinkSequence] *)

Module OnDemandLinkSequence.
Section OnDemandLinkSequence.
Context {rng C Id Tgt Feats : Type}.

Definition sample_function : Type := list Id → Z → Py.M C Feats.

(** One batch as the walker hands it out: the head ids and their targets. *)
Definition batch : Type := list Id * Tgt.

(** The [walker] argument: an [UnsupervisedSampler], of which only
    [run(batch_size)] is used, or some other object. *)
Inductive pywalker : Type :=
| Sampler (run : Z → Py.M C (list batch))
| NotSampler.

Record t : Type := mk
  { _sample_features : sample_function;
    batch_size : Z;
    walker : Z → Py.M C (list batch);
    shuffle : bool;
    _batches : list batch;
    length_ : nat;
    data_size : nat }.

Definition set__batches (bs : list batch) (self : t) : t :=
  mk (_sample_features self) (batch_size self) (walker self) (shuffle self)
     bs (length_ self) (data_size self).

Definition state : Type := t * World rng C.

(** [_create_batches] *)
Definition _create_batches (self : t) : Py.M state (list batch) :=
  call (walker self (batch_size self)).

(** [__init__(sample_function, batch_size, walker, shuffle)] *)
Definition init (sample : pyfun sample_function) (batch_size : Z)
    (walker : pywalker) (shuffle : bool) : Py.M (World rng C) t :=
  match sample with
  | NotCallable => Py.raise TypeError
  | Callable f =>
      match walker with
      | NotSampler => Py.raise TypeError
      | Sampler run =>
          λ w, let '(r, c') := run batch_size (collab w) in
               match r with
               | Raise e => (Raise e, set_collab c' w)
               | Return batches =>
                   (Return (mk f batch_size run shuffle batches (length batches)
                              (sum_list (length ∘ fst <$> batches))),
                    set_collab c' w)
               end
      end
  end.

(** [__len__] *)
Definition len (self : t) : Z := Z.of_nat (length_ self).

(** [__getitem__(batch_num)] *)
Definition getitem (batch_num : Z) : Py.M state (Feats * Tgt) :=
  '(self, _) ← Py.get;
  if decide (batch_num >= len self) then Py.raise IndexError
  else
    '(head_ids, batch_targets) ← Py.lift (Py.index (_batches self) batch_num);
    batch_feats ← call (_sample_features self head_ids batch_num);
    mret (batch_feats, batch_targets).

(** [on_epoch_end] *)
Definition on_epoch_end : Py.M state unit :=
  '(self, _) ← Py.get;
  if shuffle self then
    batches ← _create_batches self;
    '(self, w) ← Py.get;
    Py.put (set__batches batches self, w)
  else mret tt.

End OnDemandLinkSequence.
End OnDemandLinkSequence.

(** ** Arrays ([numpy]) *)

Module Np.

(** An array-like Python value: a number, [None], or a sequence of values
    (an n-dimensional array is a nest of sequences along its axes). *)
#[local] Unset Elimination Schemes.
Inductive tensor : Type :=
| Num (z : Z)
| PyNone
| Arr (items : list tensor).
#[local] Set Elimination Schemes.

Definition vec (v : list Z) : tensor := Arr (Num <$> v).
Definition mat (m : list (list Z)) : tensor := Arr (vec <$> m).
Definition cube (c : list (list (list Z))) : tensor := Arr (mat <$> c).

(** [len(a)] *)
Definition len (a : tensor) : outcome nat :=
  match a with
  | Arr items => Return (length items)
  | _ => Raise TypeError
  end.

(** A dense two-dimensional array with its number of columns (which an
    array with no rows still has). *)
Record matrix : Type := mk_matrix
  { ncols : nat;
    rows : list (list Z) }.

Definition shape (m : matrix) : nat * nat := (length (rows m), ncols m).

(** [np.pad(m, pad_width=((0, k), (0, 0)))]: [k] rows of zeros below. *)
Definition pad_rows (m : matrix) (k : nat) : matrix :=
  mk_matrix (ncols m) (rows m ++ replicate k (replicate (ncols m) 0)).

(** [np.stack(ms)]: a new leading axis; the arrays must be of one shape, and
    there must be at least one. *)
Definition stack (ms : list matrix) : outcome (list (list (list Z))) :=
  match ms with
  | [] => Raise ValueError
  | m :: _ =>
      if forallb (λ m', bool_decide (shape m' = shape m)) ms
      then Return (rows <$> ms)
      else Raise ValueError
  end.

(** [np.full((m, n), fill_value=False, dtype=np.bool)] *)
Definition full_false (m n : nat) : list (list bool) :=
  replicate m (replicate n false).

(** [masks[index, :n] = True] *)
Definition set_row_prefix (masks : list (list bool)) (index n : nat) : list (list bool) :=
  alter (λ r, replicate (n `min` length r) true ++ drop n r) index masks.

(** [np.zeros(shape)]; a negative dimension is a [ValueError]. *)
Fixpoint zeros (dims : list Z) : outcome tensor :=
  match dims with
  | [] => Return (Num 0)
  | d :: dims' =>
      if decide (d < 0) then Raise ValueError
      else match zeros dims' with
           | Raise e => Raise e
           | Return a => Return (Arr (replicate (Z.to_nat d) a))
           end
  end.

(** [a[:, 0] = 1.0] on a two-dimensional array. *)
Definition set_column0_one (a : tensor) : tensor :=
  match a with
  | Arr rows =>
      Arr ((λ r, match r with
                 | Arr (_ :: r') => Arr (Num 1 :: r')
                 | _ => r
                 end) <$> rows)
  | _ => a
  end.

(** [a[0, :, 0] = 1.0] on a three-dimensional array whose first axis is not
    empty. *)
Definition set_plane0_column0_one (a : tensor) : tensor :=
  match a with
  | Arr (p :: ps) => Arr (set_column0_one p :: ps)
  | _ => a
  end.

End Np.

(** [_full_batch_array_and_reshape(array, propagate_none)]: an extra leading
    axis of size one; [None] is passed through only when [propagate_none]. *)
Definition _full_batch_array_and_reshape (array : Np.tensor) (propagate_none : bool)
    : Np.tensor :=
  match propagate_none, array with
  | true, Np.PyNone => Np.PyNone
  | _, _ => Np.Arr [array]
  end.

(** The adjacency argument of the full-batch sequences. *)
Inductive adjacency : Type :=
| SpMatrix (A : Sparse.spmatrix)
| NdArray (A : list (list Z))
| OtherAdjacency.

(** The validation shared by the full-batch constructors:
    [(targets is not None) and (len(indices) != len(targets))]. *)
Definition targets_indices_mismatch (targets indices : Np.tensor) : outcome bool :=
  match targets with
  | Np.PyNone => Return false
  | _ =>
      match Np.len indices with
      | Raise e => Raise e
      | Return li =>
          match Np.len targets with
          | Raise e => Raise e
          | Return lt => Return (bool_decide (li ≠ lt))
          end
      end
  end.

(** ** [FullBatchSequence] *)

Module FullBatchSequence.

Record t : Type := mk
  { features : Np.tensor;
    target_indices : Np.tensor;
    A_dense : list (list (list Z));
    inputs : list Np.tensor;
    targets : Np.tensor }.

Definition use_sparse : bool := false.

(** [__init__(features, A, targets, indices)] *)
Definition init (features : Np.tensor) (A : adjacency) (targets indices : Np.tensor)
    : outcome t :=
  match targets_indices_mismatch targets indices with
  | Raise e => Raise e
  | Return true => Raise ValueError
  | Return false =>
      let A_dense :=
        match A with
        | SpMatrix A => Return [Sparse.toarray A]
        | NdArray A => Return [A]
        | OtherAdjacency => Raise TypeError
        end in
      match A_dense with
      | Raise e => Raise e
      | Return A_dense =>
          let features := _full_batch_array_and_reshape features false in
          let target_indices := _full_batch_array_and_reshape indices false in
          Return (mk features target_indices A_dense
                    [features; target_indices; Np.cube A_dense]
                    (_full_batch_array_and_reshape targets true))
      end
  end.

Definition len (self : t) : Z := 1.

Definition getitem {W} (index : Z) : Py.M (t * W) (list Np.tensor * Np.tensor) :=
  '(self, _) ← Py.get;
  mret (inputs self, targets self).

End FullBatchSequence.

(** ** [SparseFullBatchSequence] *)

Module SparseFullBatchSequence.

Record t : Type := mk
  { A_indices : list (list (list Z));
    A_values : list (list Z);
    target_indices : Np.tensor;
    features : Np.tensor;
    inputs : list Np.tensor;
    targets : Np.tensor }.

Definition use_sparse : bool := true.

(** [np.expand_dims(np.hstack((A.row[:, None], A.col[:, None])), 0)] *)
Definition coordinates (A : Sparse.spmatrix) : list (list (list Z)) :=
  [ zip_with (λ r c, [Z.of_nat r; Z.of_nat c]) (Sparse.row A) (Sparse.col A) ].

(** [__init__(features, A, targets, indices)]; [A.tocoo()] exposes the
    stored triples. *)
Definition init (features : Np.tensor) (A : adjacency) (targets indices : Np.tensor)
    : outcome t :=
  match targets_indices_mismatch targets indices with
  | Raise e => Raise e
  | Return true => Raise ValueError
  | Return false =>
      match A with
      | SpMatrix A =>
          let A_indices := coordinates A in
          let A_values := [Sparse.data A] in
          let target_indices := _full_batch_array_and_reshape indices false in
          let features := _full_batch_array_and_reshape features false in
          Return (mk A_indices A_values target_indices features
                    [features; target_indices; Np.cube A_indices; Np.mat A_values]
                    (_full_batch_array_and_reshape targets true))
      | _ => Raise ValueError
      end
  end.

Definition len (self : t) : Z := 1.

Definition getitem {W} (index : Z) : Py.M (t * W) (list Np.tensor * Np.tensor) :=
  '(self, _) ← Py.get;
  mret (inputs self, targets self).

End SparseFullBatchSequence.

(** ** [RelationalFullBatchNodeSequence] *)

Module RelationalFullBatchNodeSequence.

(** [A_indices] and [A_values] are assigned in sparse mode only: [None]
    stands for an attribute that does not exist. *)
Record t : Type := mk
  { use_sparse : bool;
    A_indices : option (list Np.tensor);
    A_values : option (list Np.tensor);
    As : list Np.tensor;
    target_indices : Np.tensor;
    features : Np.tensor;
    inputs : list Np.tensor;
    targets : Np.tensor }.

(** [__init__(features, As, use_sparse, targets, indices)] *)
Definition init (features : Np.tensor) (As : list Sparse.spmatrix) (use_sparse : bool)
    (targets indices : Np.tensor) : outcome t :=
  match targets_indices_mismatch targets indices with
  | Raise e => Raise e
  | Return true => Raise ValueError
  | Return false =>
      let '(A_indices, A_values, As) :=
        if use_sparse then
          let A_indices := (λ A, Np.cube (SparseFullBatchSequence.coordinates A)) <$> As in
          let A_values := (λ A, Np.mat [Sparse.data A]) <$> As in
          (Some A_indices, Some A_values, A_indices ++ A_values)
        else (None, None, (λ A, Np.cube [Sparse.toarray A]) <$> As) in
      let target_indices := _full_batch_array_and_reshape indices false in
      let features := _full_batch_array_and_reshape features false in
      Return (mk use_sparse A_indices A_values As target_indices features
                ([features; target_indices] ++ As)
                (_full_batch_array_and_reshape targets true))
  end.

Definition len (self : t) : Z := 1.

Definition getitem {W} (index : Z) : Py.M (t * W) (list Np.tensor * Np.tensor) :=
  '(self, _) ← Py.get;
  mret (inputs self, targets self).

End RelationalFullBatchNodeSequence.

(** ** [GraphSequence] *)

(** The graph collaborator ([StellarGraph]): [number_of_nodes()],
    [node_features(nodes())] and [to_adjacency_matrix()], which builds a new
    sparse matrix on every call. *)
Record Graph : Type := mk_graph
  { number_of_nodes : nat;
    node_features : Np.matrix;
    to_adjacency_matrix : Sparse.spmatrix }.

Global Instance spmatrix_inhabited : Inhabited Sparse.spmatrix :=
  populate (Sparse.mk_spmatrix (0%nat, 0%nat) []).

Module GraphSequence.
Section GraphSequence.
Context {rng : Type} `{RandomGen rng} {C Tgt : Type}.

(** [stellargraph.core.utils.normalize_adj], which returns a new matrix. *)
Context (core_normalize_adj : Sparse.spmatrix → Sparse.spmatrix).

(** The attributes.  The cached adjacency matrices are references into the
    heap.  [normalized_adjs] and [normalize_adjs] are assigned on some paths
    of [__init__] only: [None] stands for an attribute that does not exist. *)
Record t : Type := mk
  { name : option string;
    graphs : list Graph;
    normalize_adj : bool;
    targets : option (list Tgt);
    batch_size : Z;
    normalized_adjs : option (list nat);
    normalize_adjs : option (list nat) }.

Definition set_graphs (gs : list Graph) (self : t) : t :=
  mk (name self) gs (normalize_adj self) (targets self) (batch_size self)
     (normalized_adjs self) (normalize_adjs self).
Definition set_targets (ts : option (list Tgt)) (self : t) : t :=
  mk (name self) (graphs self) (normalize_adj self) ts (batch_size self)
     (normalized_adjs self) (normalize_adjs self).
Definition set_normalized_adjs (adjs : list nat) (self : t) : t :=
  mk (name self) (graphs self) (normalize_adj self) (targets self) (batch_size self)
     (Some adjs) (normalize_adjs self).
Definition set_normalize_adjs (adjs : list nat) (self : t) : t :=
  mk (name self) (graphs self) (normalize_adj self) (targets self) (batch_size self)
     (normalized_adjs self) (Some adjs).

Definition state : Type := t * World rng C.

Definition self_ : Py.M state t := λ s, (Return s.1, s).
Definition update (f : t → t) : Py.M state unit := λ s, (Return tt, (f s.1, s.2)).

(** Reading an attribute that may not exist. *)
Definition getattr {A} (o : option A) : Py.M state A :=
  match o with
  | Some a => mret a
  | None => Py.raise AttributeError
  end.

(** A new sparse matrix object. *)
Definition alloc (A : Sparse.spmatrix) : Py.M state nat :=
  λ '(self, w),
    let l := fresh (dom (heap w)) in
    (Return l, (self, set_heap (<[l := A]> (heap w)) w)).

(** The object behind a reference (references come from [alloc] only). *)
Definition deref (l : nat) : Py.M state Sparse.spmatrix :=
  λ s, (Return (heap s.2 !!! l), s).

(** [adj.resize(shape)] on the object behind a reference. *)
Definition resize (l : nat) (shape : nat * nat) : Py.M state unit :=
  λ '(self, w),
    (Return tt, (self, set_heap (<[l := Sparse.resize shape (heap w !!! l)]> (heap w)) w)).

(** [adj.toarray()] *)
Definition toarray (l : nat) : Py.M state Np.matrix :=
  A ← deref l;
  mret (Np.mk_matrix (Sparse.shape A).2 (Sparse.toarray A)).

(** [random.shuffle(indexes)], with the generator of the [random] module. *)
Definition random_shuffle (indexes : list nat) : Py.M state (list nat) :=
  λ '(self, w),
    let '(indexes, g') := rs_shuffle (random_module w) indexes in
    (Return indexes, (self, set_random_module g' w)).

(** [on_epoch_end] *)
Definition on_epoch_end : Py.M state unit :=
  self ← self_;
  indexes ← random_shuffle (Py.range (length (graphs self)));
  gs ← Py.lift (Py.take_rows (graphs self) indexes);
  _ ← update (set_graphs gs);
  adjs ← getattr (normalized_adjs self);
  adjs ← Py.lift (Py.take_rows adjs indexes);
  _ ← update (set_normalized_adjs adjs);
  match targets self with
  | Some ts =>
      ts ← Py.lift (Py.take_rows ts indexes);
      update (set_targets (Some ts))
  | None => mret tt
  end.

Definition construct (self : t) (body : Py.M state unit) : Py.M (World rng C) t :=
  λ w, let '(r, (self, w)) := body (self, w) in
       match r with
       | Return _ => (Return self, w)
       | Raise e => (Raise e, w)
       end.

(** [__init__(graphs, targets, normalize, batch_size, name)] *)
Definition init (graphs : list Graph) (targets : option (list Tgt))
    (normalize : bool) (batch_size : Z) (name : option string)
    : Py.M (World rng C) t :=
  construct (mk name graphs normalize targets batch_size None None)
    (_ ← match targets with
         | Some ts =>
             if decide (length graphs ≠ length ts) then Py.raise ValueError
             else mret tt
         | None => mret tt
         end;
     self ← self_;
     _ ← (if normalize_adj self then
            adjs ← Py.map_m
                     (λ graph, alloc (core_normalize_adj (to_adjacency_matrix graph)))
                     graphs;
            update (set_normalized_adjs adjs)
          else
            adjs ← Py.map_m (λ graph, alloc (to_adjacency_matrix graph)) graphs;
            update (set_normalize_adjs adjs));
     self ← self_;
     adjs ← getattr (normalized_adjs self);
     _ ← update (set_normalized_adjs adjs);
     on_epoch_end).

(** [__len__] *)
Definition len (self : t) : outcome Z :=
  Py.ceil_div (Z.of_nat (length (graphs self))) (batch_size self).

(** What [__getitem__] returns: [[features, masks, adj_graphs], graph_targets]. *)
Record batch : Type := mk_batch
  { features : list (list (list Z));
    masks : list (list bool);
    adj_graphs : list (list (list Z));
    graph_targets : option (list Tgt) }.

(** [__getitem__(index)].  The padding width [max_nodes - n] is never
    negative, [max_nodes] being the largest [n] of the batch. *)
Definition getitem (index : Z) : Py.M state batch :=
  self ← self_;
  let batch_start := index * batch_size self in
  let batch_end := (index + 1) * batch_size self in
  let graphs := Py.slice (graphs self) batch_start batch_end in
  adjs ← getattr (normalized_adjs self);
  let adj_graphs := Py.slice adjs batch_start batch_end in
  max_nodes ← Py.lift (Py.max_of (number_of_nodes <$> graphs));
  let graph_targets :=
    (λ ts, Py.slice ts batch_start batch_end) <$> targets self in
  features ←
    Py.lift (Np.stack
      ((λ graph, Np.pad_rows (node_features graph)
                   (max_nodes - number_of_nodes graph)) <$> graphs));
  _ ← Py.for_each adj_graphs (λ adj, resize adj (max_nodes, max_nodes));
  arrays ← Py.map_m toarray adj_graphs;
  adj_graphs ← Py.lift (Np.stack arrays);
  let masks :=
    foldl (λ masks '(index, graph),
             Np.set_row_prefix masks index (number_of_nodes graph))
          (Np.full_false (length graphs) max_nodes) (Py.enumerate graphs) in
  mret (mk_batch features masks adj_graphs graph_targets).

End GraphSequence.
End GraphSequence.


(** ** [CorruptedNodeSequence] *)

(** The array arithmetic of NumPy that [CorruptedNodeSequence.__getitem__]
    relies on: pure functions of their arguments, which raise on arrays of
    an unfit shape. *)
Class ArrayOps : Type :=
  { (** [a.shape] *)
    np_shape : Np.tensor → list nat;
    (** [a[:, idxs, :]] *)
    np_take_axis1 : Np.tensor → list nat → outcome Np.tensor;
    (** [a[idxs, :]] *)
    np_take_axis0 : Np.tensor → list nat → outcome Np.tensor;
    (** [np.concatenate(arrays, axis=1)] *)
    np_concatenate_axis1 : list Np.tensor → outcome Np.tensor;
    (** [a.reshape(shape)], where one dimension may be [-1] *)
    np_reshape : Np.tensor → list Z → outcome Np.tensor;
    (** [np.split(a, points, axis=1)] *)
    np_split_axis1 : Np.tensor → list nat → outcome (list Np.tensor);
    (** [a[:n, :]] *)
    np_head_rows : Np.tensor → nat → outcome Np.tensor }.

(** [np.cumsum(l)] *)
Definition cumsum (l : list nat) : list nat :=
  (foldl (λ '(acc, total) x, (acc ++ [(total + x)%nat], (total + x)%nat)) ([], 0%nat) l).1.

Module CorruptedNodeSequence.
Section CorruptedNodeSequence.
Context {rng : Type} `{RandomGen rng} `{ArrayOps} {C Id Tgt LinkTgt : Type}.

(** The features a node batcher hands out under this wrapper: one array per
    hop. *)
Local Abbreviation Feats := (list Np.tensor).

(** A Python object by its class: an instance of one of the sequences of
    this module, or anything else.  No class of the module derives from
    another. *)
Inductive sequence : Type :=
| ANodeSequence (s : @NodeSequence.t rng C Id Tgt Feats)
| ALinkSequence (s : @LinkSequence.t rng C Id Tgt Feats)
| AnOnDemandLinkSequence (s : @OnDemandLinkSequence.t C Id LinkTgt Feats)
| AFullBatchSequence (s : FullBatchSequence.t)
| ASparseFullBatchSequence (s : SparseFullBatchSequence.t)
| ARelationalFullBatchNodeSequence (s : RelationalFullBatchNodeSequence.t)
| AGraphSequence (s : @GraphSequence.t Tgt)
| ACorruptedNodeSequence
| AnotherObject.

(** The wrapped sources that pass the [isinstance] tests of [__init__]. *)
Inductive wrapped : Type :=
| WrapFullBatch (s : FullBatchSequence.t)
| WrapSparseFullBatch (s : SparseFullBatchSequence.t)
| WrapNode (s : @NodeSequence.t rng C Id Tgt Feats).

Record t : Type := mk
  { base_generator : wrapped;
    targets : Np.tensor }.

(** [__init__(base_generator)] *)
Definition init (base_generator : sequence) : outcome t :=
  match base_generator with
  | AFullBatchSequence s =>
      match Np.len (FullBatchSequence.target_indices s) with
      | Raise e => Raise e
      | Return n =>
          match Np.zeros [1; Z.of_nat n; 2] with
          | Raise e => Raise e
          | Return z => Return (mk (WrapFullBatch s) (Np.set_plane0_column0_one z))
          end
      end
  | ASparseFullBatchSequence s =>
      match Np.len (SparseFullBatchSequence.target_indices s) with
      | Raise e => Raise e
      | Return n =>
          match Np.zeros [1; Z.of_nat n; 2] with
          | Raise e => Raise e
          | Return z => Return (mk (WrapSparseFullBatch s) (Np.set_plane0_column0_one z))
          end
      end
  | ANodeSequence s =>
      match Np.zeros [NodeSequence.batch_size s; 2] with
      | Raise e => Raise e
      | Return z => Return (mk (WrapNode s) (Np.set_column0_one z))
      end
  | _ => Raise TypeError
  end.

(** [__len__] *)
Definition len (self : t) : outcome Z :=
  match base_generator self with
  | WrapFullBatch s => Return (FullBatchSequence.len s)
  | WrapSparseFullBatch s => Return (SparseFullBatchSequence.len s)
  | WrapNode s => NodeSequence.len s
  end.

Definition state : Type := t * World rng C.

(** A method call on the wrapped object, which is the caller's object and
    keeps whatever the call does to it. *)
Definition on_base {B A} (b : B) (wrap : B → wrapped)
    (m : Py.M (B * World rng C) A) : Py.M state A :=
  λ '(self, w),
    let '(r, (b', w')) := m (b, w) in
    (r, (mk (wrap b') (targets self), w')).

(** [np.random.permutation(n)]: [arange(n)] shuffled by the process-wide
    NumPy generator. *)
Definition np_random_permutation (n : nat) : Py.M state (list nat) :=
  λ '(self, w),
    let '(idxs, g') := rs_shuffle (numpy_random w) (Py.range n) in
    (Return idxs, (self, set_numpy_random g' w)).

(** The branch of [__getitem__] for the full-batch sequences. *)
Definition corrupt_full_batch (inputs : list Np.tensor)
    : Py.M state (list Np.tensor * Np.tensor) :=
  features ← Py.lift (Py.index inputs 0);
  n ← Py.lift (Py.index (np_shape features) 1);
  shuffled_idxs ← np_random_permutation n;
  shuffled_feats ← Py.lift (np_take_axis1 features shuffled_idxs);
  '(self, _) ← Py.get;
  mret (shuffled_feats :: inputs, targets self).

(** The other branch of [__getitem__]. *)
Definition corrupt_per_hop (inputs : list Np.tensor)
    : Py.M state (list Np.tensor * Np.tensor) :=
  let features := inputs in
  stacked_feats ← Py.lift (np_concatenate_axis1 features);
  first ← Py.lift (Py.index features 0);
  width ← Py.lift (Py.index (np_shape first) (-1));
  shuffled_feats ← Py.lift (np_reshape stacked_feats [-1; Z.of_nat width]);
  n ← Py.lift (Py.index (np_shape shuffled_feats) 0);
  shuffled_idxs ← np_random_permutation n;
  shuffled_feats ← Py.lift (np_take_axis0 shuffled_feats shuffled_idxs);
  shuffled_feats ←
    Py.lift (np_reshape shuffled_feats (Z.of_nat <$> np_shape stacked_feats));
  hops ← Py.lift (Py.comprehension (λ y, Py.index (np_shape y) 1) features);
  shuffled_feats ←
    Py.lift (np_split_axis1 shuffled_feats (Py.slice (cumsum hops) 0 (-1)));
  rows ← Py.lift (Py.index (np_shape stacked_feats) 0);
  '(self, _) ← Py.get;
  batch_targets ← Py.lift (np_head_rows (targets self) rows);
  mret (shuffled_feats ++ features, batch_targets).

(** [__getitem__(index)] *)
Definition getitem (index : Z) : Py.M state (list Np.tensor * Np.tensor) :=
  '(self, _) ← Py.get;
  match base_generator self with
  | WrapFullBatch s =>
      '(inputs, _) ← on_base s WrapFullBatch (FullBatchSequence.getitem index);
      corrupt_full_batch inputs
  | WrapSparseFullBatch s =>
      '(inputs, _) ← on_base s WrapSparseFullBatch (SparseFullBatchSequence.getitem index);
      corrupt_full_batch inputs
  | WrapNode s =>
      '(inputs, _) ← on_base s WrapNode (NodeSequence.getitem index);
      corrupt_per_hop inputs
  end.

End CorruptedNodeSequence.
End CorruptedNodeSequence.

(** * Life cycles

    An instance is constructed once and then driven by the training loop:
    batches are fetched and [on_epoch_end] is called between epochs.  Between
    two calls the rest of the process may change the process state in any
    way (draw from the process-wide generators, run the collaborators). *)

Section Lifecycle.
Context {rng : Type} `{RandomGen rng} {C Id Tgt Feats : Type}.

Definition interference : Type := World rng C → World rng C.

(** One [on_epoch_end] per element of [env], each after the interference of
    that element. *)
Fixpoint node_epochs (env : list interference)
    (st : @NodeSequence.state rng C Id Tgt Feats)
    : outcome unit * @NodeSequence.state rng C Id Tgt Feats :=
  match env with
  | [] => (Return tt, st)
  | e :: env' =>
      match NodeSequence.on_epoch_end (st.1, e st.2) with
      | (Return _, st') => node_epochs env' st'
      | (Raise x, st') => (Raise x, st')
      end
  end.

(** Construction followed by the epoch ends of [env]; the result is the
    instance at the start of the next epoch. *)
Definition node_lifecycle (random_state : option Z → rs_handle rng)
    (sample : pyfun NodeSequence.sample_function) (batch_size : Z)
    (ids : pyarg Id) (targets : option (pyarg Tgt)) (shuffle : bool)
    (seed : option Z) (w : World rng C) (env : list interference)
    : outcome (@NodeSequence.t rng C Id Tgt Feats) :=
  match NodeSequence.init random_state sample batch_size ids targets shuffle seed w with
  | (Return self, w') =>
      match node_epochs env (self, w') with
      | (Return _, (self', _)) => Return self'
      | (Raise e, _) => Raise e
      end
  | (Raise e, _) => Raise e
  end.

Fixpoint link_epochs (env : list interference)
    (st : @LinkSequence.state rng C Id Tgt Feats)
    : outcome unit * @LinkSequence.state rng C Id Tgt Feats :=
  match env with
  | [] => (Return tt, st)
  | e :: env' =>
      match LinkSequence.on_epoch_end (st.1, e st.2) with
      | (Return _, st') => link_epochs env' st'
      | (Raise x, st') => (Raise x, st')
      end
  end.

Definition link_lifecycle (random_state : option Z → rs_handle rng)
    (sample : pyfun LinkSequence.sample_function) (batch_size : Z)
    (ids : pyarg Id) (targets : option (pyarg Tgt)) (shuffle : bool)
    (seed : option Z) (w : World rng C) (env : list interference)
    : outcome (@LinkSequence.t rng C Id Tgt Feats) :=
  match LinkSequence.init random_state sample batch_size ids targets shuffle seed w with
  | (Return self, w') =>
      match link_epochs env (self, w') with
      | (Return _, (self', _)) => Return self'
      | (Raise e, _) => Raise e
      end
  | (Raise e, _) => Raise e
  end.

(** Arguments that pass the validation of the per-entity constructors. *)
Definition valid_targets (ids : list Id) (targets : option (pyarg Tgt)) : Prop :=
  match targets with
  | None => True
  | Some (Iterable ts) => length ids = length ts
  | Some NotIterable => False
  end.

(** The state a per-entity batcher keeps between calls is consistent: the
    index permutation rearranges [0, data_size). *)
Definition node_consistent (self : @NodeSequence.t rng C Id Tgt Feats) : Prop :=
  NodeSequence.data_size self = length (NodeSequence.ids self) ∧
  NodeSequence.indices self ≡ₚ seq 0 (NodeSequence.data_size self) ∧
  ∀ ts, NodeSequence.targets self = Some ts →
        length ts = NodeSequence.data_size self.

Definition link_consistent (self : @LinkSequence.t rng C Id Tgt Feats) : Prop :=
  LinkSequence.data_size self = length (LinkSequence.ids self) ∧
  LinkSequence.indices self ≡ₚ seq 0 (LinkSequence.data_size self) ∧
  ∀ ts, LinkSequence.targets self = Some ts →
        length ts = LinkSequence.data_size self.

(** The attributes fixed by the constructor arguments. *)
Definition node_configured (self : @NodeSequence.t rng C Id Tgt Feats)
    (f : NodeSequence.sample_function) (batch_size : Z) (ids : list Id)
    (targets : option (pyarg Tgt)) (shuffle : bool) : Prop :=
  NodeSequence._sample_function self = f ∧
  NodeSequence.batch_size self = batch_size ∧
  NodeSequence.ids self = ids ∧
  Iterable <$> NodeSequence.targets self = targets ∧
  NodeSequence.shuffle self = shuffle.

Definition link_configured (self : @LinkSequence.t rng C Id Tgt Feats)
    (f : LinkSequence.sample_function) (batch_size : Z) (ids : list Id)
    (targets : option (pyarg Tgt)) (shuffle : bool) : Prop :=
  LinkSequence._sample_features self = f ∧
  LinkSequence.batch_size self = batch_size ∧
  LinkSequence.ids self = ids ∧
  Iterable <$> LinkSequence.targets self = targets ∧
  LinkSequence.shuffle self = shuffle.

End Lifecycle.

(** ** A concrete generator

    A small deterministic generator used to run the definitions on examples:
    a linear congruential state, and a [shuffle] that rotates the list by a
    state-dependent offset. *)

Definition toy_next (g : Z) : Z := (g * 1103515245 + 12345) `mod` 2147483648.

Definition toy_shuffle (g : Z) (l : list nat) : list nat * Z :=
  (rotate (Z.to_nat (toy_next g `mod` Z.max 1 (Z.of_nat (length l)))) l, toy_next g).

Global Instance toy_rng : RandomGen Z := {| rs_shuffle := toy_shuffle |}.

(** A [random_state] in the manner of [stellargraph.random]: a seed makes a
    private generator, no seed means the process-wide one. *)
Definition toy_random_state (seed : option Z) : rs_handle Z :=
  match seed with
  | Some s => OwnRS s
  | None => GlobalRS
  end.

(** ** Reading matrices *)

(** The entry [B[i, j]] of a dense matrix given by its rows, when there is
    one. *)
Definition cell {X} (B : list (list X)) (i j : nat) : option X :=
  B !! i ≫= (.!! j).

(** Every stored coordinate of a sparse matrix is below [n] on both axes:
    the matrix has no entry outside its leading [n × n] block. *)
Definition within (n : nat) (A : Sparse.spmatrix) : Prop :=
  Forall (λ e, (e.1.1 < n)%nat ∧ (e.1.2 < n)%nat) (Sparse.entries A).

(** ** The graph batcher in use *)

(** What the graph collaborator promises: as many feature rows as nodes, a
    feature width [F], and a square adjacency matrix over the nodes. *)
Definition graph_wf (F : nat) (g : Graph) : Prop :=
  length (Np.rows (node_features g)) = number_of_nodes g ∧
  Np.ncols (node_features g) = F ∧
  Sparse.shape (to_adjacency_matrix g) = (number_of_nodes g, number_of_nodes g) ∧
  Sparse.in_bounds (to_adjacency_matrix g).

(** What adjacency normalisation promises: the same shape, and stored
    coordinates inside it. *)
Definition normalize_ok (normalize : Sparse.spmatrix → Sparse.spmatrix) : Prop :=
  ∀ A, Sparse.in_bounds A →
       Sparse.shape (normalize A) = Sparse.shape A ∧ Sparse.in_bounds (normalize A).

Section GraphLifecycle.
Context {rng : Type} `{RandomGen rng} {C Tgt : Type}.

Inductive graph_call : Type :=
| GraphEpochEnd
| GraphGetItem (index : Z).

(** One call on the instance; the result is dropped, the effect is kept. *)
Definition graph_step (c : graph_call)
    (st : @GraphSequence.state rng C Tgt) : @GraphSequence.state rng C Tgt :=
  match c with
  | GraphEpochEnd => (GraphSequence.on_epoch_end st).2
  | GraphGetItem index => (GraphSequence.getitem index st).2
  end.

(** A run of calls; before each call the rest of the process may have left
    the process-wide generator in any state. *)
Fixpoint graph_run (calls : list (rng * graph_call))
    (st : @GraphSequence.state rng C Tgt) : @GraphSequence.state rng C Tgt :=
  match calls with
  | [] => st
  | (g, c) :: calls' => graph_run calls' (graph_step c (st.1, set_random_module g st.2))
  end.

(** The state kept for the graphs [gs0], whose cached adjacency matrices
    live at [ls0]: graphs and references are reordered in lockstep, the
    references are distinct, and each cached matrix has no entry outside the
    nodes of its graph. *)
Definition graph_inv (gs0 : list Graph) (ls0 : list nat)
    (st : @GraphSequence.state rng C Tgt) : Prop :=
  length gs0 = length ls0 ∧
  NoDup ls0 ∧
  (∀ g l, (g, l) ∈ zip gs0 ls0 → within (number_of_nodes g) (heap st.2 !!! l)) ∧
  (∀ ts, GraphSequence.targets st.1 = Some ts →
         length ts = length (GraphSequence.graphs st.1)) ∧
  ∃ adjs,
    GraphSequence.normalized_adjs st.1 = Some adjs ∧
    length adjs = length (GraphSequence.graphs st.1) ∧
    zip (GraphSequence.graphs st.1) adjs ≡ₚ zip gs0 ls0.

End GraphLifecycle.

(** The heap after the loop [for adj in adj_graphs: adj.resize(shape)]. *)
Definition resized (shape : nat * nat) (ls : list nat)
    (h : gmap nat Sparse.spmatrix) : gmap nat Sparse.spmatrix :=
  foldl (λ h l, <[l := Sparse.resize shape (h !!! l)]> h) h ls.

(** The graphs and the cached matrices of batch [index]: the slice
    [[index * batch_size, (index + 1) * batch_size)] of the current order. *)
Definition batch_graphs {Tgt} (self : @GraphSequence.t Tgt) (index : Z) : list Graph :=
  Py.slice (GraphSequence.graphs self) (index * GraphSequence.batch_size self)
    ((index + 1) * GraphSequence.batch_size self).

Definition batch_refs {Tgt} (self : @GraphSequence.t Tgt) (index : Z) : list nat :=
  Py.slice (default [] (GraphSequence.normalized_adjs self))
    (index * GraphSequence.batch_size self)
    ((index + 1) * GraphSequence.batch_size self).

(** The batch of the graphs [gs] with cached matrices at [ls] in the heap
    [h], padded to [m] nodes: feature rows followed by zero rows of width
    [F], masks that are true on the nodes of each graph, and the dense
    adjacency matrices resized to [m × m]. *)
Definition padded_batch {Tgt} (F m : nat) (gs : list Graph) (ls : list nat)
    (h : gmap nat Sparse.spmatrix) (graph_targets : option (list Tgt))
    : @GraphSequence.batch Tgt :=
  GraphSequence.mk_batch
    ((λ g, Np.rows (node_features g) ++
           replicate (m - number_of_nodes g) (replicate F 0)) <$> gs)
    ((λ g, replicate (number_of_nodes g) true ++
           replicate (m - number_of_nodes g) false) <$> gs)
    ((λ l, Sparse.toarray (Sparse.resize (m, m) (h !!! l))) <$> ls)
    graph_targets.

(** ** The on-demand planner in use *)

Section OnDemandLifecycle.
Context {rng C Id Tgt Feats : Type}.

(** Asking the walker for a new set of batches for the configured batch size
    and storing it in place of the old one. *)
Definition regenerate (st : @OnDemandLinkSequence.state rng C Id Tgt Feats)
    : outcome unit * @OnDemandLinkSequence.state rng C Id Tgt Feats :=
  let '(self, w) := st in
  let '(r, c') :=
    OnDemandLinkSequence.walker self (OnDemandLinkSequence.batch_size self) (collab w) in
  match r with
  | Return batches =>
      (Return tt, (OnDemandLinkSequence.set__batches batches self, set_collab c' w))
  | Raise e => (Raise e, (self, set_collab c' w))
  end.

Inductive ondemand_call : Type :=
| OnDemandEpochEnd
| OnDemandGetItem (batch_num : Z).

Definition ondemand_step (c : ondemand_call)
    (st : @OnDemandLinkSequence.state rng C Id Tgt Feats)
    : @OnDemandLinkSequence.state rng C Id Tgt Feats :=
  match c with
  | OnDemandEpochEnd => (OnDemandLinkSequence.on_epoch_end st).2
  | OnDemandGetItem batch_num => (OnDemandLinkSequence.getitem batch_num st).2
  end.

(** A run of calls, each after some interference of the rest of the
    process. *)
Fixpoint ondemand_run (calls : list ((World rng C → World rng C) * ondemand_call))
    (st : @OnDemandLinkSequence.state rng C Id Tgt Feats)
    : @OnDemandLinkSequence.state rng C Id Tgt Feats :=
  match calls with
  | [] => st
  | (e, c) :: calls' => ondemand_run calls' (ondemand_step c (st.1, e st.2))
  end.

End OnDemandLifecycle.

(** A walker for the examples: its state counts the calls of [run], and the
    [n]-th call returns [n] batches of one id each. *)
Definition counting_walker (batch_size : Z) : Py.M nat (list (list nat * nat)) :=
  λ n, (Return (replicate (S n) ([n], n)), S n).

(** ** Rebuilding a dense matrix from the coordinate output *)

(** [B[i, j] = v] *)
Definition place_at (B : list (list Z)) (i j : nat) (v : Z) : list (list Z) :=
  alter (<[j := v]>) i B.

(** The dense matrix rebuilt from the sparse packer's output in the words of
    the specification: on a zero matrix of the adjacency's shape, each value
    of the [(1, E)] value array is placed at the (row, col) position given
    by the [(1, E, 2)] index array. *)
Definition reconstruct_placing (shape : nat * nat)
    (A_indices : list (list (list Z))) (A_values : list (list Z)) : list (list Z) :=
  foldl (λ B '(rc, v),
           match rc with
           | [r; c] => place_at B (Z.to_nat r) (Z.to_nat c) v
           | _ => B
           end)
        (Sparse.zeros shape.1 shape.2)
        (zip (default [] (head A_indices)) (default [] (head A_values))).

(** The same with each value added to what its position already holds. *)
Definition reconstruct_adding (shape : nat * nat)
    (A_indices : list (list (list Z))) (A_values : list (list Z)) : list (list Z) :=
  foldl (λ B '(rc, v),
           match rc with
           | [r; c] => Sparse.add_at B (Z.to_nat r) (Z.to_nat c) v
           | _ => B
           end)
        (Sparse.zeros shape.1 shape.2)
        (zip (default [] (head A_indices)) (default [] (head A_values))).

(** The stored coordinates of a sparse matrix, in storage order. *)
Definition coords (A : Sparse.spmatrix) : list (nat * nat) :=
  fst <$> Sparse.entries A.

(** Two small adjacency matrices for the examples: the two entries of one
    undirected edge on two nodes, and a 1 × 1 matrix that stores the
    position (0, 0) twice. *)
Definition edge_adjacency : Sparse.spmatrix :=
  Sparse.mk_spmatrix (2%nat, 2%nat) [(0%nat, 1%nat, 1); (1%nat, 0%nat, 1)].

Definition doubled_adjacency : Sparse.spmatrix :=
  Sparse.mk_spmatrix (1%nat, 1%nat) [(0%nat, 0%nat, 1); (0%nat, 0%nat, 2)].

(** Three small graphs for the examples, with 3, 5 and 2 nodes and two
    features per node, and an adjacency normalisation that leaves the
    matrix as it is. *)
Definition graph3 : Graph :=
  mk_graph 3 (Np.mk_matrix 2 [[1; 0]; [0; 1]; [1; 1]])
    (Sparse.mk_spmatrix (3%nat, 3%nat)
       [(0%nat, 1%nat, 1); (1%nat, 0%nat, 1); (1%nat, 2%nat, 1); (2%nat, 1%nat, 1)]).

Definition graph5 : Graph :=
  mk_graph 5 (Np.mk_matrix 2 [[1; 2]; [3; 4]; [5; 6]; [7; 8]; [9; 10]])
    (Sparse.mk_spmatrix (5%nat, 5%nat) [(0%nat, 4%nat, 1); (4%nat, 0%nat, 1)]).

Definition graph2 : Graph :=
  mk_graph 2 (Np.mk_matrix 2 [[7; 8]; [9; 10]]) edge_adjacency.

Definition keep_adjacency (A : Sparse.spmatrix) : Sparse.spmatrix := A.

(** ** Frames

    [preserves R m]: whatever the outcome of the method [m], the state it
    leaves is related by [R] to the state it started from. *)
Definition preserves {St A} (R : relation St) (m : Py.M St A) : Prop :=
  ∀ s, R s (m s).2.

(** The instance is as before, and so are the process-wide generators and
    the heap; the collaborators may have changed their own state. *)
Definition same_instance {T rng C} : relation (T * World rng C) :=
  λ st st',
    st'.1 = st.1 ∧
    random_module st'.2 = random_module st.2 ∧
    numpy_random st'.2 = numpy_random st.2 ∧
    heap st'.2 = heap st.2.

(** The instance is as before, and so are the generator of [random] and the
    heap; the NumPy generator may have advanced and the collaborators may
    have changed their own state. *)
Definition same_instance_but_numpy {T rng C} : relation (T * World rng C) :=
  λ st st',
    st'.1 = st.1 ∧
    random_module st'.2 = random_module st.2 ∧
    heap st'.2 = heap st.2.

(** The attributes are as before, and so is the process state except for
    the heap. *)
Definition same_attributes {T rng C} : relation (T * World rng C) :=
  λ st st',
    st'.1 = st.1 ∧
    random_module st'.2 = random_module st.2 ∧
    numpy_random st'.2 = numpy_random st.2 ∧
    collab st'.2 = collab st.2.

(** ** Comparing the two per-entity batchers *)

(** A link batcher read as a node batcher: the same attributes under the
    names of [NodeSequence]. *)
Definition as_node {rng C Id Tgt Feats} (l : @LinkSequence.t rng C Id Tgt Feats)
    : @NodeSequence.t rng C Id Tgt Feats :=
  NodeSequence.mk (LinkSequence.targets l) (LinkSequence._sample_features l)
    (LinkSequence.ids l) (LinkSequence.data_size l) (LinkSequence.shuffle l)
    (LinkSequence.batch_size l) (LinkSequence._rs l) (LinkSequence.indices l).

Definition outcome_map {A B} (f : A → B) (r : outcome A) : outcome B :=
  match r with
  | Return a => Return (f a)
  | Raise e => Raise e
  end.

(** The outcome and final state of a method of the one class, read as those of
    the other. *)
Definition on_self {S T W R} (f : S → T) (r : outcome R * (S * W))
    : outcome R * (T * W) :=
  (r.1, (f r.2.1, r.2.2)).

(** What the constructors of the per-entity batchers do with their
    arguments, read off an outcome [r] of the construction in the world [w]:
    an instance is returned exactly when the ids are iterable, the targets
    are absent or iterable with one entry per id, and the sampling function
    is callable; [ValueError] is raised exactly on iterable ids and targets
    of different lengths; every other failure is a [TypeError]; and a failed
    construction leaves the world as it was. *)
Definition constructor_checks {rng C Id Tgt F X}
    (sample : pyfun F) (ids : pyarg Id) (targets : option (pyarg Tgt))
    (w : World rng C) (r : outcome X * World rng C) : Prop :=
  ((∃ self, r.1 = Return self) ↔
   (∃ l f, ids = Iterable l ∧ valid_targets l targets ∧ sample = Callable f)) ∧
  (r.1 = Raise ValueError ↔
   (∃ l ts, ids = Iterable l ∧ targets = Some (Iterable ts) ∧ length l ≠ length ts)) ∧
  (∀ e, r.1 = Raise e → (e = ValueError ∨ e = TypeError) ∧ r.2 = w).

(** A walker for the examples whose answers get shorter: its state counts
    the calls of [run], and the [n]-th call returns [3 - n] batches. *)
Definition shrinking_walker (batch_size : Z) : Py.M nat (list (list nat * nat)) :=
  λ n, (Return (replicate (3 - n) ([n], n)), S n).

(** ** The graph batcher: what stays with each graph *)

(** The matrix cached for each graph of [gs0] (at the reference of [ls0] in
    the same position) still has the stored entries of the normalised
    adjacency matrix of that graph. *)
Definition graph_cached (normalize : Sparse.spmatrix → Sparse.spmatrix)
    (gs0 : list Graph) (ls0 : list nat) (h : gmap nat Sparse.spmatrix) : Prop :=
  ∀ g l, (g, l) ∈ zip gs0 ls0 →
    Sparse.entries (h !!! l) = Sparse.entries (normalize (to_adjacency_matrix g)).

(** The targets of the instance are those given for [gs0], reordered along
    with the graphs. *)
Definition graph_labelled {Tgt} (gs0 : list Graph) (ts0 : option (list Tgt))
    (self : @GraphSequence.t Tgt) : Prop :=
  match ts0 with
  | None => GraphSequence.targets self = None
  | Some ts0 =>
      ∃ ts, GraphSequence.targets self = Some ts ∧
            zip (GraphSequence.graphs self) ts ≡ₚ zip gs0 ts0
  end.

(** ** The full-batch constructors past the check of targets and indices

    What the three constructors do with the adjacency argument [A], read off
    their outcomes: the dense packer takes a sparse matrix or an array and
    raises [TypeError] on anything else; the sparse packer takes a sparse
    matrix only and raises [ValueError] on anything else; the relational
    packer returns. *)
Definition full_batch_accepted (A : adjacency)
    (dense : outcome FullBatchSequence.t)
    (sparse : outcome SparseFullBatchSequence.t)
    (relational : outcome RelationalFullBatchNodeSequence.t) : Prop :=
  match A with
  | SpMatrix _ => (∃ d, dense = Return d) ∧ (∃ s, sparse = Return s)
  | NdArray _ => (∃ d, dense = Return d) ∧ sparse = Raise ValueError
  | OtherAdjacency => dense = Raise TypeError ∧ sparse = Raise ValueError
  end ∧ ∃ r, relational = Return r.

(** All three raise [e]. *)
Definition full_batch_rejected (e : exn)
    (dense : outcome FullBatchSequence.t)
    (sparse : outcome SparseFullBatchSequence.t)
    (relational : outcome RelationalFullBatchNodeSequence.t) : Prop :=
  dense = Raise e ∧ sparse = Raise e ∧ relational = Raise e.

(** ** Array arithmetic on nested lists, for the examples

    An implementation of the operations of [ArrayOps] on arrays that are
    nests of equally long sequences, used to run the corruption wrapper on
    concrete arrays. *)

Definition tensor_items (a : Np.tensor) : list Np.tensor :=
  match a with
  | Np.Arr items => items
  | _ => []
  end.

Fixpoint tensor_shape (a : Np.tensor) : list nat :=
  match a with
  | Np.Arr items =>
      length items ::
      match items with
      | x :: _ => tensor_shape x
      | [] => []
      end
  | _ => []
  end.

(** The scalars of an array in row-major order. *)
Fixpoint tensor_leaves (a : Np.tensor) : list Np.tensor :=
  match a with
  | Np.Arr items =>
      (fix go (l : list Np.tensor) : list Np.tensor :=
         match l with
         | [] => []
         | x :: l' => tensor_leaves x ++ go l'
         end) items
  | x => [x]
  end.

(** The array of shape [dims] with the given scalars in row-major order. *)
Fixpoint tensor_build (dims : list nat) (leaves : list Np.tensor) : Np.tensor :=
  match dims with
  | [] => default (Np.Num 0) (head leaves)
  | d :: ds =>
      let p := foldr Nat.mul 1%nat ds in
      Np.Arr ((λ i, tensor_build ds (take p (drop (i * p) leaves))) <$> seq 0 d)
  end.

(** [a.reshape(shape)]: one dimension may be [-1], which stands for the
    size that makes the product of the dimensions the number of scalars. *)
Definition tensor_reshape (a : Np.tensor) (shape : list Z) : outcome Np.tensor :=
  let leaves := tensor_leaves a in
  let known := foldr Z.mul 1 (filter (λ d, d ≠ -1) shape) in
  let free := length (filter (λ d, d = -1) shape) in
  if decide (1 < free)%nat then Raise ValueError
  else if decide (Exists (λ d, d < -1) shape) then Raise ValueError
  else
    let dims :=
      (λ d, if decide (d = -1) then Z.to_nat (Z.of_nat (length leaves) `div` known)
            else Z.to_nat d) <$> shape in
    if decide (foldr Nat.mul 1%nat dims = length leaves)
    then Return (tensor_build dims leaves)
    else Raise ValueError.

(** [a[idxs, :]] *)
Definition tensor_take_axis0 (a : Np.tensor) (idxs : list nat) : outcome Np.tensor :=
  match a with
  | Np.Arr rows => outcome_map Np.Arr (Py.take_rows rows idxs)
  | _ => Raise IndexError
  end.

(** [a[:, idxs, :]] *)
Definition tensor_take_axis1 (a : Np.tensor) (idxs : list nat) : outcome Np.tensor :=
  match a with
  | Np.Arr planes =>
      outcome_map Np.Arr (Py.comprehension (λ p, tensor_take_axis0 p idxs) planes)
  | _ => Raise IndexError
  end.

(** [np.concatenate(arrays, axis=1)]: the arrays agree on the first axis. *)
Definition tensor_concatenate_axis1 (arrays : list Np.tensor) : outcome Np.tensor :=
  match arrays with
  | [] => Raise ValueError
  | a :: rest =>
      if forallb (λ b, bool_decide (length (tensor_items b) = length (tensor_items a)))
           rest
      then Return (Np.Arr (foldl (λ acc b,
                                    zip_with (λ x y, Np.Arr (tensor_items x ++ tensor_items y))
                                      acc (tensor_items b))
                             (tensor_items a) rest))
      else Raise ValueError
  end.

(** The pieces of [l] between consecutive cut points. *)
Fixpoint cut_at (start : nat) (points : list nat) (l : list Np.tensor)
    : list (list Np.tensor) :=
  match points with
  | [] => [drop start l]
  | p :: points' => take (p - start) (drop start l) :: cut_at p points' l
  end.

(** [np.split(a, points, axis=1)] *)
Definition tensor_split_axis1 (a : Np.tensor) (points : list nat)
    : outcome (list Np.tensor) :=
  match a with
  | Np.Arr planes =>
      Return ((λ k, Np.Arr ((λ p, Np.Arr (default [] (cut_at 0 points (tensor_items p) !! k)))
                              <$> planes))
                <$> seq 0 (S (length points)))
  | _ => Raise ValueError
  end.

(** [a[:n, :]] *)
Definition tensor_head_rows (a : Np.tensor) (n : nat) : outcome Np.tensor :=
  match a with
  | Np.Arr rows => Return (Np.Arr (take n rows))
  | _ => Raise IndexError
  end.

Global Instance list_array_ops : ArrayOps :=
  {| np_shape := tensor_shape;
     np_take_axis1 := tensor_take_axis1;
     np_take_axis0 := tensor_take_axis0;
     np_concatenate_axis1 := tensor_concatenate_axis1;
     np_reshape := tensor_reshape;
     np_split_axis1 := tensor_split_axis1;
     np_head_rows := tensor_head_rows |}.
(** * Properties *)

(** ** Slices, comprehensions and the ceiling *)

Section PyFacts.
Context {A B : Type}.
Implicit Types (l : list A) (f : A → outcome B).

Lemma slice_bound_nonneg (len : nat) (i : Z) :
  0 ≤ i → Py.slice_bound len i = (Z.to_nat i `min` len)%nat.
Proof.
  intros Hi. unfold Py.slice_bound. case_decide; lia.
Qed.

(** For a positive step [b] and a batch number [i ≥ 0], the slice
    [l[b*i : b*i + b]] holds the [b] elements after the first [i * b]. *)
Lemma slice_chunk l (b i : Z) :
  0 < b → 0 ≤ i →
  Py.slice l (b * i) (b * i + b) =
  take (Z.to_nat b) (drop (Z.to_nat i * Z.to_nat b) l).
Proof.
  intros Hb Hi. unfold Py.slice.
  rewrite !slice_bound_nonneg by nia.
  replace (Z.to_nat (b * i)) with (Z.to_nat i * Z.to_nat b)%nat by nia.
  replace (Z.to_nat (b * i + b)) with (Z.to_nat i * Z.to_nat b + Z.to_nat b)%nat by nia.
  set (n := (Z.to_nat i * Z.to_nat b)%nat). set (k := Z.to_nat b).
  destruct (decide (n ≤ length l)%nat) as [Hn|Hn].
  - rewrite (Nat.min_l n) by done.
    destruct (decide (n + k ≤ length l)%nat).
    + rewrite Nat.min_l by done. f_equal. lia.
    + rewrite Nat.min_r by lia.
      rewrite !take_ge; [done| |]; rewrite length_drop; lia.
  - rewrite !Nat.min_r by lia.
    rewrite !drop_ge by lia. by rewrite !take_nil.
Qed.

(** The first [k] chunks of width [b], end to end, are the first [k * b]
    elements. *)
Lemma chunks_concat l (b k : nat) :
  concat ((λ i, take b (drop (i * b) l)) <$> seq 0 k) = take (k * b) l.
Proof.
  induction k as [|k IH]; [done|].
  rewrite seq_S, fmap_app, concat_app, IH. simpl.
  rewrite app_nil_r, take_take_drop. f_equal. lia.
Qed.

Lemma slice_empty_from l (start stop : Z) :
  Z.of_nat (length l) ≤ start → Py.slice l start stop = [].
Proof.
  intros Hs. unfold Py.slice.
  rewrite (slice_bound_nonneg _ start) by lia.
  rewrite Nat.min_r by lia. by rewrite drop_all, take_nil.
Qed.

Lemma comprehension_Return f l (ys : list B) :
  Forall2 (λ x y, f x = Return y) l ys → Py.comprehension f l = Return ys.
Proof.
  induction 1 as [|x y l ys Hxy _ IH]; simpl; [done|]. by rewrite Hxy, IH.
Qed.

Lemma comprehension_inv f l (ys : list B) :
  Py.comprehension f l = Return ys → Forall2 (λ x y, f x = Return y) l ys.
Proof.
  revert ys. induction l as [|x l IH]; intros ys; simpl.
  - intros [= <-]. constructor.
  - destruct (f x) as [y|] eqn:Hx; [|done].
    destruct (Py.comprehension f l) as [zs|] eqn:Hl; [|done].
    intros [= <-]. constructor; auto.
Qed.

End PyFacts.

Lemma index_lookup {A} (l : list A) (i : nat) (x : A) :
  l !! i = Some x → Py.index l (Z.of_nat i) = Return x.
Proof.
  intros Hx. unfold Py.index. cbv zeta.
  repeat case_decide; try lia. by rewrite Nat2Z.id, Hx.
Qed.

(** Integer-array indexing with positions inside the array succeeds and
    picks the elements in the order of the positions. *)
Lemma take_rows_Return {A} (a : list A) (idxs : list nat) :
  Forall (λ i, (i < length a)%nat) idxs →
  ∃ r, Py.take_rows a idxs = Return r ∧ Forall2 (λ i x, a !! i = Some x) idxs r.
Proof.
  induction 1 as [|i idxs Hi _ (r & Hr & HF)].
  - exists []. split; [done|constructor].
  - destruct (lookup_lt_is_Some_2 a i Hi) as [x Hx].
    exists (x :: r). split; [|by constructor].
    unfold Py.take_rows in *. simpl. by rewrite (index_lookup _ _ _ Hx), Hr.
Qed.

Lemma Forall2_lookup_seq {A} (a : list A) :
  Forall2 (λ i x, a !! i = Some x) (seq 0 (length a)) a.
Proof.
  apply Forall2_same_length_lookup. split; [by rewrite length_seq|].
  intros i j x Hj Hx. apply lookup_seq in Hj as [-> _]. done.
Qed.

Lemma Forall2_lookup_omap {A} (a : list A) (idxs : list nat) (r : list A) :
  Forall2 (λ i x, a !! i = Some x) idxs r → r = omap (λ i, a !! i) idxs.
Proof.
  induction 1 as [|i x idxs r Hx _ IH]; [done|].
  rewrite IH. simpl. by rewrite Hx.
Qed.

(** Picking along a rearrangement of all the positions gives a rearrangement
    of the array. *)
Lemma Forall2_lookup_perm {A} (a : list A) (idxs : list nat) (r : list A) :
  idxs ≡ₚ seq 0 (length a) →
  Forall2 (λ i x, a !! i = Some x) idxs r →
  r ≡ₚ a.
Proof.
  intros Hp HF.
  rewrite (Forall2_lookup_omap _ _ _ HF), Hp.
  by rewrite <-(Forall2_lookup_omap _ _ _ (Forall2_lookup_seq a)).
Qed.

Lemma ceil_div_spec (n d : Z) :
  0 < d → 0 ≤ n →
  ∃ q, Py.ceil_div n d = Return q ∧ 0 ≤ q ∧ n ≤ q * d ∧ (q - 1) * d < n.
Proof.
  intros Hd Hn. exists (- ((- n) `div` d)). unfold Py.ceil_div.
  rewrite decide_False by lia. split; [done|].
  pose proof (Z.div_mod (- n) d ltac:(lia)) as Hdm.
  pose proof (Z.mod_pos_bound (- n) d Hd) as Hm.
  nia.
Qed.

Global Instance toy_rng_laws : RandomGenLaws Z.
Proof.
  constructor. intros g l. simpl. unfold rotate.
  rewrite (comm (++)). by rewrite take_drop.
Qed.

Lemma slice_sublist {A} (l : list A) (start stop : Z) :
  Py.slice l start stop `sublist_of` l.
Proof.
  unfold Py.slice. etrans; [apply sublist_take|apply sublist_drop].
Qed.

(** Two arrays of one length are sliced in lockstep. *)
Lemma slice_zip {A B} (x : list A) (y : list B) (start stop : Z) :
  length x = length y →
  zip (Py.slice x start stop) (Py.slice y start stop) = Py.slice (zip x y) start stop.
Proof.
  intros Hlen. unfold Py.slice.
  rewrite length_zip, <-Hlen, Nat.min_id.
  by rewrite (zip_with_drop pair), (zip_with_take pair).
Qed.

Lemma slice_length_eq {A B} (x : list A) (y : list B) (start stop : Z) :
  length x = length y →
  length (Py.slice x start stop) = length (Py.slice y start stop).
Proof.
  intros Hlen. unfold Py.slice. rewrite !length_take, !length_drop. by rewrite Hlen.
Qed.

(** The whole array is its slice from [0] to any bound at or past its
    length. *)
Lemma slice_all {A} (l : list A) (stop : Z) :
  Z.of_nat (length l) ≤ stop → Py.slice l 0 stop = l.
Proof.
  intros Hs. unfold Py.slice. rewrite !slice_bound_nonneg by lia.
  simpl. rewrite Nat.min_r by lia. rewrite Nat.sub_0_r. by apply take_ge.
Qed.

(** ** The per-entity batchers *)

(** Unfold the monadic plumbing of a method body. *)
Ltac unfold_py :=
  unfold mbind, mret, M_bind, M_ret, Py.bind, Py.ret, Py.raise, Py.get, Py.put,
    Py.lift, call in *.

Section EntityFacts.
Context {rng : Type} `{RandomGen rng} `{!RandomGenLaws rng} {C Id Tgt Feats : Type}.
Context (random_state : option Z → rs_handle rng).

Local Abbreviation node := (@NodeSequence.t rng C Id Tgt Feats).
Local Abbreviation link := (@LinkSequence.t rng C Id Tgt Feats).

Lemma omap_concat {X Y} (f : X → option Y) (ls : list (list X)) :
  omap f (concat ls) = concat ((omap f : list X → list Y) <$> ls).
Proof.
  induction ls as [|l ls IH]; [done|]. simpl. by rewrite omap_app, IH.
Qed.

(** [on_epoch_end] returns, keeps the configuration and leaves a rearrangement
    of [0, data_size) in [indices]. *)
Lemma node_on_epoch_end_spec (self : node) (w : World rng C) :
  ∃ self' w',
    NodeSequence.on_epoch_end (self, w) = (Return tt, (self', w')) ∧
    NodeSequence.indices self' ≡ₚ seq 0 (NodeSequence.data_size self) ∧
    NodeSequence.targets self' = NodeSequence.targets self ∧
    NodeSequence._sample_function self' = NodeSequence._sample_function self ∧
    NodeSequence.ids self' = NodeSequence.ids self ∧
    NodeSequence.data_size self' = NodeSequence.data_size self ∧
    NodeSequence.shuffle self' = NodeSequence.shuffle self ∧
    NodeSequence.batch_size self' = NodeSequence.batch_size self.
Proof.
  unfold NodeSequence.on_epoch_end. unfold_py. simpl.
  destruct (NodeSequence.shuffle self) eqn:Hsh.
  - destruct (NodeSequence._rs self) as [g|].
    + pose proof (rs_shuffle_perm g (Py.range (NodeSequence.data_size self))) as Hp.
      destruct (rs_shuffle g _) as [ind g']. eexists _, _. split; [done|].
      simpl in *. by rewrite Hsh.
    + pose proof (rs_shuffle_perm (random_module w)
                    (Py.range (NodeSequence.data_size self))) as Hp.
      destruct (rs_shuffle (random_module w) _) as [ind g']. eexists _, _.
      split; [done|]. simpl in *. by rewrite Hsh.
  - eexists _, _. split; [done|]. simpl. by rewrite Hsh.
Qed.

Lemma node_on_epoch_end_consistent (self self' : node) (w w' : World rng C) r :
  NodeSequence.on_epoch_end (self, w) = (r, (self', w')) →
  NodeSequence.data_size self = length (NodeSequence.ids self) →
  (∀ ts, NodeSequence.targets self = Some ts →
         length ts = NodeSequence.data_size self) →
  node_consistent self'.
Proof.
  intros Hrun Hn Hts.
  destruct (node_on_epoch_end_spec self w)
    as (s & w0 & Hs & Hp & Ht & _ & Hi & Hd & _).
  rewrite Hs in Hrun. injection Hrun as <- <- <-.
  repeat split.
  - by rewrite Hd, Hi.
  - by rewrite Hd.
  - intros ts. rewrite Ht, Hd. apply Hts.
Qed.

Lemma node_init_spec (f : NodeSequence.sample_function) (batch_size : Z)
    (ids : list Id) (targets : option (pyarg Tgt)) (shuffle : bool)
    (seed : option Z) (w : World rng C) :
  valid_targets ids targets →
  ∃ (self : node) w',
    NodeSequence.init random_state (Callable f) batch_size (Iterable ids)
      targets shuffle seed w = (Return self, w') ∧
    node_configured self f batch_size ids targets shuffle ∧
    node_consistent self.
Proof.
  intros Hv. unfold NodeSequence.init.
  assert (∃ ts', targets = Iterable <$> ts' ∧
                 ∀ ts, ts' = Some ts → length ts = length ids) as (ts' & -> & Hts).
  { destruct targets as [[ts|]|]; simpl in Hv; [|done|].
    - exists (Some ts). split; [done|]. by intros ? [= <-].
    - by exists None. }
  set (self0 := NodeSequence.mk ts' f ids (length ids) shuffle batch_size
                  (random_state seed) []).
  assert ((match Iterable <$> ts' with
           | Some NotIterable => Py.raise TypeError
           | Some (Iterable ts) =>
               if decide (length ids ≠ length ts) then Py.raise ValueError
               else mret (Some ts)
           | None => mret None
           end : Py.M (World rng C) _) w = (Return ts', w)) as Hval.
  { destruct ts' as [ts|]; simpl; [|done].
    rewrite decide_False; [done|]. rewrite (Hts ts); auto. }
  unfold mbind, M_bind, Py.bind at 1. rewrite Hval.
  unfold NodeSequence.construct. fold self0.
  destruct (node_on_epoch_end_spec self0 w)
    as (s & w0 & Hs & Hp & Ht & Hf & Hi & Hd & Hsh & Hb).
  rewrite Hs. exists s, w0. split; [done|]. split.
  - unfold node_configured. by rewrite Hf, Hb, Hi, Ht, Hsh.
  - eapply node_on_epoch_end_consistent; [exact Hs|done|]. simpl. auto.
Qed.

Lemma node_epochs_spec (env : list interference) (self : node) (w : World rng C)
    f batch_size ids targets shuffle :
  node_configured self f batch_size ids targets shuffle →
  node_consistent self →
  ∃ self' w',
    node_epochs env (self, w) = (Return tt, (self', w')) ∧
    node_configured self' f batch_size ids targets shuffle ∧
    node_consistent self'.
Proof.
  revert self w. induction env as [|e env IH]; intros self w Hc Hk.
  - by exists self, w.
  - simpl. destruct (node_on_epoch_end_spec self (e w))
      as (s & w0 & Hs & Hp & Ht & Hf & Hi & Hd & Hsh & Hb).
    rewrite Hs. apply IH.
    + destruct Hc as (? & ? & ? & ? & ?). unfold node_configured.
      by rewrite Hf, Hb, Hi, Ht, Hsh.
    + destruct Hk as (? & ? & ?).
      eapply node_on_epoch_end_consistent; [exact Hs|done..].
Qed.

Lemma node_lifecycle_spec (f : NodeSequence.sample_function) (batch_size : Z)
    (ids : list Id) (targets : option (pyarg Tgt)) (shuffle : bool)
    (seed : option Z) (w : World rng C) (env : list interference) :
  valid_targets ids targets →
  ∃ self : node,
    node_lifecycle random_state (Callable f) batch_size (Iterable ids) targets
      shuffle seed w env = Return self ∧
    node_configured self f batch_size ids targets shuffle ∧
    node_consistent self.
Proof.
  intros Hv. unfold node_lifecycle.
  destruct (node_init_spec f batch_size ids targets shuffle seed w Hv)
    as (s & w' & -> & Hc & Hk).
  destruct (node_epochs_spec env s w' _ _ _ _ _ Hc Hk) as (s' & w'' & -> & ? & ?).
  by exists s'.
Qed.

Lemma consistent_indices_bound (indices : list nat) (n : nat) :
  indices ≡ₚ seq 0 n → Forall (λ i, (i < n)%nat) indices.
Proof.
  intros ->. apply Forall_forall. intros i Hi%elem_of_seq. lia.
Qed.

(** In a consistent state with a positive batch size, the batches
    [0 .. len - 1] are the consecutive slices of width [batch_size] of the
    current permutation, and their head ids, end to end, rearrange [ids]. *)
Lemma node_batches (self : node) :
  node_consistent self → 0 < NodeSequence.batch_size self →
  ∃ (L : Z) (hs : list (list Id)),
    NodeSequence.len self = Return L ∧
    0 ≤ L ∧
    Z.of_nat (length (NodeSequence.ids self)) ≤ L * NodeSequence.batch_size self ∧
    (L - 1) * NodeSequence.batch_size self < Z.of_nat (length (NodeSequence.ids self)) ∧
    length hs = Z.to_nat L ∧
    (∀ (i : nat) h, hs !! i = Some h →
       NodeSequence.batch_indices self (Z.of_nat i) =
         take (Z.to_nat (NodeSequence.batch_size self))
           (drop (i * Z.to_nat (NodeSequence.batch_size self))
              (NodeSequence.indices self)) ∧
       NodeSequence.head_ids self (Z.of_nat i) = Return h ∧
       Forall2 (λ ii x, NodeSequence.ids self !! ii = Some x)
         (NodeSequence.batch_indices self (Z.of_nat i)) h) ∧
    concat hs ≡ₚ NodeSequence.ids self.
Proof.
  intros (Hn & Hp & _) Hb.
  set (B := NodeSequence.batch_size self) in *.
  set (ind := NodeSequence.indices self) in *.
  set (a := NodeSequence.ids self) in *.
  destruct (ceil_div_spec (Z.of_nat (NodeSequence.data_size self)) B Hb ltac:(lia))
    as (L & HL & HL0 & Hup & Hlo).
  rewrite Hn in Hup, Hlo, Hp.
  set (chunk := λ i : nat, take (Z.to_nat B) (drop (i * Z.to_nat B) ind)).
  assert (Forall (λ i, (i < length a)%nat) ind) as Hbound
    by by apply consistent_indices_bound.
  assert (∀ i : nat, NodeSequence.batch_indices self (Z.of_nat i) = chunk i) as Hchunk.
  { intros i. unfold NodeSequence.batch_indices. cbv zeta. fold B ind.
    rewrite slice_chunk by lia. by rewrite Nat2Z.id. }
  exists L, ((λ i, omap (λ ii, a !! ii) (chunk i)) <$> seq 0 (Z.to_nat L)).
  split; [done|]. split; [done|]. split; [done|]. split; [done|].
  split; [by rewrite length_fmap, length_seq|]. split.
  - intros i h Hh. rewrite list_lookup_fmap in Hh.
    destruct (seq 0 (Z.to_nat L) !! i) as [j|] eqn:Hj; [|done].
    apply lookup_seq in Hj as [-> Hi]. simpl in Hh. injection Hh as <-.
    split; [apply Hchunk|].
    assert (Forall (λ i, (i < length a)%nat) (chunk i)) as Hci
      by (unfold chunk; by apply Forall_take, Forall_drop).
    destruct (take_rows_Return a (chunk i) Hci) as (r & Hr & HF).
    rewrite <-(Forall2_lookup_omap _ _ _ HF).
    unfold NodeSequence.head_ids. fold a. rewrite Hchunk. by split.
  - change ((λ i, omap (λ ii, a !! ii) (chunk i)) <$> seq 0 (Z.to_nat L))
      with ((omap (λ ii, a !! ii) ∘ chunk) <$> seq 0 (Z.to_nat L)).
    rewrite (list_fmap_compose chunk), <-omap_concat.
    unfold chunk. rewrite chunks_concat.
    rewrite take_ge by (rewrite Hp, length_seq; nia).
    rewrite Hp. by rewrite <-(Forall2_lookup_omap _ _ _ (Forall2_lookup_seq a)).
Qed.

(** A batch inside the data is fetched by handing its head ids and its
    number to the sampling function; the instance itself is left as it was. *)
Lemma node_getitem_spec (self : node) (i : Z) (h : list Id) :
  node_consistent self → 0 < NodeSequence.batch_size self → 0 ≤ i →
  NodeSequence.batch_size self * i < Z.of_nat (NodeSequence.data_size self) →
  NodeSequence.head_ids self i = Return h →
  ∃ batch_targets,
    (∀ ts, NodeSequence.targets self = Some ts →
       ∃ rows, batch_targets = Some rows ∧
         Forall2 (λ ii x, ts !! ii = Some x)
           (NodeSequence.batch_indices self i) rows) ∧
    (NodeSequence.targets self = None → batch_targets = None) ∧
    ∀ w : World rng C,
      NodeSequence.getitem i (self, w) =
      let '(r, c') := NodeSequence._sample_function self h i (collab w) in
      (match r with
       | Return batch_feats => Return (batch_feats, batch_targets)
       | Raise e => Raise e
       end, (self, set_collab c' w)).
Proof.
  intros (Hn & Hp & Hts) Hb Hi Hstart Hh.
  assert (Forall (λ i, (i < NodeSequence.data_size self)%nat)
            (NodeSequence.batch_indices self i)) as Hbi.
  { unfold NodeSequence.batch_indices, Py.slice. cbv zeta.
    by apply Forall_take, Forall_drop, consistent_indices_bound. }
  destruct (NodeSequence.targets self) as [ts|] eqn:Ht.
  - rewrite <-(Hts ts eq_refl) in Hbi.
    destruct (take_rows_Return ts _ Hbi) as (rows & Hrows & HF).
    exists (Some rows). split; [intros ? [= <-]; eauto|]. split; [done|].
    intros w. unfold NodeSequence.getitem. unfold_py. simpl.
    rewrite decide_False by lia. rewrite Hh, Ht. simpl. rewrite Hrows.
    destruct (NodeSequence._sample_function self h i (collab w)) as [[x|e] c']; done.
  - exists None. split; [done|]. split; [done|].
    intros w. unfold NodeSequence.getitem. unfold_py. simpl.
    rewrite decide_False by lia. rewrite Hh, Ht. simpl.
    destruct (NodeSequence._sample_function self h i (collab w)) as [[x|e] c']; done.
Qed.

(** A batch number at or beyond the data raises [IndexError] and changes
    nothing. *)
Lemma node_getitem_out_of_range (self : node) (w : World rng C) (i : Z) :
  NodeSequence.batch_size self * i >= Z.of_nat (NodeSequence.data_size self) →
  NodeSequence.getitem i (self, w) = (Raise IndexError, (self, w)).
Proof.
  intros Hi. unfold NodeSequence.getitem. unfold_py. simpl.
  by rewrite decide_True.
Qed.

(** [on_epoch_end] returns, keeps the configuration and leaves a rearrangement
    of [0, data_size) in [indices]. *)
Lemma link_on_epoch_end_spec (self : link) (w : World rng C) :
  ∃ self' w',
    LinkSequence.on_epoch_end (self, w) = (Return tt, (self', w')) ∧
    LinkSequence.indices self' ≡ₚ seq 0 (LinkSequence.data_size self) ∧
    LinkSequence.targets self' = LinkSequence.targets self ∧
    LinkSequence._sample_features self' = LinkSequence._sample_features self ∧
    LinkSequence.ids self' = LinkSequence.ids self ∧
    LinkSequence.data_size self' = LinkSequence.data_size self ∧
    LinkSequence.shuffle self' = LinkSequence.shuffle self ∧
    LinkSequence.batch_size self' = LinkSequence.batch_size self.
Proof.
  unfold LinkSequence.on_epoch_end. unfold_py. simpl.
  destruct (LinkSequence.shuffle self) eqn:Hsh.
  - destruct (LinkSequence._rs self) as [g|].
    + pose proof (rs_shuffle_perm g (Py.range (LinkSequence.data_size self))) as Hp.
      destruct (rs_shuffle g _) as [ind g']. eexists _, _. split; [done|].
      simpl in *. by rewrite Hsh.
    + pose proof (rs_shuffle_perm (random_module w)
                    (Py.range (LinkSequence.data_size self))) as Hp.
      destruct (rs_shuffle (random_module w) _) as [ind g']. eexists _, _.
      split; [done|]. simpl in *. by rewrite Hsh.
  - eexists _, _. split; [done|]. simpl. by rewrite Hsh.
Qed.

Lemma link_on_epoch_end_consistent (self self' : link) (w w' : World rng C) r :
  LinkSequence.on_epoch_end (self, w) = (r, (self', w')) →
  LinkSequence.data_size self = length (LinkSequence.ids self) →
  (∀ ts, LinkSequence.targets self = Some ts →
         length ts = LinkSequence.data_size self) →
  link_consistent self'.
Proof.
  intros Hrun Hn Hts.
  destruct (link_on_epoch_end_spec self w)
    as (s & w0 & Hs & Hp & Ht & _ & Hi & Hd & _).
  rewrite Hs in Hrun. injection Hrun as <- <- <-.
  repeat split.
  - by rewrite Hd, Hi.
  - by rewrite Hd.
  - intros ts. rewrite Ht, Hd. apply Hts.
Qed.

Lemma link_init_spec (f : LinkSequence.sample_function) (batch_size : Z)
    (ids : list Id) (targets : option (pyarg Tgt)) (shuffle : bool)
    (seed : option Z) (w : World rng C) :
  valid_targets ids targets →
  ∃ (self : link) w',
    LinkSequence.init random_state (Callable f) batch_size (Iterable ids)
      targets shuffle seed w = (Return self, w') ∧
    link_configured self f batch_size ids targets shuffle ∧
    link_consistent self.
Proof.
  intros Hv. unfold LinkSequence.init.
  assert (∃ ts', targets = Iterable <$> ts' ∧
                 ∀ ts, ts' = Some ts → length ts = length ids) as (ts' & -> & Hts).
  { destruct targets as [[ts|]|]; simpl in Hv; [|done|].
    - exists (Some ts). split; [done|]. by intros ? [= <-].
    - by exists None. }
  set (self0 := LinkSequence.mk ts' f batch_size ids (length ids) shuffle
                  (random_state seed) []).
  assert ((match Iterable <$> ts' with
           | Some NotIterable => Py.raise TypeError
           | Some (Iterable ts) =>
               if decide (length ids ≠ length ts) then Py.raise ValueError
               else mret (Some ts)
           | None => mret None
           end : Py.M (World rng C) _) w = (Return ts', w)) as Hval.
  { destruct ts' as [ts|]; simpl; [|done].
    rewrite decide_False; [done|]. rewrite (Hts ts); auto. }
  unfold mbind, M_bind, Py.bind at 1. rewrite Hval.
  assert (match ts' with
          | Some ts => bool_decide (length ids ≠ length ts)
          | None => false
          end = false) as ->.
  { destruct ts' as [ts|]; [|done]. rewrite bool_decide_eq_false.
    rewrite (Hts ts); auto. }
  unfold LinkSequence.construct. fold self0.
  destruct (link_on_epoch_end_spec self0 w)
    as (s & w0 & Hs & Hp & Ht & Hf & Hi & Hd & Hsh & Hb).
  rewrite Hs. exists s, w0. split; [done|]. split.
  - unfold link_configured. by rewrite Hf, Hb, Hi, Ht, Hsh.
  - eapply link_on_epoch_end_consistent; [exact Hs|done|]. simpl. auto.
Qed.

Lemma link_epochs_spec (env : list interference) (self : link) (w : World rng C)
    f batch_size ids targets shuffle :
  link_configured self f batch_size ids targets shuffle →
  link_consistent self →
  ∃ self' w',
    link_epochs env (self, w) = (Return tt, (self', w')) ∧
    link_configured self' f batch_size ids targets shuffle ∧
    link_consistent self'.
Proof.
  revert self w. induction env as [|e env IH]; intros self w Hc Hk.
  - by exists self, w.
  - simpl. destruct (link_on_epoch_end_spec self (e w))
      as (s & w0 & Hs & Hp & Ht & Hf & Hi & Hd & Hsh & Hb).
    rewrite Hs. apply IH.
    + destruct Hc as (? & ? & ? & ? & ?). unfold link_configured.
      by rewrite Hf, Hb, Hi, Ht, Hsh.
    + destruct Hk as (? & ? & ?).
      eapply link_on_epoch_end_consistent; [exact Hs|done..].
Qed.

Lemma link_lifecycle_spec (f : LinkSequence.sample_function) (batch_size : Z)
    (ids : list Id) (targets : option (pyarg Tgt)) (shuffle : bool)
    (seed : option Z) (w : World rng C) (env : list interference) :
  valid_targets ids targets →
  ∃ self : link,
    link_lifecycle random_state (Callable f) batch_size (Iterable ids) targets
      shuffle seed w env = Return self ∧
    link_configured self f batch_size ids targets shuffle ∧
    link_consistent self.
Proof.
  intros Hv. unfold link_lifecycle.
  destruct (link_init_spec f batch_size ids targets shuffle seed w Hv)
    as (s & w' & -> & Hc & Hk).
  destruct (link_epochs_spec env s w' _ _ _ _ _ Hc Hk) as (s' & w'' & -> & ? & ?).
  by exists s'.
Qed.

(** In a consistent state with a positive batch size, the batches
    [0 .. len - 1] are the consecutive slices of width [batch_size] of the
    current permutation, and their head ids, end to end, rearrange [ids]. *)
Lemma link_batches (self : link) :
  link_consistent self → 0 < LinkSequence.batch_size self →
  ∃ (L : Z) (hs : list (list Id)),
    LinkSequence.len self = Return L ∧
    0 ≤ L ∧
    Z.of_nat (length (LinkSequence.ids self)) ≤ L * LinkSequence.batch_size self ∧
    (L - 1) * LinkSequence.batch_size self < Z.of_nat (length (LinkSequence.ids self)) ∧
    length hs = Z.to_nat L ∧
    (∀ (i : nat) h, hs !! i = Some h →
       LinkSequence.batch_indices self (Z.of_nat i) =
         take (Z.to_nat (LinkSequence.batch_size self))
           (drop (i * Z.to_nat (LinkSequence.batch_size self))
              (LinkSequence.indices self)) ∧
       LinkSequence.head_ids self (Z.of_nat i) = Return h ∧
       Forall2 (λ ii x, LinkSequence.ids self !! ii = Some x)
         (LinkSequence.batch_indices self (Z.of_nat i)) h) ∧
    concat hs ≡ₚ LinkSequence.ids self.
Proof.
  intros (Hn & Hp & _) Hb.
  set (B := LinkSequence.batch_size self) in *.
  set (ind := LinkSequence.indices self) in *.
  set (a := LinkSequence.ids self) in *.
  destruct (ceil_div_spec (Z.of_nat (LinkSequence.data_size self)) B Hb ltac:(lia))
    as (L & HL & HL0 & Hup & Hlo).
  rewrite Hn in Hup, Hlo, Hp.
  set (chunk := λ i : nat, take (Z.to_nat B) (drop (i * Z.to_nat B) ind)).
  assert (Forall (λ i, (i < length a)%nat) ind) as Hbound
    by by apply consistent_indices_bound.
  assert (∀ i : nat, LinkSequence.batch_indices self (Z.of_nat i) = chunk i) as Hchunk.
  { intros i. unfold LinkSequence.batch_indices. cbv zeta. fold B ind.
    rewrite slice_chunk by lia. by rewrite Nat2Z.id. }
  exists L, ((λ i, omap (λ ii, a !! ii) (chunk i)) <$> seq 0 (Z.to_nat L)).
  split; [done|]. split; [done|]. split; [done|]. split; [done|].
  split; [by rewrite length_fmap, length_seq|]. split.
  - intros i h Hh. rewrite list_lookup_fmap in Hh.
    destruct (seq 0 (Z.to_nat L) !! i) as [j|] eqn:Hj; [|done].
    apply lookup_seq in Hj as [-> Hi]. simpl in Hh. injection Hh as <-.
    split; [apply Hchunk|].
    assert (Forall (λ i, (i < length a)%nat) (chunk i)) as Hci
      by (unfold chunk; by apply Forall_take, Forall_drop).
    destruct (take_rows_Return a (chunk i) Hci) as (r & Hr & HF).
    rewrite <-(Forall2_lookup_omap _ _ _ HF).
    unfold LinkSequence.head_ids. fold a. rewrite Hchunk. by split.
  - change ((λ i, omap (λ ii, a !! ii) (chunk i)) <$> seq 0 (Z.to_nat L))
      with ((omap (λ ii, a !! ii) ∘ chunk) <$> seq 0 (Z.to_nat L)).
    rewrite (list_fmap_compose chunk), <-omap_concat.
    unfold chunk. rewrite chunks_concat.
    rewrite take_ge by (rewrite Hp, length_seq; nia).
    rewrite Hp. by rewrite <-(Forall2_lookup_omap _ _ _ (Forall2_lookup_seq a)).
Qed.

(** A batch inside the data is fetched by handing its head ids and its
    number to the sampling function; the instance itself is left as it was. *)
Lemma link_getitem_spec (self : link) (i : Z) (h : list Id) :
  link_consistent self → 0 < LinkSequence.batch_size self → 0 ≤ i →
  LinkSequence.batch_size self * i < Z.of_nat (LinkSequence.data_size self) →
  LinkSequence.head_ids self i = Return h →
  ∃ batch_targets,
    (∀ ts, LinkSequence.targets self = Some ts →
       ∃ rows, batch_targets = Some rows ∧
         Forall2 (λ ii x, ts !! ii = Some x)
           (LinkSequence.batch_indices self i) rows) ∧
    (LinkSequence.targets self = None → batch_targets = None) ∧
    ∀ w : World rng C,
      LinkSequence.getitem i (self, w) =
      let '(r, c') := LinkSequence._sample_features self h i (collab w) in
      (match r with
       | Return batch_feats => Return (batch_feats, batch_targets)
       | Raise e => Raise e
       end, (self, set_collab c' w)).
Proof.
  intros (Hn & Hp & Hts) Hb Hi Hstart Hh.
  assert (Forall (λ i, (i < LinkSequence.data_size self)%nat)
            (LinkSequence.batch_indices self i)) as Hbi.
  { unfold LinkSequence.batch_indices, Py.slice. cbv zeta.
    by apply Forall_take, Forall_drop, consistent_indices_bound. }
  destruct (LinkSequence.targets self) as [ts|] eqn:Ht.
  - rewrite <-(Hts ts eq_refl) in Hbi.
    destruct (take_rows_Return ts _ Hbi) as (rows & Hrows & HF).
    exists (Some rows). split; [intros ? [= <-]; eauto|]. split; [done|].
    intros w. unfold LinkSequence.getitem. unfold_py. simpl.
    rewrite decide_False by lia. rewrite Hh, Ht. simpl. rewrite Hrows.
    destruct (LinkSequence._sample_features self h i (collab w)) as [[x|e] c']; done.
  - exists None. split; [done|]. split; [done|].
    intros w. unfold LinkSequence.getitem. unfold_py. simpl.
    rewrite decide_False by lia. rewrite Hh, Ht. simpl.
    destruct (LinkSequence._sample_features self h i (collab w)) as [[x|e] c']; done.
Qed.

(** A batch number at or beyond the data raises [IndexError] and changes
    nothing. *)
Lemma link_getitem_out_of_range (self : link) (w : World rng C) (i : Z) :
  LinkSequence.batch_size self * i >= Z.of_nat (LinkSequence.data_size self) →
  LinkSequence.getitem i (self, w) = (Raise IndexError, (self, w)).
Proof.
  intros Hi. unfold LinkSequence.getitem. unfold_py. simpl.
  by rewrite decide_True.
Qed.

End EntityFacts.

(** ** Shuffling with an owned generator *)

Section Reproducible.
Context {rng : Type} `{RandomGen rng} {C Id Tgt Feats : Type}.
Context (random_state : option Z → rs_handle rng).

Local Abbreviation node := (@NodeSequence.t rng C Id Tgt Feats).
Local Abbreviation link := (@LinkSequence.t rng C Id Tgt Feats).

(** With a generator of its own, [on_epoch_end] neither reads nor writes the
    process state. *)
Lemma node_on_epoch_end_own (self : node) (g : rng) :
  NodeSequence._rs self = OwnRS g →
  ∃ (self' : node) (g' : rng),
    NodeSequence._rs self' = OwnRS g' ∧
    ∀ w : World rng C,
      NodeSequence.on_epoch_end (self, w) = (Return tt, (self', w)).
Proof.
  intros Hg. unfold NodeSequence.on_epoch_end. unfold_py. simpl. rewrite Hg.
  destruct (NodeSequence.shuffle self).
  - destruct (rs_shuffle g _) as [ind g'].
    exists (NodeSequence.set_indices ind (NodeSequence.set__rs (OwnRS g') self)), g'.
    by split.
  - exists (NodeSequence.set_indices (Py.range (NodeSequence.data_size self)) self), g.
    by split.
Qed.

Lemma node_epochs_own (n : nat) (self : node) (g : rng) :
  NodeSequence._rs self = OwnRS g →
  ∃ self' : node,
    ∀ (env : list interference) (w : World rng C),
      length env = n →
      ∃ w', node_epochs env (self, w) = (Return tt, (self', w')).
Proof.
  revert self g. induction n as [|n IH]; intros self g Hg.
  - exists self. intros [|??] w ?; [|done]. by exists w.
  - destruct (node_on_epoch_end_own self g Hg) as (s & g' & Hg' & Hs).
    destruct (IH s g' Hg') as (s' & Hs').
    exists s'. intros [|e env] w Hlen; [done|]. simpl.
    rewrite Hs. apply Hs'. simpl in Hlen. lia.
Qed.

Lemma node_init_own sample batch_size ids targets shuffle seed (g : rng) :
  random_state seed = OwnRS g →
  ∃ r : outcome node,
    (∀ w : World rng C,
       ∃ w', NodeSequence.init random_state sample batch_size ids targets
               shuffle seed w = (r, w')) ∧
    (∀ self, r = Return self → ∃ g', NodeSequence._rs self = OwnRS g').
Proof.
  intros Hg. unfold NodeSequence.init.
  destruct ids as [ids|]; [|exists (Raise TypeError); split; [by eexists|done]].
  unfold_py.
  destruct targets as [[ts|]|]; simpl;
    [destruct (decide (length ids ≠ length ts))| |];
    try (exists (Raise TypeError); split; [by eexists|done]);
    try (exists (Raise ValueError); split; [by eexists|done]).
  all: destruct sample as [f|];
    [|exists (Raise TypeError); split; [by eexists|done]].
  all: unfold NodeSequence.construct.
  all: match goal with
       | |- context [NodeSequence.on_epoch_end (?s, _)] =>
           destruct (node_on_epoch_end_own s g Hg) as (s' & g' & Hg' & Hs')
       end.
  all: exists (Return s'); split;
    [intros w; rewrite Hs'; by eexists|intros ? [= <-]; by eexists].
Qed.

(** The life of an instance with a generator of its own is the same in
    every process state and under every interference. *)
Lemma node_lifecycle_own sample batch_size ids targets shuffle seed (g : rng)
    (w1 w2 : World rng C) (env1 env2 : list interference) :
  random_state seed = OwnRS g →
  length env1 = length env2 →
  (node_lifecycle random_state sample batch_size ids targets shuffle seed w1 env1
     : outcome node) =
  node_lifecycle random_state sample batch_size ids targets shuffle seed w2 env2.
Proof.
  intros Hg Hlen. unfold node_lifecycle.
  destruct (node_init_own sample batch_size ids targets shuffle seed g Hg)
    as (r & Hr & Hown).
  destruct (Hr w1) as (w1' & ->). destruct (Hr w2) as (w2' & ->).
  destruct r as [self|e]; [|done].
  destruct (Hown self eq_refl) as (g' & Hg').
  destruct (node_epochs_own (length env1) self g' Hg') as (s' & Hs').
  destruct (Hs' env1 w1' eq_refl) as (? & ->).
  destruct (Hs' env2 w2' (eq_sym Hlen)) as (? & ->). done.
Qed.

(** With a generator of its own, [on_epoch_end] neither reads nor writes the
    process state. *)
Lemma link_on_epoch_end_own (self : link) (g : rng) :
  LinkSequence._rs self = OwnRS g →
  ∃ (self' : link) (g' : rng),
    LinkSequence._rs self' = OwnRS g' ∧
    ∀ w : World rng C,
      LinkSequence.on_epoch_end (self, w) = (Return tt, (self', w)).
Proof.
  intros Hg. unfold LinkSequence.on_epoch_end. unfold_py. simpl. rewrite Hg.
  destruct (LinkSequence.shuffle self).
  - destruct (rs_shuffle g _) as [ind g'].
    exists (LinkSequence.set_indices ind (LinkSequence.set__rs (OwnRS g') self)), g'.
    by split.
  - exists (LinkSequence.set_indices (Py.range (LinkSequence.data_size self)) self), g.
    by split.
Qed.

Lemma link_epochs_own (n : nat) (self : link) (g : rng) :
  LinkSequence._rs self = OwnRS g →
  ∃ self' : link,
    ∀ (env : list interference) (w : World rng C),
      length env = n →
      ∃ w', link_epochs env (self, w) = (Return tt, (self', w')).
Proof.
  revert self g. induction n as [|n IH]; intros self g Hg.
  - exists self. intros [|??] w ?; [|done]. by exists w.
  - destruct (link_on_epoch_end_own self g Hg) as (s & g' & Hg' & Hs).
    destruct (IH s g' Hg') as (s' & Hs').
    exists s'. intros [|e env] w Hlen; [done|]. simpl.
    rewrite Hs. apply Hs'. simpl in Hlen. lia.
Qed.

Lemma link_init_own sample batch_size ids targets shuffle seed (g : rng) :
  random_state seed = OwnRS g →
  ∃ r : outcome link,
    (∀ w : World rng C,
       ∃ w', LinkSequence.init random_state sample batch_size ids targets
               shuffle seed w = (r, w')) ∧
    (∀ self, r = Return self → ∃ g', LinkSequence._rs self = OwnRS g').
Proof.
  intros Hg. unfold LinkSequence.init.
  destruct ids as [ids|]; [|exists (Raise TypeError); split; [by eexists|done]].
  unfold_py.
  destruct targets as [[ts|]|]; simpl;
    [destruct (decide (length ids ≠ length ts))| |];
    try (exists (Raise TypeError); split; [by eexists|done]);
    try (exists (Raise ValueError); split; [by eexists|done]).
  all: try rewrite bool_decide_eq_false_2 by done.
  all: destruct sample as [f|];
    [|exists (Raise TypeError); split; [by eexists|done]].
  all: unfold LinkSequence.construct.
  all: match goal with
       | |- context [LinkSequence.on_epoch_end (?s, _)] =>
           destruct (link_on_epoch_end_own s g Hg) as (s' & g' & Hg' & Hs')
       end.
  all: exists (Return s'); split;
    [intros w; rewrite Hs'; by eexists|intros ? [= <-]; by eexists].
Qed.

(** The life of an instance with a generator of its own is the same in
    every process state and under every interference. *)
Lemma link_lifecycle_own sample batch_size ids targets shuffle seed (g : rng)
    (w1 w2 : World rng C) (env1 env2 : list interference) :
  random_state seed = OwnRS g →
  length env1 = length env2 →
  (link_lifecycle random_state sample batch_size ids targets shuffle seed w1 env1
     : outcome link) =
  link_lifecycle random_state sample batch_size ids targets shuffle seed w2 env2.
Proof.
  intros Hg Hlen. unfold link_lifecycle.
  destruct (link_init_own sample batch_size ids targets shuffle seed g Hg)
    as (r & Hr & Hown).
  destruct (Hr w1) as (w1' & ->). destruct (Hr w2) as (w2' & ->).
  destruct r as [self|e]; [|done].
  destruct (Hown self eq_refl) as (g' & Hg').
  destruct (link_epochs_own (length env1) self g' Hg') as (s' & Hs').
  destruct (Hs' env1 w1' eq_refl) as (? & ->).
  destruct (Hs' env2 w2' (eq_sym Hlen)) as (? & ->). done.
Qed.

End Reproducible.

(** ** The on-demand planner *)

Section OnDemandFacts.
Context {rng C Id Tgt Feats : Type}.

Local Abbreviation planner := (@OnDemandLinkSequence.t C Id Tgt Feats).

(** No call assigns [length] or [data_size]. *)
Lemma ondemand_step_length (c : ondemand_call) (self : planner) (w : World rng C) :
  OnDemandLinkSequence.length_ (ondemand_step c (self, w)).1 =
    OnDemandLinkSequence.length_ self ∧
  OnDemandLinkSequence.data_size (ondemand_step c (self, w)).1 =
    OnDemandLinkSequence.data_size self.
Proof.
  destruct c as [|i]; simpl.
  - unfold OnDemandLinkSequence.on_epoch_end, OnDemandLinkSequence._create_batches.
    unfold_py. simpl. destruct (OnDemandLinkSequence.shuffle self); [|done].
    destruct (OnDemandLinkSequence.walker self _ (collab w)) as [[bs|e] c']; done.
  - unfold OnDemandLinkSequence.getitem. unfold_py. simpl.
    case_decide; [done|].
    destruct (Py.index _ i) as [[h tg]|e]; [|done].
    destruct (OnDemandLinkSequence._sample_features self h i (collab w))
      as [[x|e] c']; done.
Qed.

Lemma ondemand_run_length calls (self : planner) (w : World rng C) :
  OnDemandLinkSequence.length_ (ondemand_run calls (self, w)).1 =
    OnDemandLinkSequence.length_ self ∧
  OnDemandLinkSequence.data_size (ondemand_run calls (self, w)).1 =
    OnDemandLinkSequence.data_size self.
Proof.
  revert self w. induction calls as [|[e c] calls IH]; intros self w; [done|].
  simpl. destruct (ondemand_step c (self, e w)) as [s' w'] eqn:Hstep.
  destruct (IH s' w') as [-> ->].
  pose proof (ondemand_step_length c self (e w)) as Hs. by rewrite Hstep in Hs.
Qed.

End OnDemandFacts.

Lemma ondemand_getitem_out_of_range {rng C Id Tgt Feats : Type}
    (self : @OnDemandLinkSequence.t C Id Tgt Feats) (w : World rng C) (i : Z) :
  i >= OnDemandLinkSequence.len self →
  OnDemandLinkSequence.getitem i (self, w) = (Raise IndexError, (self, w)).
Proof.
  intros Hi. unfold OnDemandLinkSequence.getitem. unfold_py. simpl.
  by rewrite decide_True.
Qed.

(** ** Frame rules *)

Section FrameRules.
Context {St : Type} (R : relation St) `{!Reflexive R} `{!Transitive R}.

Lemma preserves_ret {A} (a : A) : preserves R (Py.ret a).
Proof. intros s. simpl. reflexivity. Qed.

Lemma preserves_raise {A} (e : exn) : preserves R (Py.raise e : Py.M St A).
Proof. intros s. simpl. reflexivity. Qed.

Lemma preserves_lift {A} (o : outcome A) : preserves R (Py.lift o).
Proof. intros s. simpl. reflexivity. Qed.

Lemma preserves_get : preserves R Py.get.
Proof. intros s. simpl. reflexivity. Qed.

Lemma preserves_bind {A B} (m : Py.M St A) (k : A → Py.M St B) :
  preserves R m → (∀ a, preserves R (k a)) → preserves R (Py.bind m k).
Proof.
  intros Hm Hk s. unfold Py.bind. specialize (Hm s).
  destruct (m s) as [[a|e] s']; simpl in *; [|done].
  etrans; [exact Hm|apply Hk].
Qed.

End FrameRules.

Global Instance same_instance_refl {T rng C} : Reflexive (@same_instance T rng C).
Proof. by intros [??]. Qed.
Global Instance same_instance_trans {T rng C} : Transitive (@same_instance T rng C).
Proof.
  intros [??] [??] [??] (? & ? & ? & ?) (? & ? & ? & ?); simpl in *.
  repeat split; simpl; congruence.
Qed.
Global Instance same_instance_but_numpy_refl {T rng C} :
  Reflexive (@same_instance_but_numpy T rng C).
Proof. by intros [??]. Qed.
Global Instance same_instance_but_numpy_trans {T rng C} :
  Transitive (@same_instance_but_numpy T rng C).
Proof.
  intros [??] [??] [??] (? & ? & ?) (? & ? & ?); simpl in *.
  repeat split; simpl; congruence.
Qed.
Global Instance same_attributes_refl {T rng C} : Reflexive (@same_attributes T rng C).
Proof. by intros [??]. Qed.
Global Instance same_attributes_trans {T rng C} : Transitive (@same_attributes T rng C).
Proof.
  intros [??] [??] [??] (? & ? & ? & ?) (? & ? & ? & ?); simpl in *.
  repeat split; simpl; congruence.
Qed.

Lemma same_instance_weaken {T rng C} (st st' : T * World rng C) :
  same_instance st st' → same_instance_but_numpy st st'.
Proof. intros (? & ? & ? & ?). by repeat split. Qed.

(** Break a method body into its steps. *)
Ltac frame_step :=
  lazymatch goal with
  | |- preserves _ (mbind _ _) => apply preserves_bind; [apply _|..]
  | |- preserves _ (Py.bind _ _) => apply preserves_bind; [apply _|..]
  | |- preserves _ (mret _) => apply preserves_ret; apply _
  | |- preserves _ (Py.ret _) => apply preserves_ret; apply _
  | |- preserves _ (Py.raise _) => apply preserves_raise; apply _
  | |- preserves _ (Py.lift _) => apply preserves_lift; apply _
  | |- preserves _ Py.get => apply preserves_get; apply _
  | |- ∀ _, _ => intros ?
  | |- preserves _ (match ?x with _ => _ end) => destruct x
  | |- preserves _ (if ?x then _ else _) => destruct x
  end.

Section Frames.
Context {rng : Type} `{RandomGen rng} {C Id Tgt Feats : Type}.

(** Calling a collaborator changes its state only. *)
Lemma preserves_call {T A} (f : Py.M C A) :
  preserves (@same_instance T rng C) (call f).
Proof.
  intros [self w]. unfold call. destruct (f (collab w)) as [r c']. by repeat split.
Qed.

Lemma node_getitem_frame (i : Z) :
  preserves same_instance (NodeSequence.getitem (rng := rng) (C := C) (Id := Id)
                             (Tgt := Tgt) (Feats := Feats) i).
Proof.
  unfold NodeSequence.getitem. unfold mbind, M_bind.
  repeat first [apply preserves_call | frame_step].
Qed.

Lemma link_getitem_frame (i : Z) :
  preserves same_instance (LinkSequence.getitem (rng := rng) (C := C) (Id := Id)
                             (Tgt := Tgt) (Feats := Feats) i).
Proof.
  unfold LinkSequence.getitem. unfold mbind, M_bind.
  repeat first [apply preserves_call | frame_step].
Qed.

Lemma ondemand_getitem_frame (i : Z) :
  preserves same_instance (OnDemandLinkSequence.getitem (rng := rng) (C := C)
                             (Id := Id) (Tgt := Tgt) (Feats := Feats) i).
Proof.
  unfold OnDemandLinkSequence.getitem. unfold mbind, M_bind.
  repeat first [apply preserves_call | frame_step].
Qed.

End Frames.

Section CorruptedFrame.
Context {rng : Type} `{RandomGen rng} `{ArrayOps} {C Id Tgt LinkTgt : Type}.

Local Abbreviation corrupted :=
  (@CorruptedNodeSequence.t rng C Id Tgt).

Lemma np_random_permutation_frame (n : nat) :
  preserves same_instance_but_numpy
    (CorruptedNodeSequence.np_random_permutation (rng := rng) (C := C) (Id := Id)
       (Tgt := Tgt) n).
Proof.
  intros [self w]. unfold CorruptedNodeSequence.np_random_permutation.
  destruct (rs_shuffle _ _) as [idxs g']. by repeat split.
Qed.

Lemma corrupt_full_batch_frame (inputs : list Np.tensor) :
  preserves same_instance_but_numpy
    (CorruptedNodeSequence.corrupt_full_batch (rng := rng) (C := C) (Id := Id)
       (Tgt := Tgt) inputs).
Proof.
  unfold CorruptedNodeSequence.corrupt_full_batch. unfold mbind, M_bind.
  repeat first [apply np_random_permutation_frame | frame_step].
Qed.

Lemma corrupt_per_hop_frame (inputs : list Np.tensor) :
  preserves same_instance_but_numpy
    (CorruptedNodeSequence.corrupt_per_hop (rng := rng) (C := C) (Id := Id)
       (Tgt := Tgt) inputs).
Proof.
  unfold CorruptedNodeSequence.corrupt_per_hop. unfold mbind, M_bind.
  repeat first [apply np_random_permutation_frame | frame_step].
Qed.

(** A batch fetch through the wrapper leaves the wrapper and the wrapped
    object as they are; it advances the NumPy generator. *)
Lemma corrupted_getitem_frame (index : Z) :
  preserves same_instance_but_numpy
    (CorruptedNodeSequence.getitem (rng := rng) (C := C) (Id := Id) (Tgt := Tgt)
       index).
Proof.
  intros [[base tg] w]. unfold CorruptedNodeSequence.getitem.
  unfold mbind, M_bind, Py.bind at 1. simpl.
  destruct base as [s|s|s]; unfold Py.bind, CorruptedNodeSequence.on_base; simpl.
  - apply corrupt_full_batch_frame.
  - apply corrupt_full_batch_frame.
  - pose proof (node_getitem_frame index (s, w)) as Hbase.
    destruct (NodeSequence.getitem index (s, w)) as [[[inputs tgs]|e] [s' w']];
      destruct Hbase as (Hs & Hr & Hn & Hh); simpl in *; subst s'.
    + etrans; [|apply corrupt_per_hop_frame]. by repeat split.
    + by repeat split.
Qed.

End CorruptedFrame.

(** ** Dense and sparse matrices *)

Lemma cell_alter_alter {X} (f : X → X) (B : list (list X)) (i j i' j' : nat) :
  cell (alter (alter f j) i B) i' j' =
  if decide (i = i' ∧ j = j') then f <$> cell B i' j' else cell B i' j'.
Proof.
  unfold cell. destruct (decide (i = i')) as [<-|Hi].
  - rewrite list_lookup_alter_eq. destruct (B !! i) as [r|]; simpl.
    + destruct (decide (j = j')) as [<-|Hj].
      * rewrite decide_True by done. by rewrite list_lookup_alter_eq.
      * rewrite decide_False by tauto. by rewrite list_lookup_alter_ne.
    + by case_decide.
  - rewrite list_lookup_alter_ne by done. by rewrite decide_False by tauto.
Qed.

Lemma cell_add_at (B : list (list Z)) (i j i' j' : nat) (v : Z) :
  cell (Sparse.add_at B i j v) i' j' =
  if decide (i = i' ∧ j = j') then (λ x, x + v) <$> cell B i' j' else cell B i' j'.
Proof. apply cell_alter_alter. Qed.

Lemma cell_zeros (m n i j : nat) :
  (i < m)%nat → (j < n)%nat → cell (Sparse.zeros m n) i j = Some 0.
Proof.
  intros Hi Hj. unfold cell, Sparse.zeros.
  rewrite lookup_replicate_2 by done. simpl. by rewrite lookup_replicate_2.
Qed.

(** Adding the stored values changes no cell that carries no stored
    coordinate. *)
Lemma cell_foldl_add_at_other (es : list (nat * nat * Z)) (B : list (list Z)) (i j : nat) :
  Forall (λ e, ¬ (e.1.1 = i ∧ e.1.2 = j)) es →
  cell (foldl (λ B e, Sparse.add_at B e.1.1 e.1.2 e.2) B es) i j = cell B i j.
Proof.
  revert B. induction es as [|e es IH]; intros B Hes; [done|].
  apply Forall_cons in Hes as [He Hes]. simpl.
  rewrite IH by done. rewrite cell_add_at. by rewrite decide_False.
Qed.

Lemma length_foldl_add_at (es : list (nat * nat * Z)) (B : list (list Z)) :
  length (foldl (λ B e, Sparse.add_at B e.1.1 e.1.2 e.2) B es) = length B.
Proof.
  revert B. induction es as [|e es IH]; intros B; [done|].
  simpl. rewrite IH. apply length_alter.
Qed.

Lemma rows_foldl_add_at (es : list (nat * nat * Z)) (B : list (list Z)) (n : nat) :
  Forall (λ r, length r = n) B →
  Forall (λ r, length r = n) (foldl (λ B e, Sparse.add_at B e.1.1 e.1.2 e.2) B es).
Proof.
  revert B. induction es as [|e es IH]; intros B HB; [done|].
  simpl. apply IH. unfold Sparse.add_at.
  apply Forall_lookup. intros k r Hr.
  destruct (decide (e.1.1 = k)) as [<-|Hk].
  - rewrite list_lookup_alter_eq in Hr.
    destruct (B !! e.1.1) as [r0|] eqn:Hr0; [|done]. injection Hr as <-.
    rewrite length_alter. by eapply (Forall_lookup_1 _ _ _ _ HB).
  - rewrite list_lookup_alter_ne in Hr by done.
    by eapply (Forall_lookup_1 _ _ _ _ HB).
Qed.

(** [toarray] has the shape of the matrix. *)
Lemma length_toarray (A : Sparse.spmatrix) :
  length (Sparse.toarray A) = (Sparse.shape A).1.
Proof.
  unfold Sparse.toarray. rewrite length_foldl_add_at.
  unfold Sparse.zeros. by rewrite length_replicate.
Qed.

Lemma rows_toarray (A : Sparse.spmatrix) :
  Forall (λ r, length r = (Sparse.shape A).2) (Sparse.toarray A).
Proof.
  apply rows_foldl_add_at. unfold Sparse.zeros.
  apply Forall_replicate. by rewrite length_replicate.
Qed.

(** Outside the leading block that holds all stored coordinates, [toarray]
    is zero. *)
Lemma toarray_zero_outside (A : Sparse.spmatrix) (n i j : nat) :
  within n A →
  (i < (Sparse.shape A).1)%nat → (j < (Sparse.shape A).2)%nat →
  (n ≤ i ∨ n ≤ j)%nat →
  cell (Sparse.toarray A) i j = Some 0.
Proof.
  intros Hw Hi Hj Hout. unfold Sparse.toarray.
  rewrite cell_foldl_add_at_other; [by apply cell_zeros|].
  eapply Forall_impl; [exact Hw|]. simpl. intros e [??] [??]. lia.
Qed.

(** [resize] sets the shape and keeps stored coordinates where they were. *)
Lemma shape_resize (s : nat * nat) (A : Sparse.spmatrix) :
  Sparse.shape (Sparse.resize s A) = s.
Proof.
  unfold Sparse.resize. destruct s as [m n], (Sparse.shape A) as [M N].
  by case_decide.
Qed.

Lemma within_resize (n : nat) (s : nat * nat) (A : Sparse.spmatrix) :
  within n A → within n (Sparse.resize s A).
Proof.
  unfold within, Sparse.resize. intros Hw.
  destruct s as [m k], (Sparse.shape A) as [M N].
  case_decide; simpl; [|done].
  apply Forall_forall. intros e He%list_elem_of_filter.
  rewrite Forall_forall in Hw. apply Hw, He.
Qed.

(** Growing (or keeping) the shape keeps all entries. *)
Lemma resize_entries_grow (s : nat * nat) (A : Sparse.spmatrix) :
  ((Sparse.shape A).1 ≤ s.1)%nat → ((Sparse.shape A).2 ≤ s.2)%nat →
  Sparse.entries (Sparse.resize s A) = Sparse.entries A.
Proof.
  unfold Sparse.resize. destruct s as [m k], (Sparse.shape A) as [M N]. simpl.
  intros ??. by rewrite decide_False by lia.
Qed.

(** *** Placing against adding *)

Lemma place_at_add_at (B : list (list Z)) (i j : nat) (v : Z) :
  (∀ x, cell B i j = Some x → x = 0) →
  place_at B i j v = Sparse.add_at B i j v.
Proof.
  intros Hz. unfold place_at, Sparse.add_at.
  apply list_eq. intros k. destruct (decide (i = k)) as [<-|Hk].
  - rewrite !list_lookup_alter_eq. unfold cell in Hz.
    destruct (B !! i) as [r|]; simpl in *; [|done]. f_equal.
    apply list_eq. intros k. destruct (decide (j = k)) as [<-|Hk].
    + rewrite list_lookup_alter_eq.
      destruct (r !! j) as [x|] eqn:Hx; simpl.
      * rewrite list_lookup_insert_eq by by eapply lookup_lt_Some.
        by rewrite (Hz x eq_refl).
      * rewrite lookup_ge_None_2; [done|].
        rewrite length_insert. by apply lookup_ge_None.
    + by rewrite list_lookup_alter_ne, list_lookup_insert_ne.
  - by rewrite !list_lookup_alter_ne.
Qed.

(** On a matrix that is zero at the coordinates to come, which are pairwise
    distinct, placing the values one after the other and adding them give
    the same matrix. *)
Lemma foldl_place_add (es : list (nat * nat * Z)) (B : list (list Z)) :
  NoDup (fst <$> es) →
  Forall (λ e, ∀ x, cell B e.1.1 e.1.2 = Some x → x = 0) es →
  foldl (λ B e, place_at B e.1.1 e.1.2 e.2) B es =
  foldl (λ B e, Sparse.add_at B e.1.1 e.1.2 e.2) B es.
Proof.
  revert B. induction es as [|[[i j] v] es IH]; intros B Hnd Hz; [done|].
  rewrite fmap_cons in Hnd. apply NoDup_cons in Hnd as [Hij Hnd].
  apply Forall_cons in Hz as [Hz0 Hz]. simpl in *.
  rewrite place_at_add_at by done. apply IH; [done|].
  apply Forall_forall. intros [[i' j'] v'] He x. simpl.
  rewrite cell_add_at. rewrite decide_False.
  - rewrite Forall_forall in Hz. apply (Hz _ He).
  - intros [-> ->]. apply Hij. apply list_elem_of_fmap. by exists (i', j', v').
Qed.

(** The coordinate output read back as triples. *)
Lemma zip_coordinates_data (A : Sparse.spmatrix) :
  zip (default [] (head (SparseFullBatchSequence.coordinates A)))
      (default [] (head [Sparse.data A])) =
  (λ e, ([Z.of_nat e.1.1; Z.of_nat e.1.2], e.2)) <$> Sparse.entries A.
Proof.
  unfold SparseFullBatchSequence.coordinates, Sparse.row, Sparse.col, Sparse.data.
  simpl. induction (Sparse.entries A) as [|e es IH]; [done|].
  simpl. f_equal. exact IH.
Qed.

Lemma reconstruct_adding_toarray (A : Sparse.spmatrix) :
  reconstruct_adding (Sparse.shape A) (SparseFullBatchSequence.coordinates A)
    [Sparse.data A] = Sparse.toarray A.
Proof.
  unfold reconstruct_adding, Sparse.toarray. rewrite zip_coordinates_data.
  generalize (Sparse.zeros (Sparse.shape A).1 (Sparse.shape A).2).
  induction (Sparse.entries A) as [|e es IH]; intros B; [done|].
  simpl. rewrite !Nat2Z.id. apply IH.
Qed.

Lemma reconstruct_placing_foldl (A : Sparse.spmatrix) :
  reconstruct_placing (Sparse.shape A) (SparseFullBatchSequence.coordinates A)
    [Sparse.data A] =
  foldl (λ B e, place_at B e.1.1 e.1.2 e.2)
    (Sparse.zeros (Sparse.shape A).1 (Sparse.shape A).2) (Sparse.entries A).
Proof.
  unfold reconstruct_placing. rewrite zip_coordinates_data.
  generalize (Sparse.zeros (Sparse.shape A).1 (Sparse.shape A).2).
  induction (Sparse.entries A) as [|e es IH]; intros B; [done|].
  simpl. rewrite !Nat2Z.id. apply IH.
Qed.

Lemma cell_zeros_zero (m n i j : nat) (x : Z) :
  cell (Sparse.zeros m n) i j = Some x → x = 0.
Proof.
  unfold cell, Sparse.zeros. intros Hx.
  destruct (replicate m (replicate n 0) !! i) as [r|] eqn:Hr; [|done].
  apply lookup_replicate in Hr as [-> _]. simpl in Hx.
  by apply lookup_replicate in Hx as [-> _].
Qed.

Lemma reconstruct_placing_toarray (A : Sparse.spmatrix) :
  NoDup (coords A) →
  reconstruct_placing (Sparse.shape A) (SparseFullBatchSequence.coordinates A)
    [Sparse.data A] = Sparse.toarray A.
Proof.
  intros Hnd. rewrite reconstruct_placing_foldl. unfold Sparse.toarray.
  apply foldl_place_add; [done|].
  apply Forall_forall. intros e _ x. apply cell_zeros_zero.
Qed.

Lemma zeros_Return (dims : list Z) :
  Forall (λ d, 0 ≤ d) dims → ∃ a, Np.zeros dims = Return a.
Proof.
  induction 1 as [|d dims Hd _ [a Ha]]; simpl; [by eexists|].
  rewrite decide_False by lia. rewrite Ha. by eexists.
Qed.

Example cumsum_hops : cumsum [2; 3; 4]%nat = [2; 5; 9]%nat.
Proof. reflexivity. Qed.

(** ** The graph batcher *)

Lemma max_of_spec (l : list nat) :
  l ≠ [] →
  ∃ m, Py.max_of l = Return m ∧ Forall (λ x, (x ≤ m)%nat) l ∧ m ∈ l.
Proof.
  destruct l as [|x l]; [done|]. intros _. simpl.
  exists (foldr Nat.max x l). split; [done|].
  induction l as [|y l IH]; simpl.
  - split; [by repeat constructor|apply list_elem_of_here].
  - destruct IH as [IH1 IH2].
    apply Forall_cons in IH1 as [Hx Hl]. split.
    + repeat constructor; [lia|lia|].
      eapply Forall_impl; [exact Hl|]. simpl. lia.
    + destruct (Nat.max_spec y (foldr Nat.max x l)) as [[_ ->]|[_ ->]].
      * apply elem_of_cons in IH2 as [Heq|?].
        -- rewrite Heq. apply list_elem_of_here.
        -- by do 2 apply list_elem_of_further.
      * apply list_elem_of_further, list_elem_of_here.
Qed.

Lemma stack_Return (ms : list Np.matrix) (s : nat * nat) :
  ms ≠ [] → Forall (λ m, Np.shape m = s) ms →
  Np.stack ms = Return (Np.rows <$> ms).
Proof.
  destruct ms as [|m ms]; [done|]. intros _ Hs. unfold Np.stack.
  assert (forallb (λ m', bool_decide (Np.shape m' = Np.shape m)) (m :: ms) = true)
    as ->; [|done].
  apply Is_true_true, forallb_True.
  apply Forall_cons in Hs as Hs'. destruct Hs' as [Hm _].
  eapply Forall_impl; [exact Hs|]. simpl. intros m' Hm'.
  apply bool_decide_pack. congruence.
Qed.

(** The masks after the loop over [enumerate(graphs)]. *)
Lemma masks_loop (gs : list Graph) (a : nat) (masks0 : list (list bool)) (k : nat) :
  foldl (λ masks '(index, graph),
           Np.set_row_prefix masks index (number_of_nodes graph))
        masks0 (zip (seq a (length gs)) gs) !! k =
  if decide (a ≤ k)%nat then
    match gs !! (k - a)%nat with
    | Some g =>
        (λ r, replicate (number_of_nodes g `min` length r) true ++
              drop (number_of_nodes g) r) <$> masks0 !! k
    | None => masks0 !! k
    end
  else masks0 !! k.
Proof.
  revert a masks0. induction gs as [|g gs IH]; intros a masks0.
  - simpl. by case_decide.
  - simpl. rewrite IH. unfold Np.set_row_prefix.
    destruct (decide (a = k)) as [->|Hak].
    + rewrite decide_False by lia. rewrite decide_True by lia.
      rewrite Nat.sub_diag. simpl. by rewrite list_lookup_alter_eq.
    + rewrite list_lookup_alter_ne by done.
      destruct (decide (S a ≤ k)%nat).
      * rewrite decide_True by lia.
        by replace (k - a)%nat with (S (k - S a)) by lia.
      * by rewrite decide_False by lia.
Qed.

Lemma masks_spec (gs : list Graph) (m : nat) :
  Forall (λ g, (number_of_nodes g ≤ m)%nat) gs →
  foldl (λ masks '(index, graph),
           Np.set_row_prefix masks index (number_of_nodes graph))
        (Np.full_false (length gs) m) (Py.enumerate gs) =
  (λ g, replicate (number_of_nodes g) true ++
        replicate (m - number_of_nodes g) false) <$> gs.
Proof.
  intros Hm. apply list_eq. intros k. unfold Py.enumerate.
  rewrite masks_loop. rewrite decide_True by lia. rewrite Nat.sub_0_r.
  rewrite list_lookup_fmap. unfold Np.full_false.
  destruct (gs !! k) as [g|] eqn:Hg; simpl.
  - rewrite lookup_replicate_2 by by eapply lookup_lt_Some. simpl.
    rewrite length_replicate, drop_replicate.
    rewrite Nat.min_l; [done|]. by eapply (Forall_lookup_1 _ _ _ _ Hm).
  - apply lookup_ge_None in Hg. apply lookup_replicate_None. lia.
Qed.

Section GraphFacts.
Context {rng : Type} `{RandomGen rng} `{!RandomGenLaws rng} {C Tgt : Type}.
Context (core_normalize_adj : Sparse.spmatrix → Sparse.spmatrix).

Local Abbreviation gseq := (@GraphSequence.t Tgt).
Local Abbreviation gstate := (@GraphSequence.state rng C Tgt).

Ltac unfold_graph :=
  unfold GraphSequence.self_, GraphSequence.update, GraphSequence.getattr,
    GraphSequence.random_shuffle, GraphSequence.toarray, GraphSequence.deref,
    GraphSequence.resize, GraphSequence.alloc in *.

Lemma resize_loop (shape : nat * nat) (ls : list nat) (self : gseq) (w : World rng C) :
  Py.for_each ls (λ adj, GraphSequence.resize adj shape) (self, w) =
  (Return tt, (self, set_heap (resized shape ls (heap w)) w)).
Proof.
  revert w. induction ls as [|l ls IH]; intros w.
  - simpl. unfold Py.ret. by destruct w.
  - simpl. unfold Py.bind. unfold GraphSequence.resize at 1. simpl. by rewrite IH.
Qed.

Lemma resized_cons shape l ls (h : gmap nat Sparse.spmatrix) :
  resized shape (l :: ls) h =
  resized shape ls (<[l := Sparse.resize shape (h !!! l)]> h).
Proof. done. Qed.

Lemma resized_lookup_other shape ls (h : gmap nat Sparse.spmatrix) (l : nat) :
  l ∉ ls → resized shape ls h !! l = h !! l.
Proof.
  revert h. induction ls as [|l' ls IH]; intros h Hl; [done|].
  apply not_elem_of_cons in Hl as [Hne Hl].
  rewrite resized_cons, IH by done. by rewrite lookup_insert_ne.
Qed.

Lemma resized_lookup shape ls (h : gmap nat Sparse.spmatrix) (l : nat) :
  NoDup ls → l ∈ ls →
  resized shape ls h !! l = Some (Sparse.resize shape (h !!! l)).
Proof.
  revert h. induction ls as [|l' ls IH]; intros h Hnd Hl; [by apply elem_of_nil in Hl|].
  apply NoDup_cons in Hnd as [Hl' Hnd]. rewrite resized_cons.
  apply elem_of_cons in Hl as [->|Hl].
  - rewrite resized_lookup_other by done. by rewrite lookup_insert_eq.
  - rewrite IH by done.
    rewrite lookup_total_insert_ne; [done|]. by intros ->.
Qed.

Lemma toarray_loop (ls : list nat) (self : gseq) (w : World rng C) :
  Py.map_m GraphSequence.toarray ls (self, w) =
  (Return ((λ l, Np.mk_matrix (Sparse.shape (heap w !!! l)).2
                   (Sparse.toarray (heap w !!! l))) <$> ls), (self, w)).
Proof.
  induction ls as [|l ls IH]; [done|].
  simpl. unfold Py.bind at 1. unfold GraphSequence.toarray at 1.
  unfold_py. unfold GraphSequence.deref at 1. simpl.
  by rewrite IH.
Qed.

Lemma Forall2_lookup_zip {X Y} (a : list X) (b : list Y) (idxs : list nat)
    (ra : list X) (rb : list Y) :
  Forall2 (λ i x, a !! i = Some x) idxs ra →
  Forall2 (λ i y, b !! i = Some y) idxs rb →
  Forall2 (λ i p, zip a b !! i = Some p) idxs (zip ra rb).
Proof.
  intros Ha. revert rb. induction Ha as [|i x idxs ra Hx _ IH]; intros rb Hb.
  - inversion Hb. constructor.
  - inversion Hb as [|? y ? rb' Hy Hb']; subst. simpl. constructor; [|by apply IH].
    apply lookup_zip_with_Some. eauto.
Qed.

Lemma graph_on_epoch_end_spec gs0 ls0 (self : gseq) (w : World rng C) :
  graph_inv gs0 ls0 (self, w) →
  ∃ (self' : gseq) (w' : World rng C),
    GraphSequence.on_epoch_end (self, w) = (Return tt, (self', w')) ∧
    heap w' = heap w ∧ collab w' = collab w ∧
    GraphSequence.batch_size self' = GraphSequence.batch_size self ∧
    graph_inv gs0 ls0 (self', w').
Proof.
  intros (Hlen0 & Hnd & Hheap & Hts & adjs & Hadjs & Hlen & Hzip). simpl in *.
  unfold GraphSequence.on_epoch_end. unfold_py. unfold_graph. simpl.
  pose proof (rs_shuffle_perm (random_module w)
                (Py.range (length (GraphSequence.graphs self)))) as Hp.
  destruct (rs_shuffle (random_module w) _) as [idxs g']. simpl in Hp.
  unfold Py.range in Hp.
  pose proof (consistent_indices_bound _ _ Hp) as Hb.
  destruct (take_rows_Return (GraphSequence.graphs self) idxs Hb) as (gs' & -> & HFg).
  rewrite Hadjs. simpl.
  destruct (take_rows_Return adjs idxs) as (adjs' & -> & HFa); [by rewrite Hlen|].
  assert (zip gs' adjs' ≡ₚ zip gs0 ls0) as Hzip'.
  { rewrite <-Hzip. eapply Forall2_lookup_perm; [|by apply Forall2_lookup_zip].
    by rewrite length_zip, Hlen, Nat.min_id. }
  assert (length adjs' = length gs') as Hlen'.
  { apply Forall2_length in HFg, HFa. congruence. }
  destruct (GraphSequence.targets self) as [ts|] eqn:Hts'.
  - destruct (take_rows_Return ts idxs) as (ts' & -> & HFt);
      [by rewrite (Hts ts eq_refl)|].
    eexists _, _. split; [done|]. simpl. repeat split; try done.
    + intros ? [= <-]. apply Forall2_length in HFg, HFt. simpl. congruence.
    + by exists adjs'.
  - eexists _, _. split; [done|]. simpl. repeat split; try done.
    + simpl. by rewrite Hts'.
    + by exists adjs'.
Qed.

Lemma set_heap_set_heap (h1 h2 : gmap nat Sparse.spmatrix) (w : World rng C) :
  set_heap h2 (set_heap h1 w) = set_heap h2 w.
Proof. done. Qed.

(** The comprehension that builds the cached matrices allocates one new
    object per graph, at pairwise distinct unused references. *)
Lemma alloc_loop (f : Graph → Sparse.spmatrix) (gs : list Graph) (self : gseq)
    (w : World rng C) :
  ∃ (ls : list nat) (h' : gmap nat Sparse.spmatrix),
    Py.map_m (λ graph, GraphSequence.alloc (f graph)) gs (self, w) =
      (Return ls, (self, set_heap h' w)) ∧
    length ls = length gs ∧
    NoDup ls ∧
    (∀ l, l ∈ ls → heap w !! l = None) ∧
    (∀ k g l, gs !! k = Some g → ls !! k = Some l → h' !! l = Some (f g)) ∧
    (∀ l, is_Some (heap w !! l) → h' !! l = heap w !! l).
Proof.
  revert w. induction gs as [|g gs IH]; intros w.
  - exists [], (heap w). simpl. unfold Py.ret.
    split; [by destruct w|]. split; [done|]. split; [constructor|].
    split; [by intros ? ?%elem_of_nil|]. split; [done|done].
  - simpl. unfold Py.bind at 1. unfold GraphSequence.alloc at 1. simpl.
    set (l := fresh (dom (heap w))).
    set (w1 := set_heap (<[l := f g]> (heap w)) w).
    destruct (IH w1) as (ls & h' & Hrun & Hlen & Hnd & Hnew & Hval & Hold).
    assert (heap w !! l = None) as Hl by apply not_elem_of_dom, is_fresh.
    assert (h' !! l = Some (f g)) as Hhl.
    { rewrite Hold; simpl; by rewrite lookup_insert_eq. }
    exists (l :: ls), h'. unfold Py.bind. rewrite Hrun. unfold Py.ret.
    split; [done|]. split; [simpl; by rewrite Hlen|]. split.
    { constructor; [|done]. intros Hin%Hnew. simpl in Hin.
      by rewrite lookup_insert_eq in Hin. }
    split.
    { intros l0 [->|Hin%Hnew]%elem_of_cons; [done|]. simpl in Hin.
      by apply lookup_insert_None in Hin as [? _]. }
    split.
    { intros [|k] g0 l0 Hg Hl0; simpl in *.
      - by injection Hg as <-; injection Hl0 as <-.
      - by eapply Hval. }
    intros l0 Hsome. rewrite Hold; simpl.
    + rewrite lookup_insert_ne; [done|]. intros <-. rewrite Hl in Hsome.
      by apply is_Some_None in Hsome.
    + rewrite lookup_insert_ne; [done|]. intros <-. rewrite Hl in Hsome.
      by apply is_Some_None in Hsome.
Qed.

Lemma within_normalized (g : Graph) (F : nat) :
  normalize_ok core_normalize_adj → graph_wf F g →
  within (number_of_nodes g) (core_normalize_adj (to_adjacency_matrix g)).
Proof.
  intros Hn (_ & _ & Hshape & Hin).
  destruct (Hn _ Hin) as [Hs Hb]. unfold Sparse.in_bounds in Hb.
  rewrite Hs, Hshape in Hb. exact Hb.
Qed.

(** Construction with normalisation succeeds and establishes the invariant. *)
Lemma graph_init_spec (gs : list Graph) (targets : option (list Tgt)) (B : Z)
    (name : option string) (w : World rng C) (F : nat) :
  normalize_ok core_normalize_adj →
  Forall (graph_wf F) gs →
  (∀ ts, targets = Some ts → length ts = length gs) →
  ∃ (self : gseq) (w' : World rng C) (ls0 : list nat),
    GraphSequence.init core_normalize_adj gs targets true B name w =
      (Return self, w') ∧
    GraphSequence.batch_size self = B ∧
    graph_inv gs ls0 (self, w').
Proof.
  intros Hn Hwf Hts. unfold GraphSequence.init, GraphSequence.construct.
  set (self0 := GraphSequence.mk name gs true targets B None None).
  destruct (alloc_loop (λ g, core_normalize_adj (to_adjacency_matrix g)) gs self0 w)
    as (ls & h' & Hrun & Hlen & Hnd & _ & Hval & _).
  set (self1 := GraphSequence.set_normalized_adjs ls
                  (GraphSequence.set_normalized_adjs ls self0)).
  assert (graph_inv gs ls (self1, set_heap h' w)) as Hinv.
  { split; [done|]. split; [done|]. split; [|split].
    - intros g l Hgl. simpl.
      apply list_elem_of_lookup in Hgl as [k Hk].
      apply lookup_zip_with_Some in Hk as (g' & l' & [= <- <-] & Hg & Hl).
      rewrite (lookup_total_correct _ _ _ (Hval _ _ _ Hg Hl)).
      eapply within_normalized; [done|]. by eapply (Forall_lookup_1 _ _ _ _ Hwf).
    - simpl. done.
    - exists ls. simpl. done. }
  destruct (graph_on_epoch_end_spec gs ls self1 (set_heap h' w) Hinv)
    as (self' & w' & Hep & _ & _ & HB & Hinv').
  exists self', w', ls.
  split; [|split; [by rewrite HB|done]].
  unfold_py. unfold GraphSequence.self_ at 1 2, GraphSequence.update,
    GraphSequence.getattr.
  assert (match targets with
          | Some ts => length gs = length ts
          | None => True
          end) as Hok.
  { destruct targets as [ts|]; [|done]. rewrite (Hts ts); auto. }
  destruct targets as [ts|]; [rewrite decide_False by lia|].
  all: simpl; rewrite Hrun; simpl; fold self1; by rewrite Hep.
Qed.

(** A batch with at least one graph is returned padded to its largest graph;
    the instance keeps its attributes, and the cached matrices of the batch
    are resized in place. *)
Lemma graph_getitem_spec gs0 ls0 (self : gseq) (w : World rng C) (index : Z) (F : nat) :
  graph_inv gs0 ls0 (self, w) →
  Forall (graph_wf F) gs0 →
  batch_graphs self index ≠ [] →
  ∃ m : nat,
    Py.max_of (number_of_nodes <$> batch_graphs self index) = Return m ∧
    GraphSequence.getitem index (self, w) =
      (Return (padded_batch F m (batch_graphs self index) (batch_refs self index)
                 (heap w)
                 ((λ ts, Py.slice ts (index * GraphSequence.batch_size self)
                           ((index + 1) * GraphSequence.batch_size self))
                    <$> GraphSequence.targets self)),
       (self, set_heap (resized (m, m) (batch_refs self index) (heap w)) w)) ∧
    Forall2 (λ g l, (g, l) ∈ zip gs0 ls0)
      (batch_graphs self index) (batch_refs self index) ∧
    NoDup (batch_refs self index) ∧
    graph_inv gs0 ls0
      (self, set_heap (resized (m, m) (batch_refs self index) (heap w)) w).
Proof.
  intros (Hlen0 & Hnd & Hheap & Hts & adjs & Hadjs & Hlen & Hzip) Hwf Hne.
  simpl in *.
  unfold batch_graphs, batch_refs in *. rewrite Hadjs. simpl.
  set (start := index * GraphSequence.batch_size self) in *.
  set (stop := (index + 1) * GraphSequence.batch_size self) in *.
  set (gs := Py.slice (GraphSequence.graphs self) start stop) in *.
  set (ls := Py.slice adjs start stop).
  assert (length gs = length ls) as Hlengs by by apply slice_length_eq.
  assert (∀ g l, (g, l) ∈ zip gs ls → (g, l) ∈ zip gs0 ls0) as Hmem.
  { intros g l Hgl. rewrite <-Hzip. unfold gs, ls in Hgl.
    rewrite slice_zip in Hgl by done.
    by eapply sublist_subseteq; [apply slice_sublist|]. }
  assert (Forall2 (λ g l, (g, l) ∈ zip gs0 ls0) gs ls) as HF2.
  { apply Forall2_same_length_lookup. split; [done|].
    intros i g l Hg Hl. apply Hmem.
    apply (list_elem_of_lookup_2 _ i). apply lookup_zip_with_Some. eauto. }
  assert (Forall (graph_wf F) gs) as Hwfgs.
  { apply Forall_lookup. intros i g Hg.
    destruct (lookup_lt_is_Some_2 ls i) as [l Hl];
      [rewrite <-Hlengs; by eapply lookup_lt_Some|].
    rewrite Forall_forall in Hwf. apply Hwf.
    eapply (elem_of_zip_l _ l _ ls0). eapply (Forall2_lookup_lr _ _ _ _ _ _ HF2); done. }
  assert (NoDup ls) as Hndls.
  { apply (sublist_NoDup _ adjs); [|apply slice_sublist].
    rewrite <-(snd_zip (GraphSequence.graphs self) adjs) by lia.
    rewrite Hzip. by rewrite snd_zip by lia. }
  destruct (max_of_spec (number_of_nodes <$> gs)) as (m & Hmax & Hbound & _).
  { intros Hnil. by apply fmap_nil_inv in Hnil. }
  apply Forall_fmap in Hbound. simpl in Hbound.
  exists m. split; [done|].
  assert (graph_inv gs0 ls0 (self, set_heap (resized (m, m) ls (heap w)) w)) as Hinv'.
  { repeat split; try done.
    - intros g l Hgl. simpl.
      destruct (decide (l ∈ ls)) as [Hin|Hout].
      + rewrite (lookup_total_correct _ _ _ (resized_lookup (m, m) ls _ l Hndls Hin)).
        apply within_resize. by apply Hheap.
      + unfold lookup_total, map_lookup_total.
        rewrite (resized_lookup_other (m, m) ls _ l Hout). by apply Hheap.
    - by exists adjs. }
  split; [|done].
  unfold GraphSequence.getitem. unfold_py.
  unfold GraphSequence.self_, GraphSequence.getattr. simpl.
  rewrite Hadjs. simpl. fold start stop. fold gs ls. rewrite Hmax.
  rewrite (stack_Return _ (m, F)); cycle 1.
  { intros Hnil. by apply fmap_nil_inv in Hnil. }
  { apply Forall_fmap, Forall_forall. intros g Hg. simpl.
    rewrite Forall_forall in Hwfgs, Hbound.
    destruct (Hwfgs g Hg) as (Hrows & Hcols & _). specialize (Hbound g Hg).
    unfold compose in Hbound.
    unfold Np.shape. simpl. rewrite length_app, length_replicate, Hrows, Hcols.
    f_equal. lia. }
  rewrite resize_loop. rewrite toarray_loop. simpl.
  rewrite (stack_Return _ (m, m)); cycle 1.
  { intros Hnil. apply fmap_nil_inv in Hnil. rewrite Hnil in Hlengs.
    by destruct gs. }
  { apply Forall_fmap, Forall_forall. intros l Hl. simpl.
    rewrite (lookup_total_correct _ _ _ (resized_lookup (m, m) ls _ l Hndls Hl)).
    unfold Np.shape. cbn [Np.rows Np.ncols].
    by rewrite length_toarray, !shape_resize. }
  rewrite masks_spec by done.
  unfold padded_batch. rewrite <-!list_fmap_compose.
  assert (∀ (X : Type) (a1 a2 : list (list (list Z))) (b : list (list bool))
            (c1 c2 : list (list (list Z))) (t : option (list Tgt)) (s : X),
            a1 = a2 → c1 = c2 →
            (Return (GraphSequence.mk_batch a1 b c1 t), s) =
            (Return (GraphSequence.mk_batch a2 b c2 t), s)) as Heq
    by (by intros ???????? -> ->).
  apply Heq.
  - apply list_fmap_ext. intros i g Hg. simpl.
    rewrite Forall_forall in Hwfgs.
    by destruct (Hwfgs g (list_elem_of_lookup_2 _ _ _ Hg)) as (_ & -> & _).
  - apply list_fmap_ext. intros i l Hl. simpl.
    by rewrite (lookup_total_correct _ _ _
                  (resized_lookup (m, m) ls _ l Hndls (list_elem_of_lookup_2 _ _ _ Hl))).
Qed.

(** A batch without graphs: [max] of the empty list raises [ValueError]
    before anything is touched. *)
Lemma graph_getitem_empty (self : gseq) (w : World rng C) (index : Z) adjs :
  GraphSequence.normalized_adjs self = Some adjs →
  batch_graphs self index = [] →
  GraphSequence.getitem index (self, w) = (Raise ValueError, (self, w)).
Proof.
  intros Hadjs Hnil. unfold GraphSequence.getitem. unfold_py.
  unfold GraphSequence.self_, GraphSequence.getattr. simpl.
  rewrite Hadjs. simpl. unfold batch_graphs in Hnil. by rewrite Hnil.
Qed.

Lemma graph_step_inv gs0 ls0 (F : nat) (c : graph_call) (self : gseq) (w : World rng C) :
  Forall (graph_wf F) gs0 →
  graph_inv gs0 ls0 (self, w) →
  graph_inv gs0 ls0 (graph_step c (self, w)) ∧
  GraphSequence.batch_size (graph_step c (self, w)).1 = GraphSequence.batch_size self.
Proof.
  intros Hwf Hinv. destruct c as [|index]; simpl.
  - destruct (graph_on_epoch_end_spec gs0 ls0 self w Hinv)
      as (s' & w' & -> & _ & _ & HB & Hinv'). done.
  - destruct (decide (batch_graphs self index = [])) as [Hnil|Hne].
    + destruct Hinv as (? & ? & ? & ? & adjs & Hadjs & ?).
      rewrite (graph_getitem_empty self w index adjs Hadjs Hnil). simpl.
      split; [|done]. repeat split; try done. by exists adjs.
    + destruct (graph_getitem_spec gs0 ls0 self w index F Hinv Hwf Hne)
        as (m & _ & -> & _ & _ & Hinv'). done.
Qed.

Lemma graph_run_inv gs0 ls0 (F : nat) (calls : list (rng * graph_call))
    (self : gseq) (w : World rng C) :
  Forall (graph_wf F) gs0 →
  graph_inv gs0 ls0 (self, w) →
  graph_inv gs0 ls0 (graph_run calls (self, w)) ∧
  GraphSequence.batch_size (graph_run calls (self, w)).1 = GraphSequence.batch_size self.
Proof.
  intros Hwf. revert self w.
  induction calls as [|[g c] calls IH]; intros self w Hinv; [done|].
  simpl.
  assert (graph_inv gs0 ls0 (self, set_random_module g w)) as Hinv0.
  { destruct Hinv as (? & ? & ? & ? & ?). by repeat split. }
  destruct (graph_step_inv gs0 ls0 F c self _ Hwf Hinv0) as [Hinv1 HB1].
  destruct (graph_step c (self, set_random_module g w)) as [s1 w1].
  destruct (IH s1 w1 Hinv1) as [Hinv2 HB2]. split; [done|].
  by rewrite HB2, <-HB1.
Qed.

End GraphFacts.

(** What a padded batch holds for one of its graphs: the mask is true on the
    nodes and false on the padding; the feature rows and the adjacency
    entries at a padding position are zero. *)
Lemma padded_batch_graph {Tgt} (F m : nat) (gs : list Graph) (ls : list nat)
    (h : gmap nat Sparse.spmatrix) (tg : option (list Tgt)) (k : nat) (g : Graph)
    (l : nat) :
  gs !! k = Some g → ls !! k = Some l →
  graph_wf F g → (number_of_nodes g ≤ m)%nat →
  within (number_of_nodes g) (h !!! l) →
  let b := padded_batch F m gs ls h tg in
  GraphSequence.masks b !! k =
    Some (replicate (number_of_nodes g) true ++
          replicate (m - number_of_nodes g) false) ∧
  (∃ X, GraphSequence.features b !! k = Some X ∧ length X = m ∧
        ∀ i, (number_of_nodes g ≤ i < m)%nat → X !! i = Some (replicate F 0)) ∧
  (∃ M, GraphSequence.adj_graphs b !! k = Some M ∧ length M = m ∧
        Forall (λ r, length r = m) M ∧
        ∀ i j, (i < m)%nat → (j < m)%nat →
               (number_of_nodes g ≤ i ∨ number_of_nodes g ≤ j)%nat →
               cell M i j = Some 0).
Proof.
  intros Hg Hl (Hrows & Hcols & _) Hn Hw b. unfold b, padded_batch.
  cbn [GraphSequence.masks GraphSequence.features GraphSequence.adj_graphs].
  rewrite !list_lookup_fmap, Hg, Hl.
  cbn [fmap option_fmap option_map]. split; [done|]. split.
  - eexists. split; [done|]. split.
    + rewrite length_app, length_replicate. lia.
    + intros i Hi. rewrite lookup_app_r by lia.
      apply lookup_replicate_2. lia.
  - eexists. split; [done|].
    pose proof (shape_resize (m, m) (h !!! l)) as Hs.
    split; [by rewrite length_toarray, Hs|]. split.
    + pose proof (rows_toarray (Sparse.resize (m, m) (h !!! l))) as Hr.
      by rewrite Hs in Hr.
    + intros i j Hi Hj Hout.
      apply (toarray_zero_outside _ (number_of_nodes g)); rewrite ?Hs; try done.
      by apply within_resize.
Qed.

(** A batch that starts at or past the end of the graphs has no graph, and
    [max] of the empty list raises [ValueError]: there is no range check in
    the graph batcher. *)
Lemma graph_getitem_past_end {rng C Tgt : Type} (self : @GraphSequence.t Tgt)
    (w : World rng C) (index : Z) :
  is_Some (GraphSequence.normalized_adjs self) →
  Z.of_nat (length (GraphSequence.graphs self)) ≤ index * GraphSequence.batch_size self →
  GraphSequence.getitem index (self, w) = (Raise ValueError, (self, w)).
Proof.
  intros [adjs Hadjs] Hpast. unfold GraphSequence.getitem. unfold_py.
  unfold GraphSequence.self_, GraphSequence.getattr. simpl.
  rewrite Hadjs. simpl. by rewrite slice_empty_from by done.
Qed.

(** ** What a batch fetch changes *)

Lemma filter_Forall_id {X} (P : X → Prop) `{!∀ x, Decision (P x)} (l : list X) :
  Forall P l → filter P l = l.
Proof.
  induction 1 as [|x l Hx _ IH]; [done|].
  rewrite filter_cons_True by done. by rewrite IH.
Qed.

(** Resizing to a shape that covers all stored coordinates keeps them all. *)
Lemma resize_entries_within (n m : nat) (A : Sparse.spmatrix) :
  within n A → (n ≤ m)%nat →
  Sparse.entries (Sparse.resize (m, m) A) = Sparse.entries A.
Proof.
  intros Hw Hn. unfold Sparse.resize. destruct (Sparse.shape A) as [M N].
  case_decide; simpl; [|done]. apply filter_Forall_id.
  eapply Forall_impl; [exact Hw|]. simpl. lia.
Qed.

Section GraphFrame.
Context {rng : Type} `{RandomGen rng} `{!RandomGenLaws rng} {C Tgt : Type}.

Local Abbreviation gseq := (@GraphSequence.t Tgt).

(** A batch fetch leaves the attributes of the graph batcher (graphs,
    targets, references to the cached matrices, batch size) and the
    generators as they are. *)
Lemma graph_getitem_frame (index : Z) :
  preserves same_attributes
    (GraphSequence.getitem (rng := rng) (C := C) (Tgt := Tgt) index).
Proof.
  intros [self w]. unfold GraphSequence.getitem. unfold_py.
  unfold GraphSequence.self_, GraphSequence.getattr. simpl.
  destruct (GraphSequence.normalized_adjs self) as [adjs|]; simpl; [|done].
  destruct (Py.max_of _) as [m|]; simpl; [|done].
  destruct (Np.stack _) as [feats|]; simpl; [|done].
  rewrite resize_loop, toarray_loop. simpl.
  destruct (Np.stack _); simpl; by repeat split.
Qed.

(** Its only effect on the heap is the in-place resize of the cached
    matrices of the batch. *)
Lemma graph_getitem_heap (self : gseq) (w : World rng C) (index : Z) :
  heap (GraphSequence.getitem index (self, w)).2.2 = heap w ∨
  ∃ m, heap (GraphSequence.getitem index (self, w)).2.2 =
         resized (m, m) (batch_refs self index) (heap w).
Proof.
  unfold GraphSequence.getitem, batch_refs. unfold_py.
  unfold GraphSequence.self_, GraphSequence.getattr. simpl.
  destruct (GraphSequence.normalized_adjs self) as [adjs|]; simpl; [|by left].
  destruct (Py.max_of _) as [m|]; simpl; [|by left].
  destruct (Np.stack _) as [feats|]; simpl; [|by left].
  rewrite resize_loop, toarray_loop. simpl.
  destruct (Np.stack _); simpl; right; by exists m.
Qed.

(** In the life of an instance, a batch fetch keeps the stored entries of
    every cached matrix: the resize changes shapes only. *)
Lemma graph_getitem_entries gs0 ls0 (F : nat) (self : gseq) (w : World rng C)
    (index : Z) (l : nat) :
  Forall (graph_wf F) gs0 →
  graph_inv gs0 ls0 (self, w) →
  Sparse.entries (heap (GraphSequence.getitem index (self, w)).2.2 !!! l) =
  Sparse.entries (heap w !!! l).
Proof.
  intros Hwf Hinv.
  destruct (decide (batch_graphs self index = [])) as [Hnil|Hne].
  - destruct Hinv as (_ & _ & _ & _ & adjs & Hadjs & _).
    by rewrite (graph_getitem_empty self w index adjs Hadjs Hnil).
  - destruct (graph_getitem_spec gs0 ls0 self w index F Hinv Hwf Hne)
      as (m & Hmax & -> & HF2 & Hnd & _). simpl.
    destruct (decide (l ∈ batch_refs self index)) as [Hin|Hout].
    + rewrite (lookup_total_correct _ _ _ (resized_lookup (m, m) _ _ l Hnd Hin)).
      apply list_elem_of_lookup in Hin as [k Hk].
      destruct (Forall2_lookup_r _ _ _ _ _ HF2 Hk) as (g & Hg & Hgl).
      destruct Hinv as (_ & _ & Hheap & _).
      apply (resize_entries_within (number_of_nodes g)); [by apply Hheap|].
      destruct (max_of_spec (number_of_nodes <$> batch_graphs self index))
        as (m' & Hmax' & Hle & _).
      { intros Hnil%fmap_nil_inv. done. }
      rewrite Hmax in Hmax'. injection Hmax' as <-.
      rewrite Forall_forall in Hle. apply Hle.
      apply list_elem_of_fmap. exists g. split; [done|].
      by eapply list_elem_of_lookup_2.
    + unfold lookup_total, map_lookup_total.
      by rewrite (resized_lookup_other (m, m) _ _ l Hout).
Qed.

End GraphFrame.

(** ** More on the per-entity batchers *)

Section EntityMore.
Context {rng : Type} `{RandomGen rng} {C Id Tgt Feats : Type}.
Context (random_state : option Z → rs_handle rng).

Local Abbreviation node := (@NodeSequence.t rng C Id Tgt Feats).
Local Abbreviation link := (@LinkSequence.t rng C Id Tgt Feats).

Lemma link_on_epoch_end_as_node (s : link) (w : World rng C) :
  NodeSequence.on_epoch_end (as_node s, w) =
  on_self as_node (LinkSequence.on_epoch_end (s, w)).
Proof.
  unfold NodeSequence.on_epoch_end, LinkSequence.on_epoch_end, on_self.
  unfold_py. simpl.
  destruct (LinkSequence.shuffle s); [|done].
  destruct (LinkSequence._rs s) as [g|]; by destruct (rs_shuffle _ _).
Qed.

Lemma link_getitem_as_node (i : Z) (s : link) (w : World rng C) :
  NodeSequence.getitem i (as_node s, w) =
  on_self as_node (LinkSequence.getitem i (s, w)).
Proof.
  unfold NodeSequence.getitem, LinkSequence.getitem, on_self.
  unfold NodeSequence.head_ids, LinkSequence.head_ids,
    NodeSequence.batch_indices, LinkSequence.batch_indices.
  unfold_py. simpl.
  case_decide; [done|].
  destruct (Py.comprehension _ _) as [h|]; [|done].
  destruct (LinkSequence.targets s) as [ts|]; simpl.
  - destruct (Py.take_rows ts _) as [rows|]; simpl; [|done].
    by destruct (LinkSequence._sample_features s h i (collab w)) as [[x|e] c'].
  - by destruct (LinkSequence._sample_features s h i (collab w)) as [[x|e] c'].
Qed.

Lemma link_init_as_node (sample : pyfun (list Id → Z → Py.M C Feats))
    (batch_size : Z) (ids : pyarg Id) (targets : option (pyarg Tgt))
    (shuffle : bool) (seed : option Z) (w : World rng C) :
  NodeSequence.init random_state sample batch_size ids targets shuffle seed w =
  (outcome_map as_node
     (LinkSequence.init random_state sample batch_size ids targets shuffle seed w).1,
   (LinkSequence.init random_state sample batch_size ids targets shuffle seed w).2).
Proof.
  unfold NodeSequence.init, LinkSequence.init.
  destruct ids as [ids|]; [|done]. unfold_py.
  destruct targets as [[ts|]|]; simpl; [destruct (decide (length ids ≠ length ts))| |];
    try done.
  all: try rewrite bool_decide_eq_false_2 by done.
  all: destruct sample as [f|]; [|done].
  all: unfold NodeSequence.construct, LinkSequence.construct.
  all: match goal with
       | |- context [LinkSequence.on_epoch_end (?s, ?w0)] =>
           pose proof (link_on_epoch_end_as_node s w0) as Heq;
           destruct (LinkSequence.on_epoch_end (s, w0)) as [[[]|e] [s' w']]
       end.
  all: unfold on_self in Heq; simpl in Heq.
  all: match type of Heq with
       | NodeSequence.on_epoch_end (?a, _) = _ =>
           match goal with
           | |- context [NodeSequence.on_epoch_end (?b, _)] => change b with a
           end
       end.
  all: by rewrite Heq.
Qed.

Lemma link_len_as_node (s : link) : NodeSequence.len (as_node s) = LinkSequence.len s.
Proof. done. Qed.

Lemma link_epochs_as_node (env : list interference) (s : link) (w : World rng C) :
  node_epochs env (as_node s, w) = on_self as_node (link_epochs env (s, w)).
Proof.
  revert s w. induction env as [|e env IH]; intros s w; [done|].
  simpl. rewrite link_on_epoch_end_as_node. unfold on_self at 1.
  destruct (LinkSequence.on_epoch_end (s, e w)) as [[[]|x] [s' w']]; simpl; [|done].
  apply IH.
Qed.

Lemma link_lifecycle_as_node (sample : pyfun (list Id → Z → Py.M C Feats))
    (batch_size : Z) (ids : pyarg Id) (targets : option (pyarg Tgt))
    (shuffle : bool) (seed : option Z) (w : World rng C) (env : list interference) :
  node_lifecycle random_state sample batch_size ids targets shuffle seed w env =
  outcome_map as_node
    (link_lifecycle random_state sample batch_size ids targets shuffle seed w env).
Proof.
  unfold node_lifecycle, link_lifecycle. rewrite link_init_as_node.
  destruct (LinkSequence.init _ _ _ _ _ _ _ _) as [[s|e] w']; simpl; [|done].
  rewrite link_epochs_as_node. unfold on_self.
  by destruct (link_epochs env (s, w')) as [[[]|x] [s' w'']].
Qed.

(** The constructor returns exactly on arguments that pass its three checks,
    and a failed construction has touched nothing. *)
Lemma node_init_validation (sample : pyfun (list Id → Z → Py.M C Feats))
    (batch_size : Z) (ids : pyarg Id) (targets : option (pyarg Tgt))
    (shuffle : bool) (seed : option Z) (w : World rng C) :
  match ids, targets, sample with
  | NotIterable, _, _ | Iterable _, Some NotIterable, _ =>
      NodeSequence.init random_state sample batch_size ids targets shuffle seed w
      = (Raise TypeError, w)
  | Iterable l, Some (Iterable ts), NotCallable =>
      NodeSequence.init random_state sample batch_size ids targets shuffle seed w
      = (Raise (if decide (length l = length ts) then TypeError else ValueError), w)
  | Iterable l, None, NotCallable =>
      NodeSequence.init random_state sample batch_size ids targets shuffle seed w
      = (Raise TypeError, w)
  | Iterable l, Some (Iterable ts), Callable f =>
      if decide (length l = length ts)
      then ∃ self : node,
        (NodeSequence.init random_state sample batch_size ids targets shuffle seed w).1
        = Return self
      else NodeSequence.init random_state sample batch_size ids targets shuffle seed w
           = (Raise ValueError, w)
  | Iterable l, None, Callable f =>
      ∃ self : node,
        (NodeSequence.init random_state sample batch_size ids targets shuffle seed w).1
        = Return self
  end.
Proof.
  unfold NodeSequence.init.
  destruct ids as [l|]; [|done]. unfold_py.
  assert (∀ s0 : node, ∃ self : node,
            (NodeSequence.construct s0 NodeSequence.on_epoch_end w).1 = Return self)
    as Hc.
  { intros s0. unfold NodeSequence.construct, NodeSequence.on_epoch_end. unfold_py.
    simpl. destruct (NodeSequence.shuffle s0); [|by eexists].
    destruct (NodeSequence._rs s0) as [g|]; destruct (rs_shuffle _ _); by eexists. }
  destruct targets as [[ts|]|]; simpl.
  - destruct (decide (length l = length ts)) as [Hl|Hl].
    + rewrite decide_False by (intros ?; done).
      destruct sample as [f|]; [apply Hc|done].
    + rewrite decide_True by done. by destruct sample.
  - by destruct sample.
  - destruct sample as [f|]; [apply Hc|done].
Qed.

(** Without shuffling the index array is the identity at every epoch, and no
    generator is consulted. *)
Lemma node_on_epoch_end_unshuffled (self : node) (w : World rng C) :
  NodeSequence.shuffle self = false →
  NodeSequence.on_epoch_end (self, w) =
  (Return tt, (NodeSequence.set_indices (seq 0 (NodeSequence.data_size self)) self, w)).
Proof.
  intros Hs. unfold NodeSequence.on_epoch_end. unfold_py. simpl. by rewrite Hs.
Qed.

Lemma node_epochs_unshuffled (env : list interference) (self : node) (w : World rng C) :
  NodeSequence.shuffle self = false →
  NodeSequence.indices self = seq 0 (NodeSequence.data_size self) →
  node_epochs env (self, w) = (Return tt, (self, foldl (λ w e, e w) w env)).
Proof.
  revert w. induction env as [|e env IH]; intros w Hs Hi; [done|].
  simpl. rewrite node_on_epoch_end_unshuffled by done.
  replace (NodeSequence.set_indices _ self) with self
    by (destruct self; simpl in *; by subst).
  by apply IH.
Qed.

(** Picking the identity positions of a slice picks the slice. *)
Lemma take_rows_identity_slice {X} (a : list X) (start stop : Z) :
  Py.take_rows a (Py.slice (seq 0 (length a)) start stop) =
  Return (Py.slice a start stop).
Proof.
  unfold Py.take_rows. apply comprehension_Return.
  unfold Py.slice. rewrite length_seq.
  apply Forall2_take, Forall2_drop.
  eapply Forall2_impl; [apply Forall2_lookup_seq|].
  intros i x Hx. by apply index_lookup.
Qed.

(** A batch number whose start lies before the end of the data is served:
    the sampling function is called on the head ids of the slice. *)
Lemma node_getitem_served (self : node) (i : Z) :
  node_consistent self →
  NodeSequence.batch_size self * i < Z.of_nat (NodeSequence.data_size self) →
  ∃ h batch_targets,
    NodeSequence.head_ids self i = Return h ∧
    Forall2 (λ ii x, NodeSequence.ids self !! ii = Some x)
      (NodeSequence.batch_indices self i) h ∧
    (∀ ts, NodeSequence.targets self = Some ts →
       ∃ rows, batch_targets = Some rows ∧
         Forall2 (λ ii x, ts !! ii = Some x)
           (NodeSequence.batch_indices self i) rows) ∧
    (NodeSequence.targets self = None → batch_targets = None) ∧
    ∀ w : World rng C,
      NodeSequence.getitem i (self, w) =
      let '(r, c') := NodeSequence._sample_function self h i (collab w) in
      (match r with
       | Return batch_feats => Return (batch_feats, batch_targets)
       | Raise e => Raise e
       end, (self, set_collab c' w)).
Proof.
  intros (Hn & Hp & Hts) Hstart.
  assert (Forall (λ i, (i < NodeSequence.data_size self)%nat)
            (NodeSequence.batch_indices self i)) as Hbi.
  { unfold NodeSequence.batch_indices, Py.slice. cbv zeta.
    by apply Forall_take, Forall_drop, consistent_indices_bound. }
  assert (∃ h, NodeSequence.head_ids self i = Return h ∧
               Forall2 (λ ii x, NodeSequence.ids self !! ii = Some x)
                 (NodeSequence.batch_indices self i) h) as (h & Hh & HFh).
  { rewrite Hn in Hbi. destruct (take_rows_Return _ _ Hbi) as (h & ? & ?). by exists h. }
  exists h.
  destruct (NodeSequence.targets self) as [ts|] eqn:Ht.
  - rewrite <-(Hts ts eq_refl) in Hbi.
    destruct (take_rows_Return ts _ Hbi) as (rows & Hrows & HF).
    exists (Some rows). split; [done|]. split; [done|].
    split; [intros ? [= <-]; eauto|]. split; [done|].
    intros w. unfold NodeSequence.getitem. unfold_py. simpl.
    rewrite decide_False by lia. rewrite Hh, Ht. simpl. rewrite Hrows.
    destruct (NodeSequence._sample_function self h i (collab w)) as [[x|e] c']; done.
  - exists None. split; [done|]. split; [done|]. split; [done|]. split; [done|].
    intros w. unfold NodeSequence.getitem. unfold_py. simpl.
    rewrite decide_False by lia. rewrite Hh, Ht. simpl.
    destruct (NodeSequence._sample_function self h i (collab w)) as [[x|e] c']; done.
Qed.

(** The width of the slice of batch [i]. *)
Lemma slice_chunk_length {X} (l : list X) (b i : Z) :
  0 < b → 0 ≤ i → b * i < Z.of_nat (length l) →
  Z.of_nat (length (Py.slice l (b * i) (b * i + b))) =
  Z.min b (Z.of_nat (length l) - b * i).
Proof.
  intros Hb Hi Hlt. rewrite slice_chunk by done.
  rewrite length_take, length_drop. nia.
Qed.

(** Batch number [-1] selects the empty slice. *)
Lemma slice_minus_one {X} (l : list X) (b : Z) :
  0 < b → Py.slice l (b * -1) (b * -1 + b) = [].
Proof.
  intros Hb. unfold Py.slice.
  replace (b * -1 + b) with 0 by lia.
  replace (Py.slice_bound (length l) 0) with 0%nat; [done|].
  unfold Py.slice_bound. rewrite decide_False by lia. lia.
Qed.

Lemma node_constructor_checks (sample : pyfun (list Id → Z → Py.M C Feats))
    (batch_size : Z) (ids : pyarg Id) (targets : option (pyarg Tgt))
    (shuffle : bool) (seed : option Z) (w : World rng C) :
  constructor_checks sample ids targets w
    (NodeSequence.init random_state sample batch_size ids targets shuffle seed w).
Proof.
  pose proof (node_init_validation sample batch_size ids targets shuffle seed w) as Hv.
  unfold constructor_checks.
  destruct ids as [l|].
  2:{ rewrite Hv. simpl. split; [|split].
      - split; [by intros [? [=]]|by intros (? & ? & [=] & _)].
      - split; [done|by intros (? & ? & [=] & _)].
      - intros e [= <-]. auto. }
  destruct targets as [[ts|]|].
  2:{ rewrite Hv. simpl. split; [|split].
      - split; [by intros [? [=]]|by intros (? & ? & [= <-] & [] & _)].
      - split; [done|by intros (? & ? & _ & [=] & _)].
      - intros e [= <-]. auto. }
  - destruct sample as [f|]; destruct (decide (length l = length ts)) as [Hl|Hl].
    + destruct Hv as [self Hs]. rewrite Hs. split; [|split].
      * split; [intros _; by exists l, f|by exists self].
      * split; [done|]. intros (? & ? & [= <-] & [= <-] & ?). done.
      * done.
    + rewrite Hv. simpl. split; [|split].
      * split; [by intros [? [=]]|]. intros (? & ? & [= <-] & ? & _). done.
      * split; [by exists l, ts|done].
      * intros e [= <-]. auto.
    + rewrite Hv. simpl. split; [|split].
      * split; [by intros [? [=]]|by intros (? & ? & _ & _ & [=])].
      * split; [done|]. intros (? & ? & [= <-] & [= <-] & ?). done.
      * intros e [= <-]. auto.
    + rewrite Hv. simpl. split; [|split].
      * split; [by intros [? [=]]|by intros (? & ? & _ & _ & [=])].
      * split; [by exists l, ts|done].
      * intros e [= <-]. auto.
  - destruct sample as [f|].
    + destruct Hv as [self Hs]. rewrite Hs. split; [|split].
      * split; [intros _; by exists l, f|by exists self].
      * split; [done|by intros (? & ? & _ & [=] & _)].
      * done.
    + rewrite Hv. simpl. split; [|split].
      * split; [by intros [? [=]]|by intros (? & ? & _ & _ & [=])].
      * split; [done|by intros (? & ? & _ & [=] & _)].
      * intros e [= <-]. auto.
Qed.

End EntityMore.

(** ** More on the on-demand planner *)

Section OnDemandMore.
Context {rng C Id Tgt Feats : Type}.

Local Abbreviation planner := (@OnDemandLinkSequence.t C Id Tgt Feats).

(** A batch number below the reported length is looked up in the stored
    batches, from the front or (when negative) from the back. *)
Lemma ondemand_getitem_served (self : planner) (w : World rng C) (i : Z) (k : nat)
    (h : list Id) (t : Tgt) :
  i < OnDemandLinkSequence.len self →
  OnDemandLinkSequence._batches self !! k = Some (h, t) →
  i = Z.of_nat k ∨
    i = Z.of_nat k - Z.of_nat (length (OnDemandLinkSequence._batches self)) →
  OnDemandLinkSequence.getitem i (self, w) =
  let '(r, c') := OnDemandLinkSequence._sample_features self h i (collab w) in
  (match r with
   | Return batch_feats => Return (batch_feats, t)
   | Raise e => Raise e
   end, (self, set_collab c' w)).
Proof.
  intros Hi Hk Hik. pose proof (lookup_lt_Some _ _ _ Hk) as Hlt.
  unfold OnDemandLinkSequence.getitem. unfold_py. simpl.
  rewrite decide_False by lia.
  assert (Py.index (OnDemandLinkSequence._batches self) i = Return (h, t)) as ->.
  { unfold Py.index, OnDemandLinkSequence.batch in *. cbv zeta.
    destruct Hik as [->| ->].
    - by apply index_lookup.
    - repeat case_decide; try lia.
      match goal with
      | |- context [_ !! Z.to_nat ?z] => replace (Z.to_nat z) with k by lia
      end.
      by rewrite Hk. }
  simpl.
  by destruct (OnDemandLinkSequence._sample_features self h i (collab w))
    as [[x|e] c'].
Qed.

(** A batch number at or past the stored batches raises [IndexError] and
    changes nothing, whether the explicit check or the list index rejects
    it. *)
Lemma ondemand_getitem_missing (self : planner) (w : World rng C) (i : Z) :
  Z.of_nat (length (OnDemandLinkSequence._batches self)) ≤ i →
  OnDemandLinkSequence.getitem i (self, w) = (Raise IndexError, (self, w)).
Proof.
  intros Hi. unfold OnDemandLinkSequence.getitem. unfold_py. simpl.
  case_decide; [done|].
  unfold Py.index, OnDemandLinkSequence.batch in *. cbv zeta.
  repeat case_decide; try lia; try done.
  rewrite lookup_ge_None_2 by lia. done.
Qed.

(** Without shuffling no call changes the instance. *)
Lemma ondemand_step_unshuffled (c : ondemand_call) (self : planner) (w : World rng C) :
  OnDemandLinkSequence.shuffle self = false →
  (ondemand_step c (self, w)).1 = self.
Proof.
  intros Hs. destruct c as [|i]; simpl.
  - unfold OnDemandLinkSequence.on_epoch_end. unfold_py. simpl. by rewrite Hs.
  - unfold OnDemandLinkSequence.getitem. unfold_py. simpl.
    case_decide; [done|].
    destruct (Py.index _ i) as [[h tg]|e]; [|done].
    destruct (OnDemandLinkSequence._sample_features self h i (collab w))
      as [[x|e] c']; done.
Qed.

Lemma ondemand_run_unshuffled calls (self : planner) (w : World rng C) :
  OnDemandLinkSequence.shuffle self = false →
  (ondemand_run calls (self, w)).1 = self.
Proof.
  intros Hs. revert w. induction calls as [|[e c] calls IH]; intros w; [done|].
  simpl. pose proof (ondemand_step_unshuffled c self (e w) Hs) as Hstep.
  destruct (ondemand_step c (self, e w)) as [s' w']. simpl in Hstep. subst s'.
  apply IH.
Qed.

End OnDemandMore.

(** ** More on the graph batcher *)

Lemma cell_foldl_add_at_same (es : list (nat * nat * Z)) (B B' : list (list Z))
    (i j : nat) :
  cell B i j = cell B' i j →
  cell (foldl (λ B e, Sparse.add_at B e.1.1 e.1.2 e.2) B es) i j =
  cell (foldl (λ B e, Sparse.add_at B e.1.1 e.1.2 e.2) B' es) i j.
Proof.
  revert B B'. induction es as [|e es IH]; intros B B' HB; [done|].
  simpl. apply IH. rewrite !cell_add_at. case_decide; [by rewrite HB|done].
Qed.

(** Inside both shapes, the dense form of a sparse matrix depends on its
    stored entries only. *)
Lemma cell_toarray_entries (A A' : Sparse.spmatrix) (i j : nat) :
  Sparse.entries A = Sparse.entries A' →
  (i < (Sparse.shape A).1)%nat → (j < (Sparse.shape A).2)%nat →
  (i < (Sparse.shape A').1)%nat → (j < (Sparse.shape A').2)%nat →
  cell (Sparse.toarray A) i j = cell (Sparse.toarray A') i j.
Proof.
  intros He ????. unfold Sparse.toarray. rewrite He.
  apply cell_foldl_add_at_same. by rewrite !cell_zeros.
Qed.

Section GraphMore.
Context {rng : Type} `{RandomGen rng} `{!RandomGenLaws rng} {C Tgt : Type}.
Context (core_normalize_adj : Sparse.spmatrix → Sparse.spmatrix).

Local Abbreviation gseq := (@GraphSequence.t Tgt).

(** [on_epoch_end] reorders the targets along with the graphs. *)
Lemma graph_on_epoch_end_labelled gs0 ls0 ts0 (self : gseq) (w : World rng C) :
  graph_inv gs0 ls0 (self, w) →
  graph_labelled gs0 ts0 self →
  graph_labelled gs0 ts0 (GraphSequence.on_epoch_end (self, w)).2.1.
Proof.
  intros (Hlen0 & Hnd & Hheap & Hts & adjs & Hadjs & Hlen & Hzip) Hlab.
  simpl in *.
  unfold GraphSequence.on_epoch_end. unfold_py.
  unfold GraphSequence.self_, GraphSequence.update, GraphSequence.getattr,
    GraphSequence.random_shuffle. simpl.
  pose proof (rs_shuffle_perm (random_module w)
                (Py.range (length (GraphSequence.graphs self)))) as Hp.
  destruct (rs_shuffle (random_module w) _) as [idxs g']. simpl in Hp.
  unfold Py.range in Hp.
  pose proof (consistent_indices_bound _ _ Hp) as Hb.
  destruct (take_rows_Return (GraphSequence.graphs self) idxs Hb) as (gs' & -> & HFg).
  rewrite Hadjs. simpl.
  destruct (take_rows_Return adjs idxs) as (adjs' & -> & HFa); [by rewrite Hlen|].
  destruct (GraphSequence.targets self) as [ts|] eqn:Hts'.
  - destruct (take_rows_Return ts idxs) as (ts' & -> & HFt);
      [by rewrite (Hts ts eq_refl)|].
    simpl. unfold graph_labelled in *. destruct ts0 as [ts0|]; [|congruence].
    destruct Hlab as (ts1 & Heq & Hz). rewrite Hts' in Heq. injection Heq as <-.
    exists ts'. split; [done|].
    rewrite <-Hz. eapply Forall2_lookup_perm; [|by apply Forall2_lookup_zip].
    by rewrite length_zip, (Hts ts eq_refl), Nat.min_id.
  - simpl. unfold graph_labelled in *. destruct ts0 as [ts0|]; [|done].
    destruct Hlab as (ts1 & Heq & _). congruence.
Qed.

Lemma graph_getitem_self gs0 ls0 (F : nat) (self : gseq) (w : World rng C)
    (index : Z) :
  Forall (graph_wf F) gs0 →
  graph_inv gs0 ls0 (self, w) →
  (GraphSequence.getitem index (self, w)).2.1 = self.
Proof.
  intros Hwf Hinv.
  destruct (decide (batch_graphs self index = [])) as [Hnil|Hne].
  - destruct Hinv as (_ & _ & _ & _ & adjs & Hadjs & _).
    by rewrite (graph_getitem_empty self w index adjs Hadjs Hnil).
  - by destruct (graph_getitem_spec gs0 ls0 self w index F Hinv Hwf Hne)
      as (m & _ & -> & _).
Qed.

Lemma graph_step_kept gs0 ls0 ts0 (F : nat) (c : graph_call) (self : gseq)
    (w : World rng C) :
  Forall (graph_wf F) gs0 →
  graph_inv gs0 ls0 (self, w) →
  graph_cached core_normalize_adj gs0 ls0 (heap w) →
  graph_labelled gs0 ts0 self →
  graph_cached core_normalize_adj gs0 ls0 (heap (graph_step c (self, w)).2) ∧
  graph_labelled gs0 ts0 (graph_step c (self, w)).1.
Proof.
  intros Hwf Hinv Hc Hlab. destruct c as [|index]; simpl.
  - split; [|by eapply graph_on_epoch_end_labelled].
    destruct (graph_on_epoch_end_spec gs0 ls0 self w Hinv)
      as (s' & w' & -> & Hh & _). simpl. by rewrite Hh.
  - split.
    + intros g l Hgl. rewrite <-(Hc g l Hgl).
      by apply (graph_getitem_entries gs0 ls0 F).
    + by rewrite (graph_getitem_self gs0 ls0 F).
Qed.

Lemma graph_run_kept gs0 ls0 ts0 (F : nat) (calls : list (rng * graph_call))
    (self : gseq) (w : World rng C) :
  Forall (graph_wf F) gs0 →
  graph_inv gs0 ls0 (self, w) →
  graph_cached core_normalize_adj gs0 ls0 (heap w) →
  graph_labelled gs0 ts0 self →
  graph_inv gs0 ls0 (graph_run calls (self, w)) ∧
  GraphSequence.batch_size (graph_run calls (self, w)).1 =
    GraphSequence.batch_size self ∧
  graph_cached core_normalize_adj gs0 ls0 (heap (graph_run calls (self, w)).2) ∧
  graph_labelled gs0 ts0 (graph_run calls (self, w)).1.
Proof.
  intros Hwf. revert self w.
  induction calls as [|[g c] calls IH]; intros self w Hinv Hc Hlab; [done|].
  simpl.
  assert (graph_inv gs0 ls0 (self, set_random_module g w)) as Hinv0.
  { destruct Hinv as (? & ? & ? & ? & ?). by repeat split. }
  destruct (graph_step_inv gs0 ls0 F c self _ Hwf Hinv0) as [Hinv1 HB1].
  destruct (graph_step_kept gs0 ls0 ts0 F c self (set_random_module g w)
              Hwf Hinv0 Hc Hlab) as [Hc1 Hlab1].
  destruct (graph_step c (self, set_random_module g w)) as [s1 w1].
  destruct (IH s1 w1 Hinv1 Hc1 Hlab1) as (Hinv2 & HB2 & Hc2 & Hlab2).
  split; [done|]. split; [by rewrite HB2, <-HB1|]. done.
Qed.

(** Construction with normalisation: one new matrix object per graph, which
    holds the normalised adjacency matrix of that graph; the objects that
    existed before are left alone. *)
Lemma graph_init_kept (gs : list Graph) (targets : option (list Tgt)) (B : Z)
    (name : option string) (w : World rng C) (F : nat) :
  normalize_ok core_normalize_adj →
  Forall (graph_wf F) gs →
  (∀ ts, targets = Some ts → length ts = length gs) →
  ∃ (self : gseq) (w' : World rng C) (ls0 : list nat),
    GraphSequence.init core_normalize_adj gs targets true B name w =
      (Return self, w') ∧
    GraphSequence.batch_size self = B ∧
    graph_inv gs ls0 (self, w') ∧
    graph_labelled gs targets self ∧
    (∀ l, l ∈ ls0 → heap w !! l = None) ∧
    (∀ k g l, gs !! k = Some g → ls0 !! k = Some l →
       heap w' !! l = Some (core_normalize_adj (to_adjacency_matrix g))) ∧
    (∀ l, is_Some (heap w !! l) → heap w' !! l = heap w !! l) ∧
    collab w' = collab w ∧ numpy_random w' = numpy_random w.
Proof.
  intros Hn Hwf Hts. unfold GraphSequence.init, GraphSequence.construct.
  set (self0 := GraphSequence.mk name gs true targets B None None).
  destruct (alloc_loop (λ g, core_normalize_adj (to_adjacency_matrix g)) gs self0 w)
    as (ls & h' & Hrun & Hlen & Hnd & Hnew & Hval & Hold).
  set (self1 := GraphSequence.set_normalized_adjs ls
                  (GraphSequence.set_normalized_adjs ls self0)).
  assert (graph_inv gs ls (self1, set_heap h' w)) as Hinv.
  { split; [done|]. split; [done|]. split; [|split].
    - intros g l Hgl. simpl.
      apply list_elem_of_lookup in Hgl as [k Hk].
      apply lookup_zip_with_Some in Hk as (g' & l' & [= <- <-] & Hg & Hl).
      rewrite (lookup_total_correct _ _ _ (Hval _ _ _ Hg Hl)).
      eapply within_normalized; [done|]. by eapply (Forall_lookup_1 _ _ _ _ Hwf).
    - simpl. done.
    - exists ls. simpl. done. }
  assert (graph_labelled gs targets self1) as Hlab.
  { unfold graph_labelled. destruct targets as [ts|]; [|done]. by exists ts. }
  pose proof (graph_on_epoch_end_labelled gs ls targets self1 (set_heap h' w)
                Hinv Hlab) as Hlab'.
  destruct (graph_on_epoch_end_spec gs ls self1 (set_heap h' w) Hinv)
    as (self' & w' & Hep & Hh & Hcl & HB & Hinv').
  rewrite Hep in Hlab'. simpl in Hlab'.
  assert (numpy_random w' = numpy_random w) as Hnp.
  { revert Hep. unfold GraphSequence.on_epoch_end. unfold_py.
    unfold GraphSequence.self_, GraphSequence.update, GraphSequence.getattr,
      GraphSequence.random_shuffle. simpl.
    destruct (rs_shuffle (random_module w) _) as [idxs g'].
    destruct (Py.take_rows gs idxs); simpl; [|done].
    destruct (Py.take_rows ls idxs); simpl; [|done].
    destruct targets as [ts|]; simpl; [destruct (Py.take_rows ts idxs)|]; simpl;
      intros [= _ <-]; done. }
  exists self', w', ls.
  split; [|split; [by rewrite HB|]].
  2:{ split; [done|]. split; [done|]. split; [done|].
      rewrite Hh. simpl. split; [done|]. split; [done|]. by rewrite Hcl. }
  unfold_py. unfold GraphSequence.self_ at 1 2, GraphSequence.update,
    GraphSequence.getattr.
  assert (match targets with
          | Some ts => length gs = length ts
          | None => True
          end) as Hok.
  { destruct targets as [ts|]; [|done]. rewrite (Hts ts); auto. }
  destruct targets as [ts|]; [rewrite decide_False by lia|].
  all: simpl; rewrite Hrun; simpl; fold self1; by rewrite Hep.
Qed.

(** The state of a graph batcher at any point of its life. *)
Lemma graph_life (gs : list Graph) (targets : option (list Tgt)) (B : Z)
    (name : option string) (w : World rng C) (F : nat)
    (calls : list (rng * graph_call)) :
  normalize_ok core_normalize_adj →
  Forall (graph_wf F) gs →
  (∀ ts, targets = Some ts → length ts = length gs) →
  ∃ (self : gseq) (w' : World rng C) (ls0 : list nat),
    GraphSequence.init core_normalize_adj gs targets true B name w =
      (Return self, w') ∧
    graph_inv gs ls0 (graph_run calls (self, w')) ∧
    GraphSequence.batch_size (graph_run calls (self, w')).1 = B ∧
    graph_cached core_normalize_adj gs ls0 (heap (graph_run calls (self, w')).2) ∧
    graph_labelled gs targets (graph_run calls (self, w')).1 ∧
    GraphSequence.graphs (graph_run calls (self, w')).1 ≡ₚ gs.
Proof.
  intros Hn Hwf Hts.
  destruct (graph_init_kept gs targets B name w F Hn Hwf Hts)
    as (self & w' & ls0 & Hinit & HB & Hinv & Hlab & _ & Hval & _).
  exists self, w', ls0. split; [done|].
  assert (graph_cached core_normalize_adj gs ls0 (heap w')) as Hc.
  { intros g l Hgl. apply list_elem_of_lookup in Hgl as [k Hk].
    apply lookup_zip_with_Some in Hk as (g' & l' & [= <- <-] & Hg & Hl).
    by rewrite (lookup_total_correct _ _ _ (Hval _ _ _ Hg Hl)). }
  destruct (graph_run_kept gs ls0 targets F calls self w' Hwf Hinv Hc Hlab)
    as (Hinv1 & HB1 & Hc1 & Hlab1).
  split; [done|]. split; [by rewrite HB1|]. split; [done|]. split; [done|].
  destruct Hinv1 as (Hlen0 & _ & _ & _ & adjs & _ & Hlen & Hzip).
  rewrite <-(fst_zip (GraphSequence.graphs _) adjs) by lia.
  rewrite Hzip. by rewrite fst_zip by lia.
Qed.

End GraphMore.

(** The graphs of batch [index], for a positive batch size. *)
Lemma graph_batch_chunk {Tgt} (self : @GraphSequence.t Tgt) (index : Z) :
  0 < GraphSequence.batch_size self → 0 ≤ index →
  batch_graphs self index =
  take (Z.to_nat (GraphSequence.batch_size self))
    (drop (Z.to_nat index * Z.to_nat (GraphSequence.batch_size self))
       (GraphSequence.graphs self)).
Proof.
  intros HB Hi. unfold batch_graphs.
  replace (index * GraphSequence.batch_size self)
    with (GraphSequence.batch_size self * index) by lia.
  replace ((index + 1) * GraphSequence.batch_size self)
    with (GraphSequence.batch_size self * index + GraphSequence.batch_size self)
    by lia.
  by apply slice_chunk.
Qed.

Lemma graph_batch_length {Tgt} (self : @GraphSequence.t Tgt) (index : Z) :
  0 < GraphSequence.batch_size self → 0 ≤ index →
  index * GraphSequence.batch_size self <
    Z.of_nat (length (GraphSequence.graphs self)) →
  Z.of_nat (length (batch_graphs self index)) =
  Z.min (GraphSequence.batch_size self)
    (Z.of_nat (length (GraphSequence.graphs self))
     - index * GraphSequence.batch_size self).
Proof.
  intros HB Hi Hlt. rewrite graph_batch_chunk by done.
  rewrite length_take, length_drop. nia.
Qed.

(** The batches [0 .. len - 1], end to end, are the graphs in their current
    order. *)
Lemma graph_batches_concat {Tgt} (self : @GraphSequence.t Tgt) :
  0 < GraphSequence.batch_size self →
  ∃ L : Z,
    GraphSequence.len self = Return L ∧ 0 ≤ L ∧
    Z.of_nat (length (GraphSequence.graphs self)) ≤ L * GraphSequence.batch_size self ∧
    (L - 1) * GraphSequence.batch_size self <
      Z.of_nat (length (GraphSequence.graphs self)) ∧
    concat ((λ i : nat, batch_graphs self (Z.of_nat i)) <$> seq 0 (Z.to_nat L)) =
      GraphSequence.graphs self.
Proof.
  intros HB.
  destruct (ceil_div_spec (Z.of_nat (length (GraphSequence.graphs self)))
              (GraphSequence.batch_size self) HB ltac:(lia))
    as (L & HL & HL0 & Hup & Hlo).
  exists L. split; [done|]. split; [done|]. split; [done|]. split; [done|].
  rewrite (list_fmap_ext _
             (λ i : nat, take (Z.to_nat (GraphSequence.batch_size self))
                (drop (i * Z.to_nat (GraphSequence.batch_size self))
                   (GraphSequence.graphs self)))).
  - rewrite chunks_concat. apply take_ge. nia.
  - intros k i _. rewrite graph_batch_chunk by lia. by rewrite Nat2Z.id.
Qed.

(** * The claims *)

(** ** C1 *)

(** C1 (a defect of the code in the graph batcher).  The per-entity
    batchers raise [IndexError] for every batch number [i] with
    [i * batch_size >= N], in particular for [i = len]; the on-demand
    planner raises [IndexError] for every [i >= len].  The graph batcher has
    no such check: for a batch number at or past the end ([i = len]
    included) it raises [ValueError], from [max] over the empty slice of
    graphs, and not an out-of-range error. *)
Theorem C1_batch_past_the_end
    {rng : Type} `{RandomGen rng} {C Id Tgt Feats : Type}
    (node : @NodeSequence.t rng C Id Tgt Feats)
    (link : @LinkSequence.t rng C Id Tgt Feats)
    (planner : @OnDemandLinkSequence.t C Id Tgt Feats)
    (graph : @GraphSequence.t Tgt) (w : World rng C) (i : Z) :
  (NodeSequence.batch_size node * i >= Z.of_nat (NodeSequence.data_size node) →
   NodeSequence.getitem i (node, w) = (Raise IndexError, (node, w))) ∧
  (node_consistent node → 0 < NodeSequence.batch_size node →
   ∃ L, NodeSequence.len node = Return L ∧
        NodeSequence.getitem L (node, w) = (Raise IndexError, (node, w))) ∧
  (LinkSequence.batch_size link * i >= Z.of_nat (LinkSequence.data_size link) →
   LinkSequence.getitem i (link, w) = (Raise IndexError, (link, w))) ∧
  (link_consistent link → 0 < LinkSequence.batch_size link →
   ∃ L, LinkSequence.len link = Return L ∧
        LinkSequence.getitem L (link, w) = (Raise IndexError, (link, w))) ∧
  (i >= OnDemandLinkSequence.len planner →
   OnDemandLinkSequence.getitem i (planner, w) = (Raise IndexError, (planner, w))) ∧
  (is_Some (GraphSequence.normalized_adjs graph) →
   (Z.of_nat (length (GraphSequence.graphs graph)) ≤ i * GraphSequence.batch_size graph →
    GraphSequence.getitem i (graph, w) = (Raise ValueError, (graph, w))) ∧
   (0 < GraphSequence.batch_size graph →
    ∃ L, GraphSequence.len graph = Return L ∧
         GraphSequence.getitem L (graph, w) = (Raise ValueError, (graph, w)))).
Proof.
  split; [apply node_getitem_out_of_range|]. split.
  { intros (Hn & _) HB.
    destruct (ceil_div_spec (Z.of_nat (NodeSequence.data_size node))
                (NodeSequence.batch_size node) HB ltac:(lia)) as (L & HL & _ & Hup & _).
    exists L. split; [done|]. apply node_getitem_out_of_range. lia. }
  split; [apply link_getitem_out_of_range|]. split.
  { intros (Hn & _) HB.
    destruct (ceil_div_spec (Z.of_nat (LinkSequence.data_size link))
                (LinkSequence.batch_size link) HB ltac:(lia)) as (L & HL & _ & Hup & _).
    exists L. split; [done|]. apply link_getitem_out_of_range. lia. }
  split; [apply ondemand_getitem_out_of_range|].
  intros Hadjs. split; [by apply graph_getitem_past_end|].
  intros HB.
  destruct (ceil_div_spec (Z.of_nat (length (GraphSequence.graphs graph)))
              (GraphSequence.batch_size graph) HB ltac:(lia)) as (L & HL & _ & Hup & _).
  exists L. split; [done|]. by apply graph_getitem_past_end.
Qed.

(** A graph batcher over the example graphs with batch size 3, which has one
    batch: fetching batch 1 raises [ValueError]; a node batcher over three
    ids with batch size 2 has two batches, and fetching batch 2 raises
    [IndexError]. *)
Lemma C1_witness :
  ∃ (self : @GraphSequence.t nat) (w' : World Z unit) (node : @NodeSequence.t Z unit nat nat (list nat)),
    GraphSequence.init keep_adjacency [graph3; graph5; graph2] None true 3 None
      (mk_world 11 0 ∅ tt) = (Return self, w') ∧
    GraphSequence.len self = Return 1 ∧
    GraphSequence.getitem 1 (self, w') = (Raise ValueError, (self, w')) ∧
    node_lifecycle toy_random_state (Callable (λ h _, mret h)) 2
      (Iterable [10; 11; 12]%nat) None true (Some 42) w' [] = Return node ∧
    NodeSequence.len node = Return 2 ∧
    NodeSequence.getitem 2 (node, w') = (Raise IndexError, (node, w')).
Proof.
  eexists _, _, _. split; [vm_compute; reflexivity|].
  split; [reflexivity|].
  match goal with
  | |- GraphSequence.getitem 1 (?g, ?w0) = _ ∧ _ = Return ?n ∧ _ =>
      pose proof (C1_batch_past_the_end (rng := Z) (C := unit) (Id := nat)
                    (Tgt := nat) (Feats := list nat) n
                    (LinkSequence.mk None (λ h _, mret h) 2 [] 0 false GlobalRS [])
                    (OnDemandLinkSequence.mk (λ h _, mret h) 2 (λ _, mret []) false [] 0 0)
                    g w0) as Hall
  end.
  split.
  { destruct (Hall 1) as (_ & _ & _ & _ & _ & Hgraph).
    apply Hgraph; [by eexists|]. vm_compute. by intros [=]. }
  split; [vm_compute; reflexivity|]. split; [reflexivity|].
  destruct (Hall 2) as (Hnode & _). apply Hnode. vm_compute. by intros [=].
Defined.

(** ** C2 *)

(** C2.  A per-entity batcher ([NodeSequence] or [LinkSequence]) constructed
    over [N] identifiers with a positive batch size [B] reports
    [ceil(N / B)] batches (the least [L >= 0] with [N <= L * B]); at the start
    of every epoch, batch [i < L] covers the slice [[i*B, (i+1)*B)] of the
    current permutation and hands the identifiers at those positions to the
    sampling function; and the identifiers of batches [0 .. L-1], end to end,
    are a rearrangement of the identifier list, each position used once. *)
Theorem C2_per_entity_batches_partition
    {rng : Type} `{RandomGen rng} `{!RandomGenLaws rng} {C Id Tgt Feats : Type}
    (random_state : option Z → rs_handle rng)
    (f : list Id → Z → Py.M C Feats) (B : Z) (ids : list Id)
    (targets : option (pyarg Tgt)) (shuffle : bool) (seed : option Z)
    (w : World rng C) (env : list interference) :
  0 < B → valid_targets ids targets →
  (∃ (self : @NodeSequence.t rng C Id Tgt Feats) (L : Z) (hs : list (list Id)),
     node_lifecycle random_state (Callable f) B (Iterable ids) targets shuffle
       seed w env = Return self ∧
     NodeSequence.len self = Return L ∧
     0 ≤ L ∧ Z.of_nat (length ids) ≤ L * B ∧ (L - 1) * B < Z.of_nat (length ids) ∧
     length hs = Z.to_nat L ∧
     (∀ (i : nat) h, hs !! i = Some h →
        NodeSequence.batch_indices self (Z.of_nat i) =
          take (Z.to_nat B) (drop (i * Z.to_nat B) (NodeSequence.indices self)) ∧
        NodeSequence.head_ids self (Z.of_nat i) = Return h ∧
        ∃ batch_targets, ∀ w' : World rng C,
          NodeSequence.getitem (Z.of_nat i) (self, w') =
          let '(r, c') := f h (Z.of_nat i) (collab w') in
          (match r with
           | Return batch_feats => Return (batch_feats, batch_targets)
           | Raise e => Raise e
           end, (self, set_collab c' w'))) ∧
     concat hs ≡ₚ ids) ∧
  (∃ (self : @LinkSequence.t rng C Id Tgt Feats) (L : Z) (hs : list (list Id)),
     link_lifecycle random_state (Callable f) B (Iterable ids) targets shuffle
       seed w env = Return self ∧
     LinkSequence.len self = Return L ∧
     0 ≤ L ∧ Z.of_nat (length ids) ≤ L * B ∧ (L - 1) * B < Z.of_nat (length ids) ∧
     length hs = Z.to_nat L ∧
     (∀ (i : nat) h, hs !! i = Some h →
        LinkSequence.batch_indices self (Z.of_nat i) =
          take (Z.to_nat B) (drop (i * Z.to_nat B) (LinkSequence.indices self)) ∧
        LinkSequence.head_ids self (Z.of_nat i) = Return h ∧
        ∃ batch_targets, ∀ w' : World rng C,
          LinkSequence.getitem (Z.of_nat i) (self, w') =
          let '(r, c') := f h (Z.of_nat i) (collab w') in
          (match r with
           | Return batch_feats => Return (batch_feats, batch_targets)
           | Raise e => Raise e
           end, (self, set_collab c' w'))) ∧
     concat hs ≡ₚ ids).
Proof.
  intros HB Hv. split.
  - destruct (node_lifecycle_spec random_state f B ids targets shuffle seed w env Hv)
      as (self & Hrun & (Hf & Hb & Hids & _) & Hk).
    destruct (node_batches self Hk ltac:(lia))
      as (L & hs & HL & HL0 & Hup & Hlo & Hlen & Hbatch & Hperm).
    rewrite Hb, Hids in *.
    exists self, L, hs. repeat (split; [done|]). split; [|done].
    intros i h Hh. destruct (Hbatch i h Hh) as (Hbi & Hhi & _).
    split; [done|]. split; [done|].
    apply lookup_lt_Some in Hh.
    destruct Hk as (Hn & ?).
    destruct (node_getitem_spec self (Z.of_nat i) h) as (tg & _ & _ & Hget);
      [done|lia|lia|rewrite Hb, Hn, Hids; nia|done|].
    exists tg. intros w'. by rewrite Hget, Hf.
  - destruct (link_lifecycle_spec random_state f B ids targets shuffle seed w env Hv)
      as (self & Hrun & (Hf & Hb & Hids & _) & Hk).
    destruct (link_batches self Hk ltac:(lia))
      as (L & hs & HL & HL0 & Hup & Hlo & Hlen & Hbatch & Hperm).
    rewrite Hb, Hids in *.
    exists self, L, hs. repeat (split; [done|]). split; [|done].
    intros i h Hh. destruct (Hbatch i h Hh) as (Hbi & Hhi & _).
    split; [done|]. split; [done|].
    apply lookup_lt_Some in Hh.
    destruct Hk as (Hn & ?).
    destruct (link_getitem_spec self (Z.of_nat i) h) as (tg & _ & _ & Hget);
      [done|lia|lia|rewrite Hb, Hn, Hids; nia|done|].
    exists tg. intros w'. by rewrite Hget, Hf.
Qed.

(** Five node ids in batches of two, shuffled with seed 42, after two epoch
    ends: three batches that together rearrange the ids. *)
Lemma C2_witness :
  0 < 2 ∧
  valid_targets [10; 11; 12; 13; 14]%nat (@None (pyarg nat)) ∧
  ∃ (self : @NodeSequence.t Z unit nat nat (list nat)) (hs : list (list nat)),
    node_lifecycle toy_random_state (Callable (λ h _, mret h)) 2
      (Iterable [10; 11; 12; 13; 14]%nat) None true (Some 42)
      (mk_world 7 0 ∅ tt) [id; id] = Return self ∧
    NodeSequence.len self = Return 3 ∧
    length hs = 3%nat ∧
    concat hs ≡ₚ [10; 11; 12; 13; 14]%nat.
Proof.
  split; [lia|]. split; [exact I|].
  destruct (C2_per_entity_batches_partition (Tgt := nat) toy_random_state
              (λ (h : list nat) (_ : Z), (mret h : Py.M unit (list nat))) 2
              [10; 11; 12; 13; 14]%nat None true (Some 42)
              (mk_world 7 0 ∅ tt) [id; id] ltac:(lia) I)
    as [(self & L & hs & Hrun & HL & HL0 & Hup & Hlo & Hlen & _ & Hperm) _].
  assert (L = 3) as -> by (simpl in Hup, Hlo; lia).
  exists self, hs. done.
Defined.

(** ** C3 *)

(** C3 (a defect of the code).  Constructing the graph batcher with
    normalisation disabled never returns an instance: once the targets have
    passed their length check, the raw matrices are stored under the
    attribute [normalize_adjs], and the read of [normalized_adjs] that
    follows raises [AttributeError]. *)
Theorem C3_unnormalized_construction_raises
    {rng : Type} `{RandomGen rng} {C Tgt : Type}
    (normalize : Sparse.spmatrix → Sparse.spmatrix) (graphs : list Graph)
    (targets : option (list Tgt)) (batch_size : Z) (name : option string)
    (w : World rng C) :
  (GraphSequence.init normalize graphs targets false batch_size name w).1 =
  match targets with
  | Some ts =>
      if decide (length graphs ≠ length ts) then Raise ValueError
      else Raise AttributeError
  | None => Raise AttributeError
  end.
Proof.
  unfold GraphSequence.init, GraphSequence.construct.
  set (self0 := GraphSequence.mk name graphs false targets batch_size None None).
  destruct (alloc_loop (rng := rng) (C := C) (λ g, to_adjacency_matrix g) graphs self0 w)
    as (ls & h' & Hrun & _).
  unfold_py. unfold GraphSequence.self_ at 1 2, GraphSequence.update,
    GraphSequence.getattr.
  destruct targets as [ts|]; [destruct (decide (length graphs ≠ length ts))|].
  - done.
  - simpl. rewrite Hrun. done.
  - simpl. rewrite Hrun. done.
Qed.

(** With the three example graphs and [normalize=False]. *)
Example C3_failing_input :
  (GraphSequence.init (rng := Z) (C := unit) (Tgt := nat) keep_adjacency
     [graph3; graph5; graph2] None false 3 None (mk_world 11 0 ∅ tt)).1
  = Raise AttributeError.
Proof. vm_compute. reflexivity. Qed.

(** ** C4 *)

(** C4, as amended.  A batch fetch leaves the instance it is called on as it
    was: for the per-entity batchers and the on-demand planner (whose
    sampling function may change the collaborator's own state), for the
    three full-batch sequences (nothing at all changes), for the corruption
    wrapper (which draws from the NumPy generator), and for the attributes
    of the graph batcher: graphs, targets, references to the cached
    matrices, batch size.  The cached adjacency matrices of the graph
    batcher are not read-only, however: a fetch either leaves the heap as it
    is or resizes, in place, the cached matrices of the batch to
    [max_nodes × max_nodes]; in the life of a graph batcher this changes
    their shape and none of their stored entries. *)
Theorem C4_batch_fetch_frame
    {rng : Type} `{RandomGen rng} `{ArrayOps}
    {C Id Tgt Feats : Type} (i : Z) :
  preserves same_instance
    (NodeSequence.getitem (rng := rng) (C := C) (Id := Id) (Tgt := Tgt)
       (Feats := Feats) i) ∧
  preserves same_instance
    (LinkSequence.getitem (rng := rng) (C := C) (Id := Id) (Tgt := Tgt)
       (Feats := Feats) i) ∧
  preserves same_instance
    (OnDemandLinkSequence.getitem (rng := rng) (C := C) (Id := Id) (Tgt := Tgt)
       (Feats := Feats) i) ∧
  (∀ st : FullBatchSequence.t * World rng C,
     (FullBatchSequence.getitem i st).2 = st) ∧
  (∀ st : SparseFullBatchSequence.t * World rng C,
     (SparseFullBatchSequence.getitem i st).2 = st) ∧
  (∀ st : RelationalFullBatchNodeSequence.t * World rng C,
     (RelationalFullBatchNodeSequence.getitem i st).2 = st) ∧
  preserves same_instance_but_numpy
    (CorruptedNodeSequence.getitem (rng := rng) (C := C) (Id := Id) (Tgt := Tgt) i) ∧
  preserves same_attributes
    (GraphSequence.getitem (rng := rng) (C := C) (Tgt := Tgt) i) ∧
  (∀ (self : @GraphSequence.t Tgt) (w : World rng C),
     heap (GraphSequence.getitem i (self, w)).2.2 = heap w ∨
     ∃ m, heap (GraphSequence.getitem i (self, w)).2.2 =
            resized (m, m) (batch_refs self i) (heap w)) ∧
  (∀ gs0 ls0 F (self : @GraphSequence.t Tgt) (w : World rng C) (l : nat),
     Forall (graph_wf F) gs0 →
     graph_inv gs0 ls0 (self, w) →
     Sparse.entries (heap (GraphSequence.getitem i (self, w)).2.2 !!! l) =
     Sparse.entries (heap w !!! l)).
Proof.
  split; [apply node_getitem_frame|].
  split; [apply link_getitem_frame|].
  split; [apply ondemand_getitem_frame|].
  split; [by intros [??]|]. split; [by intros [??]|]. split; [by intros [??]|].
  split; [apply corrupted_getitem_frame|].
  split; [apply graph_getitem_frame|].
  split; [intros self w; apply graph_getitem_heap|].
  intros gs0 ls0 F self w l Hwf Hinv. by eapply graph_getitem_entries.
Qed.

(** C4 as stated fails for the cached adjacency matrices: in the graph
    batcher over the example graphs with batch size 3, the matrix cached for
    the first graph of the epoch (the 2-node graph) has shape 2 × 2 before
    batch 0 is fetched and 5 × 5 afterwards. *)
Lemma C4_counterexample :
  ∃ (self : @GraphSequence.t nat) (w' : World Z unit) (l : nat),
    GraphSequence.init keep_adjacency [graph3; graph5; graph2] None true 3 None
      (mk_world 11 0 ∅ tt) = (Return self, w') ∧
    GraphSequence.graphs self !! 0%nat = Some graph2 ∧
    GraphSequence.normalized_adjs self ≫= (.!! 0%nat) = Some l ∧
    Sparse.shape (heap w' !!! l) = (2, 2)%nat ∧
    Sparse.shape (heap (GraphSequence.getitem 0 (self, w')).2.2 !!! l) = (5, 5)%nat ∧
    (GraphSequence.getitem 0 (self, w')).2 ≠ (self, w').
Proof.
  eexists _, _, _. split; [vm_compute; reflexivity|].
  split; [reflexivity|]. split; [reflexivity|].
  split; [vm_compute; reflexivity|]. split; [vm_compute; reflexivity|].
  intros Heq.
  apply (f_equal (λ st : GraphSequence.state, Sparse.shape (heap st.2 !!! 2%nat))) in Heq.
  vm_compute in Heq. by injection Heq.
Qed.

(** ** C5 *)

(** C5, as amended.  Wrapping succeeds for a dense or a sparse full-batch
    sequence and for a node batcher (whose batch size is not negative); for
    an object of any other class, the relational full-batch sequence and
    the link batcher among them, it raises [TypeError]. *)
Theorem C5_wrapped_sources {rng C Id Tgt LinkTgt : Type}
    (base : @CorruptedNodeSequence.sequence rng C Id Tgt LinkTgt) :
  match base with
  | CorruptedNodeSequence.AFullBatchSequence s =>
      ∀ features A targets indices,
        FullBatchSequence.init features A targets indices = Return s →
        ∃ c, CorruptedNodeSequence.init base = Return c ∧
             CorruptedNodeSequence.base_generator c =
               CorruptedNodeSequence.WrapFullBatch s
  | CorruptedNodeSequence.ASparseFullBatchSequence s =>
      ∀ features A targets indices,
        SparseFullBatchSequence.init features A targets indices = Return s →
        ∃ c, CorruptedNodeSequence.init base = Return c ∧
             CorruptedNodeSequence.base_generator c =
               CorruptedNodeSequence.WrapSparseFullBatch s
  | CorruptedNodeSequence.ANodeSequence s =>
      (0 ≤ NodeSequence.batch_size s →
       ∃ c, CorruptedNodeSequence.init base = Return c ∧
            CorruptedNodeSequence.base_generator c =
              CorruptedNodeSequence.WrapNode s) ∧
      (NodeSequence.batch_size s < 0 →
       CorruptedNodeSequence.init base = Raise ValueError)
  | _ => CorruptedNodeSequence.init base = Raise TypeError
  end.
Proof.
  destruct base as [s|s|s|s|s|s|s| |]; try reflexivity.
  - split.
    + intros HB. unfold CorruptedNodeSequence.init.
      destruct (zeros_Return [NodeSequence.batch_size s; 2]) as [z Hz];
        [by repeat (apply Forall_cons; split; [lia|]); apply Forall_nil_2|].
      rewrite Hz. by eexists.
    + intros HB. simpl. by rewrite decide_True.
  - intros features A targets indices Hinit.
    unfold FullBatchSequence.init in Hinit.
    destruct (targets_indices_mismatch targets indices) as [[|]|]; try done.
    destruct A as [A|A|]; simplify_eq; simpl; by eexists.
  - intros features A targets indices Hinit.
    unfold SparseFullBatchSequence.init in Hinit.
    destruct (targets_indices_mismatch targets indices) as [[|]|]; try done.
    destruct A as [A|A|]; simplify_eq; simpl; by eexists.
Qed.

(** The dense packer of the example edge, wrapped. *)
Lemma C5_witness :
  ∃ d c,
    FullBatchSequence.init (Np.mat [[5]; [6]]) (SpMatrix edge_adjacency)
      Np.PyNone (Np.vec [0; 1]) = Return d ∧
    CorruptedNodeSequence.init (rng := Z) (C := unit) (Id := nat) (Tgt := nat)
      (LinkTgt := nat) (CorruptedNodeSequence.AFullBatchSequence d) = Return c ∧
    CorruptedNodeSequence.base_generator c = CorruptedNodeSequence.WrapFullBatch d.
Proof.
  eexists. 
  destruct (C5_wrapped_sources (rng := Z) (C := unit) (Id := nat) (Tgt := nat)
              (LinkTgt := nat) (CorruptedNodeSequence.AFullBatchSequence _)
              (Np.mat [[5]; [6]]) (SpMatrix edge_adjacency) Np.PyNone (Np.vec [0; 1])
              eq_refl) as (c & Hc & Hbase).
  exists c. split; [reflexivity|]. split; [exact Hc|exact Hbase].
Defined.

(** C5 as stated fails: a relational full-batch sequence, built from one
    relation of the example edge, is refused with [TypeError]; so is a link
    batcher. *)
Lemma C5_counterexample :
  ∃ r,
    RelationalFullBatchNodeSequence.init (Np.mat [[5]; [6]]) [edge_adjacency] true
      Np.PyNone Np.PyNone = Return r ∧
    CorruptedNodeSequence.init (rng := Z) (C := unit) (Id := nat) (Tgt := nat)
      (LinkTgt := nat)
      (CorruptedNodeSequence.ARelationalFullBatchNodeSequence r) = Raise TypeError ∧
    ∀ l, CorruptedNodeSequence.init (rng := Z) (C := unit) (Id := nat) (Tgt := nat)
           (LinkTgt := nat) (CorruptedNodeSequence.ALinkSequence l) = Raise TypeError.
Proof. eexists. split; [reflexivity|]. split; reflexivity. Qed.

(** ** C6 *)

(** C6, as amended.  Construction asks the walker once for the batches of
    the configured batch size and stores them.  An end-of-epoch call does
    the same when the shuffle flag is set; when it is not set, the call
    returns without running the walker and leaves the stored batches and the
    whole state as they are. *)
Theorem C6_regenerates_when_shuffling {rng C Id Tgt Feats : Type}
    (f : list Id → Z → Py.M C Feats) (batch_size : Z)
    (run : Z → Py.M C (list (list Id * Tgt))) (shuffle : bool)
    (self : @OnDemandLinkSequence.t C Id Tgt Feats) (w : World rng C) :
  OnDemandLinkSequence.init (Callable f) batch_size
    (OnDemandLinkSequence.Sampler run) shuffle w =
    (let '(r, c') := run batch_size (collab w) in
     (match r with
      | Return batches =>
          Return (OnDemandLinkSequence.mk f batch_size run shuffle batches
                    (length batches) (sum_list (length ∘ fst <$> batches)))
      | Raise e => Raise e
      end, set_collab c' w)) ∧
  OnDemandLinkSequence.on_epoch_end (self, w) =
    if OnDemandLinkSequence.shuffle self then regenerate (self, w)
    else (Return tt, (self, w)).
Proof.
  split.
  - simpl. destruct (run batch_size (collab w)) as [[bs|e] c']; done.
  - unfold OnDemandLinkSequence.on_epoch_end, OnDemandLinkSequence._create_batches,
      regenerate.
    unfold_py. simpl. destruct (OnDemandLinkSequence.shuffle self); [|done].
    destruct (OnDemandLinkSequence.walker self _ (collab w)) as [[bs|e] c']; done.
Qed.

(** C6 as stated fails: a planner built with [shuffle=False] over the
    counting walker does not run the walker at its epoch end (the call
    counter stays at 1 and the single stored batch stays), whereas asking
    for a new set would have stored two batches. *)
Lemma C6_counterexample :
  ∃ (self : @OnDemandLinkSequence.t nat nat nat (list nat)) (w' : World Z nat),
    OnDemandLinkSequence.init (Callable (λ h _, mret h)) 4
      (OnDemandLinkSequence.Sampler counting_walker) false (mk_world 0 0 ∅ 0%nat)
      = (Return self, w') ∧
    OnDemandLinkSequence.on_epoch_end (self, w') ≠ regenerate (self, w') ∧
    collab (OnDemandLinkSequence.on_epoch_end (self, w')).2.2 = collab w' ∧
    OnDemandLinkSequence._batches (OnDemandLinkSequence.on_epoch_end (self, w')).2.1
      = [([0%nat], 0%nat)] ∧
    OnDemandLinkSequence._batches (regenerate (self, w')).2.1
      = [([1%nat], 1%nat); ([1%nat], 1%nat)].
Proof.
  eexists _, _. split; [reflexivity|]. split; [|done].
  intros Heq. apply (f_equal (λ r, collab r.2.2)) in Heq. done.
Qed.

(** ** C7 *)

(** C7.  When the seed gives the instance a generator of its own, two
    per-entity batchers built from the same arguments are the same object
    after construction and after each further epoch end, whatever the process
    state they were built in and whatever the rest of the process did in
    between: their index permutations, the index slice and the identifiers
    of every batch coincide. *)
Theorem C7_seeded_shuffle_reproducible
    {rng : Type} `{RandomGen rng} {C Id Tgt Feats : Type}
    (random_state : option Z → rs_handle rng) (g : rng)
    (sample : pyfun (list Id → Z → Py.M C Feats)) (batch_size : Z)
    (ids : pyarg Id) (targets : option (pyarg Tgt)) (shuffle : bool)
    (seed : option Z) (w1 w2 : World rng C) (env1 env2 : list interference) :
  random_state seed = OwnRS g →
  length env1 = length env2 →
  (node_lifecycle random_state sample batch_size ids targets shuffle seed w1 env1
     : outcome (@NodeSequence.t rng C Id Tgt Feats)) =
  node_lifecycle random_state sample batch_size ids targets shuffle seed w2 env2 ∧
  (link_lifecycle random_state sample batch_size ids targets shuffle seed w1 env1
     : outcome (@LinkSequence.t rng C Id Tgt Feats)) =
  link_lifecycle random_state sample batch_size ids targets shuffle seed w2 env2 ∧
  (∀ a b : @NodeSequence.t rng C Id Tgt Feats,
     node_lifecycle random_state sample batch_size ids targets shuffle seed
       w1 env1 = Return a →
     node_lifecycle random_state sample batch_size ids targets shuffle seed
       w2 env2 = Return b →
     NodeSequence.indices a = NodeSequence.indices b ∧
     ∀ i, NodeSequence.batch_indices a i = NodeSequence.batch_indices b i ∧
          NodeSequence.head_ids a i = NodeSequence.head_ids b i) ∧
  (∀ a b : @LinkSequence.t rng C Id Tgt Feats,
     link_lifecycle random_state sample batch_size ids targets shuffle seed
       w1 env1 = Return a →
     link_lifecycle random_state sample batch_size ids targets shuffle seed
       w2 env2 = Return b →
     LinkSequence.indices a = LinkSequence.indices b ∧
     ∀ i, LinkSequence.batch_indices a i = LinkSequence.batch_indices b i ∧
          LinkSequence.head_ids a i = LinkSequence.head_ids b i).
Proof.
  intros Hg Hlen.
  split; [by eapply node_lifecycle_own|].
  split; [by eapply link_lifecycle_own|].
  split; intros a b Ha Hb.
  - rewrite (node_lifecycle_own random_state sample batch_size ids targets
               shuffle seed g w1 w2 env1 env2 Hg Hlen) in Ha.
    rewrite Ha in Hb. by injection Hb as <-.
  - rewrite (link_lifecycle_own random_state sample batch_size ids targets
               shuffle seed g w1 w2 env1 env2 Hg Hlen) in Ha.
    rewrite Ha in Hb. by injection Hb as <-.
Qed.

(** Two node batchers with seed 42 over the same five ids, built in process
    states with different process-wide generators and disturbed differently
    between their two epoch ends, end up with the same permutation. *)
Lemma C7_witness :
  toy_random_state (Some 42) = OwnRS 42 ∧
  length [set_random_module (C := unit) 5; id] =
    length [id; set_random_module (C := unit) (-3)] ∧
  ∃ a : @NodeSequence.t Z unit nat nat (list nat),
    node_lifecycle toy_random_state (Callable (λ h _, mret h)) 2
      (Iterable [10; 11; 12; 13; 14]%nat) None true (Some 42)
      (mk_world 1 0 ∅ tt) [set_random_module (C := unit) 5; id] = Return a ∧
    node_lifecycle toy_random_state (Callable (λ h _, mret h)) 2
      (Iterable [10; 11; 12; 13; 14]%nat) None true (Some 42)
      (mk_world 99 0 ∅ tt) [id; set_random_module (C := unit) (-3)] = Return a.
Proof.
  split; [reflexivity|]. split; [reflexivity|].
  destruct (C7_seeded_shuffle_reproducible (Id := nat) (Tgt := nat)
              toy_random_state 42
              (Callable (λ (h : list nat) (_ : Z), (mret h : Py.M unit (list nat))))
              2 (Iterable [10; 11; 12; 13; 14]%nat) None true (Some 42)
              (mk_world 1 0 ∅ tt) (mk_world 99 0 ∅ tt)
              [set_random_module (C := unit) 5; id] [id; set_random_module (C := unit) (-3)]
              eq_refl eq_refl) as (Heq & _).
  eexists. split; [|symmetry; exact Heq]. vm_compute. reflexivity.
Defined.

(** ** C8 *)

(** On a sparse adjacency matrix the two full-batch packers accept the same
    arguments. *)
Lemma full_batch_accept_together (features : Np.tensor) (A : Sparse.spmatrix)
    (targets indices : Np.tensor) :
  (∃ d, FullBatchSequence.init features (SpMatrix A) targets indices = Return d) ↔
  (∃ s, SparseFullBatchSequence.init features (SpMatrix A) targets indices = Return s).
Proof.
  unfold FullBatchSequence.init, SparseFullBatchSequence.init.
  destruct (targets_indices_mismatch targets indices) as [[|]|e];
    split; intros [? ?]; try done; by eexists.
Qed.

(** C8, as amended.  For a sparse adjacency matrix accepted by both packers,
    the dense packer's [(1, N, N)] output is the matrix rebuilt from the
    sparse packer's coordinate output when every value is added at its
    (row, col) position; when no position is stored twice, placing each
    value at its position rebuilds the same matrix. *)
Theorem C8_sparse_output_rebuilds_dense (features : Np.tensor) (A : Sparse.spmatrix)
    (targets indices : Np.tensor)
    (d : FullBatchSequence.t) (s : SparseFullBatchSequence.t) :
  FullBatchSequence.init features (SpMatrix A) targets indices = Return d →
  SparseFullBatchSequence.init features (SpMatrix A) targets indices = Return s →
  FullBatchSequence.A_dense d =
    [reconstruct_adding (Sparse.shape A)
       (SparseFullBatchSequence.A_indices s) (SparseFullBatchSequence.A_values s)] ∧
  (NoDup (coords A) →
   FullBatchSequence.A_dense d =
     [reconstruct_placing (Sparse.shape A)
        (SparseFullBatchSequence.A_indices s) (SparseFullBatchSequence.A_values s)]).
Proof.
  unfold FullBatchSequence.init, SparseFullBatchSequence.init.
  destruct (targets_indices_mismatch targets indices) as [[|]|e]; try done.
  intros [= <-] [= <-]. simpl. split.
  - by rewrite reconstruct_adding_toarray.
  - intros Hnd. by rewrite reconstruct_placing_toarray.
Qed.

(** The adjacency matrix of one undirected edge. *)
Lemma C8_witness :
  ∃ d s,
    FullBatchSequence.init (Np.mat [[5]; [6]]) (SpMatrix edge_adjacency)
      Np.PyNone Np.PyNone = Return d ∧
    SparseFullBatchSequence.init (Np.mat [[5]; [6]]) (SpMatrix edge_adjacency)
      Np.PyNone Np.PyNone = Return s ∧
    NoDup (coords edge_adjacency) ∧
    FullBatchSequence.A_dense d = [[[0; 1]; [1; 0]]] ∧
    SparseFullBatchSequence.A_indices s = [[[0; 1]; [1; 0]]] ∧
    SparseFullBatchSequence.A_values s = [[1; 1]] ∧
    FullBatchSequence.A_dense d =
      [reconstruct_placing (Sparse.shape edge_adjacency)
         (SparseFullBatchSequence.A_indices s) (SparseFullBatchSequence.A_values s)].
Proof.
  eexists _, _.
  split; [reflexivity|]. split; [reflexivity|].
  assert (NoDup (coords edge_adjacency)) as Hnd
    by (apply (bool_decide_unpack _); vm_compute; exact I).
  split; [exact Hnd|]. do 3 (split; [reflexivity|]).
  exact (proj2 (C8_sparse_output_rebuilds_dense (Np.mat [[5]; [6]]) edge_adjacency
                  Np.PyNone Np.PyNone _ _ eq_refl eq_refl) Hnd).
Defined.

(** C8 as stated fails when a position is stored twice, which coordinate
    storage allows: for the 1 × 1 matrix that stores 1 and 2 at (0, 0), the
    dense packer holds their sum 3, while placing the values leaves 2. *)
Lemma C8_counterexample :
  ∃ d s,
    FullBatchSequence.init (Np.mat [[5]]) (SpMatrix doubled_adjacency)
      Np.PyNone Np.PyNone = Return d ∧
    SparseFullBatchSequence.init (Np.mat [[5]]) (SpMatrix doubled_adjacency)
      Np.PyNone Np.PyNone = Return s ∧
    FullBatchSequence.A_dense d = [[[3]]] ∧
    reconstruct_placing (Sparse.shape doubled_adjacency)
      (SparseFullBatchSequence.A_indices s) (SparseFullBatchSequence.A_values s)
      = [[2]] ∧
    FullBatchSequence.A_dense d ≠
      [reconstruct_placing (Sparse.shape doubled_adjacency)
         (SparseFullBatchSequence.A_indices s) (SparseFullBatchSequence.A_values s)].
Proof.
  eexists _, _.
  split; [reflexivity|]. split; [reflexivity|].
  split; [reflexivity|]. split; [reflexivity|]. done.
Qed.

(** ** C9 *)

(** C9.  A graph batcher built (with normalisation) over three graphs of 3,
    5 and 2 nodes with batch size 3 returns, for batch 0 and at any point of
    its life, three graphs padded to [max_nodes = 5]: every mask row,
    feature matrix and adjacency matrix has 5 node positions; the 2-node
    graph is in the batch, its mask row is [True, True, False, False, False],
    its feature rows at positions 2, 3, 4 are zero rows of the feature
    width, and its 5 × 5 adjacency matrix is zero wherever a row or column
    index is at least 2. *)
Theorem C9_three_graphs_padded_to_five
    {rng : Type} `{RandomGen rng} `{!RandomGenLaws rng} {C Tgt : Type}
    (normalize : Sparse.spmatrix → Sparse.spmatrix) (g1 g2 g3 : Graph) (F : nat)
    (targets : option (list Tgt)) (name : option string) (w : World rng C)
    (calls : list (rng * graph_call)) :
  normalize_ok normalize →
  graph_wf F g1 → graph_wf F g2 → graph_wf F g3 →
  number_of_nodes g1 = 3%nat → number_of_nodes g2 = 5%nat →
  number_of_nodes g3 = 2%nat →
  (∀ ts, targets = Some ts → length ts = 3%nat) →
  ∃ (self : @GraphSequence.t Tgt) (w' : World rng C),
    GraphSequence.init normalize [g1; g2; g3] targets true 3 name w =
      (Return self, w') ∧
    ∃ (b : @GraphSequence.batch Tgt) st',
      GraphSequence.getitem 0 (graph_run calls (self, w')) = (Return b, st') ∧
      length (GraphSequence.features b) = 3%nat ∧
      length (GraphSequence.masks b) = 3%nat ∧
      length (GraphSequence.adj_graphs b) = 3%nat ∧
      Forall (λ r, length r = 5%nat) (GraphSequence.masks b) ∧
      Forall (λ X, length X = 5%nat) (GraphSequence.features b) ∧
      Forall (λ M, length M = 5%nat ∧ Forall (λ r, length r = 5%nat) M)
        (GraphSequence.adj_graphs b) ∧
      (∃ k, GraphSequence.graphs (graph_run calls (self, w')).1 !! k = Some g3) ∧
      ∀ k g,
        GraphSequence.graphs (graph_run calls (self, w')).1 !! k = Some g →
        number_of_nodes g = 2%nat →
        GraphSequence.masks b !! k = Some [true; true; false; false; false] ∧
        (∀ i, (2 ≤ i < 5)%nat →
           GraphSequence.features b !! k ≫= (.!! i) = Some (replicate F 0)) ∧
        (∀ i j, (i < 5)%nat → (j < 5)%nat → (2 ≤ i ∨ 2 ≤ j)%nat →
           GraphSequence.adj_graphs b !! k ≫= (λ M, cell M i j) = Some 0).
Proof.
  intros Hnorm Hwf1 Hwf2 Hwf3 Hn1 Hn2 Hn3 Hts.
  assert (Forall (graph_wf F) [g1; g2; g3]) as Hwf
    by (repeat (apply Forall_cons; split; [done|]); apply Forall_nil_2).
  destruct (graph_init_spec normalize [g1; g2; g3] targets 3 name w F Hnorm Hwf Hts)
    as (self & w' & ls0 & Hinit & HB & Hinv).
  exists self, w'. split; [done|].
  destruct (graph_run_inv [g1; g2; g3] ls0 F calls self w' Hwf Hinv) as [Hinv1 HB1].
  destruct (graph_run calls (self, w')) as [s w1]. simpl in HB1. rewrite HB in HB1.
  pose proof Hinv1 as (Hlen0 & Hnd & Hheap & _ & adjs & Hadjs & Hlen & Hzip).
  cbn [fst snd] in Hheap, Hadjs, Hlen, Hzip.
  (* the graphs of the instance are the three graphs, in some order *)
  assert (GraphSequence.graphs s ≡ₚ [g1; g2; g3]) as Hperm.
  { rewrite <-(fst_zip (GraphSequence.graphs s) adjs) by lia.
    rewrite Hzip. by rewrite fst_zip by lia. }
  assert (length (GraphSequence.graphs s) = 3%nat) as Hlen3 by by rewrite Hperm.
  assert (batch_graphs s 0 = GraphSequence.graphs s) as Hbg.
  { unfold batch_graphs. rewrite HB1. apply slice_all. lia. }
  assert (batch_refs s 0 = adjs) as Hbr.
  { unfold batch_refs. rewrite HB1, Hadjs. apply slice_all. simpl. lia. }
  destruct (graph_getitem_spec [g1; g2; g3] ls0 s w1 0 F Hinv1 Hwf)
    as (m & Hmax & Hget & HF2 & _ & _).
  { rewrite Hbg. intros Hnil. by rewrite Hnil in Hlen3. }
  rewrite Hbg in Hmax, Hget, HF2. rewrite Hbr in Hget, HF2.
  (* the largest of the three node counts is 5 *)
  assert (Forall (λ g, number_of_nodes g ∈ [3; 5; 2]%nat) (GraphSequence.graphs s))
    as Hcounts.
  { rewrite Hperm, !Forall_cons, Hn1, Hn2, Hn3. set_solver. }
  assert (m = 5%nat) as ->.
  { destruct (max_of_spec (number_of_nodes <$> GraphSequence.graphs s))
      as (m' & Hmax' & Hle & Hin).
    { intros Hnil%fmap_nil_inv. by rewrite Hnil in Hlen3. }
    rewrite Hmax in Hmax'. injection Hmax' as <-.
    assert (5%nat ∈ number_of_nodes <$> GraphSequence.graphs s) as H5.
    { rewrite Hperm. simpl. rewrite Hn2.
      apply list_elem_of_further, list_elem_of_here. }
    rewrite Forall_forall in Hle. specialize (Hle _ H5).
    apply list_elem_of_fmap in Hin as (g & -> & Hg).
    rewrite Forall_forall in Hcounts. specialize (Hcounts g Hg).
    set_unfold in Hcounts. lia. }
  assert (∀ k g, GraphSequence.graphs s !! k = Some g →
            ∃ l, adjs !! k = Some l ∧ graph_wf F g ∧ (number_of_nodes g ≤ 5)%nat ∧
                 within (number_of_nodes g) (heap w1 !!! l)) as Hper.
  { intros k g Hg.
    destruct (lookup_lt_is_Some_2 adjs k) as [l Hl];
      [rewrite Hlen; by eapply lookup_lt_Some|].
    exists l. split; [done|].
    pose proof (Forall2_lookup_lr _ _ _ _ _ _ HF2 Hg Hl) as Hgl.
    split; [|split; [|by apply Hheap]].
    - rewrite Forall_forall in Hwf. apply Hwf.
      exact (elem_of_zip_l _ l _ ls0 Hgl).
    - rewrite Forall_forall in Hcounts.
      specialize (Hcounts g (list_elem_of_lookup_2 _ _ _ Hg)).
      set_unfold in Hcounts. lia. }
  eexists _, _. split; [exact Hget|].
  unfold padded_batch.
  cbn [GraphSequence.masks GraphSequence.features GraphSequence.adj_graphs].
  rewrite !length_fmap, Hlen, Hlen3.
  split; [done|]. split; [done|]. split; [done|]. split; [|split; [|split; [|split]]].
  - apply Forall_fmap, Forall_lookup. intros k g Hg.
    destruct (Hper k g Hg) as (l & _ & _ & Hle & _). simpl.
    rewrite length_app, !length_replicate. lia.
  - apply Forall_fmap, Forall_lookup. intros k g Hg.
    destruct (Hper k g Hg) as (l & _ & (Hrows & _) & Hle & _). simpl.
    rewrite length_app, !length_replicate. lia.
  - apply Forall_fmap, Forall_forall. intros l _. unfold compose.
    pose proof (shape_resize (5, 5)%nat (heap w1 !!! l)) as Hs.
    pose proof (rows_toarray (Sparse.resize (5, 5)%nat (heap w1 !!! l))) as Hr.
    rewrite Hs in Hr. by rewrite length_toarray, Hs.
  - assert (g3 ∈ GraphSequence.graphs s) as Hin by (rewrite Hperm; set_solver).
    by apply list_elem_of_lookup_1 in Hin.
  - intros k g Hg Hn.
    destruct (Hper k g Hg) as (l & Hl & Hwfg & Hle & Hw).
    destruct (padded_batch_graph F 5 (GraphSequence.graphs s) adjs (heap w1)
                (@None (list Tgt)) k g l Hg Hl Hwfg Hle Hw)
      as (Hmask & (X & HX & _ & HX0) & (M & HM & _ & _ & HM0)).
    unfold padded_batch in Hmask, HX, HM.
    cbn [GraphSequence.masks GraphSequence.features GraphSequence.adj_graphs]
      in Hmask, HX, HM.
    rewrite Hn in Hmask, HX0, HM0.
    split; [exact Hmask|]. split.
    + intros i Hi. rewrite HX. simpl. by apply HX0.
    + intros i j Hi Hj Hout. rewrite HM. simpl. by apply HM0.
Qed.

Lemma keep_adjacency_ok : normalize_ok keep_adjacency.
Proof. intros A HA. by split. Qed.

Lemma example_graphs_wf : graph_wf 2 graph3 ∧ graph_wf 2 graph5 ∧ graph_wf 2 graph2.
Proof.
  unfold graph_wf, Sparse.in_bounds.
  repeat split; try reflexivity; apply (bool_decide_unpack _); vm_compute; exact I.
Qed.

(** The three example graphs, the toy generator, an epoch end and an earlier
    fetch before the batch is read. *)
Lemma C9_witness :
  normalize_ok keep_adjacency ∧
  graph_wf 2 graph3 ∧ graph_wf 2 graph5 ∧ graph_wf 2 graph2 ∧
  number_of_nodes graph3 = 3%nat ∧ number_of_nodes graph5 = 5%nat ∧
  number_of_nodes graph2 = 2%nat ∧
  ∃ (self : @GraphSequence.t nat) (w' : World Z unit)
    (b : @GraphSequence.batch nat) st',
    GraphSequence.init keep_adjacency [graph3; graph5; graph2] None true 3 None
      (mk_world 11 0 ∅ tt) = (Return self, w') ∧
    GraphSequence.getitem 0
      (graph_run [(5, GraphEpochEnd); (9, GraphGetItem 0)] (self, w')) =
      (Return b, st') ∧
    Forall (λ r, length r = 5%nat) (GraphSequence.masks b) ∧
    ∃ k, GraphSequence.graphs
           (graph_run [(5, GraphEpochEnd); (9, GraphGetItem 0)] (self, w')).1 !! k
           = Some graph2 ∧
         GraphSequence.masks b !! k = Some [true; true; false; false; false].
Proof.
  destruct example_graphs_wf as (Hwf3 & Hwf5 & Hwf2).
  split; [exact keep_adjacency_ok|].
  do 3 (split; [done|]). do 3 (split; [reflexivity|]).
  destruct (C9_three_graphs_padded_to_five (rng := Z) (C := unit) (Tgt := nat)
              keep_adjacency graph3 graph5 graph2 2 None None (mk_world 11 0 ∅ tt)
              [(5, GraphEpochEnd); (9, GraphGetItem 0)]
              keep_adjacency_ok Hwf3 Hwf5 Hwf2 eq_refl eq_refl eq_refl
              ltac:(by intros ? [=]))
    as (self & w' & Hinit & b & st' & Hget & _ & _ & _ & Hmask & _ & _ & [k Hk] & Hrow).
  exists self, w', b, st'. split; [exact Hinit|]. split; [exact Hget|].
  split; [exact Hmask|]. exists k. split; [exact Hk|].
  exact (proj1 (Hrow k graph2 Hk eq_refl)).
Defined.

(** ** C10 *)

(** C10.  The length reported by an on-demand planner is the number of
    batches the walker returned at construction, and it stays so (as does
    [data_size]) after any run of batch fetches and epoch ends, whatever the
    walker returns when the batches are regenerated. *)
Theorem C10_ondemand_length_fixed {rng C Id Tgt Feats : Type}
    (f : list Id → Z → Py.M C Feats) (batch_size : Z)
    (run : Z → Py.M C (list (list Id * Tgt))) (shuffle : bool)
    (w w' : World rng C) (self : @OnDemandLinkSequence.t C Id Tgt Feats)
    (calls : list ((World rng C → World rng C) * ondemand_call)) :
  OnDemandLinkSequence.init (Callable f) batch_size
    (OnDemandLinkSequence.Sampler run) shuffle w = (Return self, w') →
  (run batch_size (collab w)).1 = Return (OnDemandLinkSequence._batches self) ∧
  OnDemandLinkSequence.len self =
    Z.of_nat (length (OnDemandLinkSequence._batches self)) ∧
  OnDemandLinkSequence.len (ondemand_run calls (self, w')).1 =
    OnDemandLinkSequence.len self ∧
  OnDemandLinkSequence.data_size (ondemand_run calls (self, w')).1 =
    OnDemandLinkSequence.data_size self.
Proof.
  intros Hinit. simpl in Hinit.
  destruct (run batch_size (collab w)) as [[bs|e] c'] eqn:Hrun; [|done].
  injection Hinit as <- <-. simpl. split; [done|]. split; [done|].
  unfold OnDemandLinkSequence.len.
  match goal with
  | |- context [ondemand_run calls (?s, ?w0)] =>
      destruct (ondemand_run_length calls s w0) as [-> ->]
  end.
  done.
Qed.

(** A shuffling planner over the counting walker: one batch at
    construction, two batches stored after the first epoch end, and a
    reported length that is still one. *)
Lemma C10_witness :
  ∃ (self : @OnDemandLinkSequence.t nat nat nat (list nat)) (w' : World Z nat),
    OnDemandLinkSequence.init (Callable (λ h _, mret h)) 4
      (OnDemandLinkSequence.Sampler counting_walker) true (mk_world 0 0 ∅ 0%nat)
      = (Return self, w') ∧
    OnDemandLinkSequence.len self = 1 ∧
    length (OnDemandLinkSequence._batches
              (ondemand_run [(id, OnDemandEpochEnd)] (self, w')).1) = 2%nat ∧
    OnDemandLinkSequence.len (ondemand_run [(id, OnDemandEpochEnd)] (self, w')).1 = 1.
Proof.
  eexists _, _. split; [reflexivity|].
  match goal with
  | |- context [ondemand_run ?calls (?s, ?w0)] =>
      destruct (C10_ondemand_length_fixed (rng := Z)
                  (λ (h : list nat) (_ : Z), (mret h : Py.M nat (list nat))) 4
                  counting_walker true (mk_world 0 0 ∅ 0%nat) w0 s calls eq_refl)
        as (_ & Hlen & Hfix & _)
  end.
  split; [exact Hlen|]. split; [reflexivity|]. rewrite Hfix. exact Hlen.
Defined.

(** * Further properties of the batchers *)

(** ** The per-entity batchers *)

(** X1.  The constructors of [NodeSequence] and [LinkSequence] validate
    their arguments in the same way: an instance is returned exactly when
    the ids are iterable, the targets are absent or iterable with one entry
    per id, and the sampling function is callable; [ValueError] is raised
    exactly on iterable ids and targets of different lengths, every other
    failure is a [TypeError], and a failed construction has changed
    nothing (no generator has been consulted). *)
Theorem X1_entity_constructor_checks
    {rng : Type} `{RandomGen rng} {C Id Tgt Feats : Type}
    (random_state : option Z → rs_handle rng)
    (sample : pyfun (list Id → Z → Py.M C Feats)) (B : Z) (ids : pyarg Id)
    (targets : option (pyarg Tgt)) (shuffle : bool) (seed : option Z)
    (w : World rng C) :
  constructor_checks sample ids targets w
    (NodeSequence.init random_state sample B ids targets shuffle seed w) ∧
  constructor_checks sample ids targets w
    (LinkSequence.init random_state sample B ids targets shuffle seed w).
Proof.
  pose proof (node_constructor_checks random_state sample B ids targets shuffle
                seed w) as Hn.
  split; [done|].
  rewrite link_init_as_node in Hn.
  destruct (LinkSequence.init random_state sample B ids targets shuffle seed w)
    as [[s|e] w'];
    destruct Hn as (Hret & Hval & Hraise); simpl in *.
  - split; [|split].
    + split; [intros _; apply Hret; by eexists|by exists s].
    + split; [done|]. intros Hx. by apply Hval in Hx.
    + done.
  - split; [|split].
    + split; [by intros [? [=]]|]. intros Hx. apply Hret in Hx as [? [=]].
    + split.
      * intros [= ->]. by apply Hval.
      * intros Hx. apply Hval in Hx. by injection Hx as ->.
    + intros e' [= <-]. by apply Hraise.
Qed.

(** X2.  With [shuffle=False] the batches follow the order of the
    arguments: the index array is the identity after construction and after
    every epoch end, no generator is consulted (the world is only changed by
    its environment), and batch [i] hands the sampling function the slice
    [ids[B*i : B*i + B]] and returns the same slice of the targets. *)
Theorem X2_unshuffled_batches_follow_the_input
    {rng : Type} `{RandomGen rng} {C Id Tgt Feats : Type}
    (random_state : option Z → rs_handle rng)
    (f : list Id → Z → Py.M C Feats) (B : Z) (ids : list Id)
    (targets : option (pyarg Tgt)) (seed : option Z)
    (w : World rng C) (env : list interference) :
  valid_targets ids targets →
  ∃ self : @NodeSequence.t rng C Id Tgt Feats,
    NodeSequence.init random_state (Callable f) B (Iterable ids) targets false
      seed w = (Return self, w) ∧
    node_epochs env (self, w) = (Return tt, (self, foldl (λ w e, e w) w env)) ∧
    NodeSequence.indices self = seq 0 (length ids) ∧
    Iterable <$> NodeSequence.targets self = targets ∧
    ∀ (i : Z) (w' : World rng C),
      B * i < Z.of_nat (length ids) →
      NodeSequence.getitem i (self, w') =
      let '(r, c') := f (Py.slice ids (B * i) (B * i + B)) i (collab w') in
      (match r with
       | Return batch_feats =>
           Return (batch_feats,
                   (λ ts, Py.slice ts (B * i) (B * i + B)) <$> NodeSequence.targets self)
       | Raise e => Raise e
       end, (self, set_collab c' w')).
Proof.
  intros Hv.
  assert (∃ ts', targets = Iterable <$> ts' ∧
                 ∀ ts, ts' = Some ts → length ts = length ids) as (ts' & -> & Hts).
  { destruct targets as [[ts|]|]; simpl in Hv; [|done|].
    - exists (Some ts). split; [done|]. by intros ? [= <-].
    - by exists None. }
  exists (NodeSequence.mk ts' f ids (length ids) false B (random_state seed)
            (seq 0 (length ids))).
  split; [|split; [|split; [|split]]].
  - unfold NodeSequence.init. unfold_py.
    destruct ts' as [ts|]; simpl; [|done].
    rewrite decide_False; [done|]. rewrite (Hts ts); auto.
  - by apply node_epochs_unshuffled.
  - done.
  - done.
  - intros i w' Hi. unfold NodeSequence.getitem, NodeSequence.head_ids,
      NodeSequence.batch_indices. unfold_py. simpl.
    rewrite decide_False by lia.
    pose proof (take_rows_identity_slice ids (B * i) (B * i + B)) as Hh.
    unfold Py.take_rows in Hh. rewrite Hh.
    destruct ts' as [ts|]; simpl.
    + rewrite <-(Hts ts eq_refl), take_rows_identity_slice.
      by destruct (f _ i (collab w')) as [[x|e] c'].
    + by destruct (f _ i (collab w')) as [[x|e] c'].
Qed.

Lemma X2_witness :
  valid_targets [10; 11; 12; 13; 14]%nat (Some (Iterable [0; 1; 0; 1; 1])) ∧
  ∃ self : @NodeSequence.t Z unit nat Z (list nat),
    NodeSequence.init toy_random_state (Callable (λ h _, mret h)) 2
      (Iterable [10; 11; 12; 13; 14]%nat) (Some (Iterable [0; 1; 0; 1; 1])) false
      None (mk_world 7 0 ∅ tt) = (Return self, mk_world 7 0 ∅ tt) ∧
    NodeSequence.getitem 2 (self, mk_world 7 0 ∅ tt) =
      (Return ([14]%nat, Some [1]), (self, mk_world 7 0 ∅ tt)).
Proof.
  split; [reflexivity|].
  destruct (X2_unshuffled_batches_follow_the_input toy_random_state
              (λ (h : list nat) (_ : Z), (mret h : Py.M unit (list nat))) 2
              [10; 11; 12; 13; 14]%nat (Some (Iterable [0; 1; 0; 1; 1])) None
              (mk_world 7 0 ∅ tt) [] eq_refl)
    as (self & Hinit & _ & _ & Ht & Hget).
  exists self. split; [exact Hinit|].
  rewrite (Hget 2 (mk_world 7 0 ∅ tt) ltac:(simpl; lia)).
  destruct (NodeSequence.targets self) as [ts|]; [|discriminate Ht].
  injection Ht as ->. reflexivity.
Defined.

(** X3.  Labels stay with their ids.  At the start of every epoch, shuffled
    or not, a batch inside the data returns one target row per head id, and
    the id and the row at one place of the batch come from one position of
    the constructor's arguments. *)
Theorem X3_batch_targets_aligned_with_ids
    {rng : Type} `{RandomGen rng} `{!RandomGenLaws rng} {C Id Tgt Feats : Type}
    (random_state : option Z → rs_handle rng)
    (f : list Id → Z → Py.M C Feats) (B : Z) (ids : list Id) (ts : list Tgt)
    (shuffle : bool) (seed : option Z) (w : World rng C)
    (env : list interference) :
  length ids = length ts →
  ∃ self : @NodeSequence.t rng C Id Tgt Feats,
    node_lifecycle random_state (Callable f) B (Iterable ids)
      (Some (Iterable ts)) shuffle seed w env = Return self ∧
    ∀ i : Z, B * i < Z.of_nat (length ids) →
      ∃ (h : list Id) (rows : list Tgt),
        (∀ w' : World rng C,
           NodeSequence.getitem i (self, w') =
           let '(r, c') := f h i (collab w') in
           (match r with
            | Return batch_feats => Return (batch_feats, Some rows)
            | Raise e => Raise e
            end, (self, set_collab c' w'))) ∧
        length rows = length h ∧
        ∀ (k : nat) x t, h !! k = Some x → rows !! k = Some t →
          ∃ p : nat, ids !! p = Some x ∧ ts !! p = Some t.
Proof.
  intros Hlen.
  destruct (node_lifecycle_spec random_state f B ids (Some (Iterable ts)) shuffle
              seed w env Hlen)
    as (self & Hrun & (Hf & Hb & Hids & Ht & _) & Hk).
  exists self. split; [done|]. intros i Hi.
  destruct (NodeSequence.targets self) as [ts0|] eqn:Hts; [|done].
  injection Ht as ->.
  destruct (node_getitem_served self i Hk) as (h & bt & _ & HFh & Hbt & _ & Hget).
  { destruct Hk as (-> & _). rewrite Hb, Hids. done. }
  destruct (Hbt ts Hts) as (rows & -> & HFr).
  rewrite Hids in HFh. exists h, rows. split; [|split].
  - intros w'. by rewrite Hget, Hf.
  - by rewrite <-(Forall2_length _ _ _ HFh), (Forall2_length _ _ _ HFr).
  - intros k x t Hx Ht.
    destruct (Forall2_lookup_r _ _ _ _ _ HFh Hx) as (p & Hp & Hpx).
    destruct (Forall2_lookup_r _ _ _ _ _ HFr Ht) as (p' & Hp' & Hpt).
    rewrite Hp in Hp'. injection Hp' as <-. by exists p.
Qed.

Lemma X3_witness :
  length [10; 11; 12; 13; 14]%nat = length [0; 1; 0; 1; 1] ∧
  ∃ self : @NodeSequence.t Z unit nat Z (list nat),
    node_lifecycle toy_random_state (Callable (λ h _, mret h)) 2
      (Iterable [10; 11; 12; 13; 14]%nat) (Some (Iterable [0; 1; 0; 1; 1])) true
      (Some 42) (mk_world 7 0 ∅ tt) [id; id] = Return self ∧
    ∃ h rows,
      (NodeSequence.getitem 1 (self, mk_world 7 0 ∅ tt)).1 = Return (h, Some rows) ∧
      length rows = length h.
Proof.
  split; [reflexivity|].
  destruct (X3_batch_targets_aligned_with_ids toy_random_state
              (λ (h : list nat) (_ : Z), (mret h : Py.M unit (list nat))) 2
              [10; 11; 12; 13; 14]%nat [0; 1; 0; 1; 1] true (Some 42)
              (mk_world 7 0 ∅ tt) [id; id] eq_refl)
    as (self & Hrun & Hget).
  exists self. split; [exact Hrun|].
  destruct (Hget 1 ltac:(simpl; lia)) as (h & rows & Hg & Hl & _).
  exists h, rows. split; [|exact Hl]. rewrite Hg. reflexivity.
Defined.

(** X4.  Batch sizes.  With a positive batch size [B] over [N] ids, batch
    [i] (for [0 <= i] and [i * B < N]) hands the sampling function exactly
    [min(B, N - i*B)] ids: never none, never more than [B], and fewer than
    [B] only in the last batch. *)
Theorem X4_batch_sizes
    {rng : Type} `{RandomGen rng} `{!RandomGenLaws rng} {C Id Tgt Feats : Type}
    (random_state : option Z → rs_handle rng)
    (f : list Id → Z → Py.M C Feats) (B : Z) (ids : list Id)
    (targets : option (pyarg Tgt)) (shuffle : bool) (seed : option Z)
    (w : World rng C) (env : list interference) :
  0 < B → valid_targets ids targets →
  ∃ self : @NodeSequence.t rng C Id Tgt Feats,
    node_lifecycle random_state (Callable f) B (Iterable ids) targets shuffle
      seed w env = Return self ∧
    ∀ i : Z, 0 ≤ i → B * i < Z.of_nat (length ids) →
      ∃ (h : list Id) (batch_targets : option (list Tgt)),
        (∀ w' : World rng C,
           NodeSequence.getitem i (self, w') =
           let '(r, c') := f h i (collab w') in
           (match r with
            | Return batch_feats => Return (batch_feats, batch_targets)
            | Raise e => Raise e
            end, (self, set_collab c' w'))) ∧
        Z.of_nat (length h) = Z.min B (Z.of_nat (length ids) - B * i) ∧
        (∀ rows, batch_targets = Some rows → length rows = length h) ∧
        (batch_targets = None ↔ targets = None).
Proof.
  intros HB Hv.
  destruct (node_lifecycle_spec random_state f B ids targets shuffle seed w env Hv)
    as (self & Hrun & (Hf & Hb & Hids & Ht & _) & Hk).
  exists self. split; [done|]. intros i Hi0 Hi.
  destruct (node_getitem_served self i Hk) as (h & bt & _ & HFh & Hbt & Hnone & Hget).
  { destruct Hk as (-> & _). rewrite Hb, Hids. done. }
  exists h, bt. split; [|split; [|split]].
  - intros w'. by rewrite Hget, Hf.
  - rewrite <-(Forall2_length _ _ _ HFh).
    unfold NodeSequence.batch_indices. cbv zeta. rewrite Hb.
    destruct Hk as (Hn & Hp & _).
    assert (length (NodeSequence.indices self) = length ids) as Hli
      by (by rewrite Hp, length_seq, Hn, Hids).
    rewrite slice_chunk_length by (rewrite ?Hli; lia). by rewrite Hli.
  - intros rows ->.
    destruct (NodeSequence.targets self) as [ts0|] eqn:Hts.
    + destruct (Hbt ts0 eq_refl) as (rows' & [= <-] & HFr).
      by rewrite <-(Forall2_length _ _ _ HFh), (Forall2_length _ _ _ HFr).
    + by specialize (Hnone eq_refl).
  - destruct (NodeSequence.targets self) as [ts0|] eqn:Hts.
    + destruct (Hbt ts0 eq_refl) as (rows' & -> & _). by rewrite <-Ht.
    + rewrite (Hnone eq_refl), <-Ht. done.
Qed.

Lemma X4_witness :
  0 < 2 ∧
  valid_targets [10; 11; 12; 13; 14]%nat (@None (pyarg nat)) ∧
  ∃ self : @NodeSequence.t Z unit nat nat (list nat),
    node_lifecycle toy_random_state (Callable (λ h _, mret h)) 2
      (Iterable [10; 11; 12; 13; 14]%nat) None true (Some 42)
      (mk_world 7 0 ∅ tt) [id; id] = Return self ∧
    ∃ h, (NodeSequence.getitem 2 (self, mk_world 7 0 ∅ tt)).1 = Return (h, None) ∧
         length h = 1%nat.
Proof.
  split; [lia|]. split; [exact I|].
  destruct (X4_batch_sizes (Tgt := nat) toy_random_state
              (λ (h : list nat) (_ : Z), (mret h : Py.M unit (list nat))) 2
              [10; 11; 12; 13; 14]%nat None true (Some 42)
              (mk_world 7 0 ∅ tt) [id; id] ltac:(lia) I)
    as (self & Hrun & Hget).
  exists self. split; [exact Hrun|].
  destruct (Hget 2 ltac:(lia) ltac:(simpl; lia)) as (h & bt & Hg & Hl & _ & Hnone).
  exists h. rewrite Hg. simpl in Hl.
  destruct Hnone as [_ ->]; [|reflexivity]. split; [reflexivity|lia].
Defined.

(** X5.  Batch numbers are only checked against the end of the data.  With
    a positive batch size, a negative batch number is not rejected: the
    sampling function is called with that number, and for batch [-1] with
    an empty list of head ids and, when there are targets, an empty array
    of targets.  (With no ids at all, every batch number [>= 0] and [-1]
    alike are out of range.) *)
Theorem X5_negative_batch_number_is_served
    {rng : Type} `{RandomGen rng} `{!RandomGenLaws rng} {C Id Tgt Feats : Type}
    (random_state : option Z → rs_handle rng)
    (f : list Id → Z → Py.M C Feats) (B : Z) (ids : list Id)
    (targets : option (pyarg Tgt)) (shuffle : bool) (seed : option Z)
    (w : World rng C) (env : list interference) :
  0 < B → valid_targets ids targets →
  ∃ self : @NodeSequence.t rng C Id Tgt Feats,
    node_lifecycle random_state (Callable f) B (Iterable ids) targets shuffle
      seed w env = Return self ∧
    (∀ i : Z, i < 0 →
       ∃ (h : list Id) (batch_targets : option (list Tgt)),
         ∀ w' : World rng C,
           NodeSequence.getitem i (self, w') =
           let '(r, c') := f h i (collab w') in
           (match r with
            | Return batch_feats => Return (batch_feats, batch_targets)
            | Raise e => Raise e
            end, (self, set_collab c' w'))) ∧
    ∀ w' : World rng C,
      NodeSequence.getitem (-1) (self, w') =
      let '(r, c') := f [] (-1) (collab w') in
      (match r with
       | Return batch_feats =>
           Return (batch_feats, (λ _, []) <$> NodeSequence.targets self)
       | Raise e => Raise e
       end, (self, set_collab c' w')).
Proof.
  intros HB Hv.
  destruct (node_lifecycle_spec random_state f B ids targets shuffle seed w env Hv)
    as (self & Hrun & (Hf & Hb & Hids & Ht & _) & Hk).
  exists self. split; [done|]. split.
  - intros i Hi.
    destruct (node_getitem_served self i Hk) as (h & bt & _ & _ & _ & _ & Hget).
    { rewrite Hb. nia. }
    exists h, bt. intros w'. by rewrite Hget, Hf.
  - intros w'. unfold NodeSequence.getitem, NodeSequence.head_ids,
      NodeSequence.batch_indices. unfold_py. simpl.
    rewrite decide_False by (rewrite Hb; lia).
    rewrite Hb, slice_minus_one by done. simpl. rewrite Hf.
    destruct (NodeSequence.targets self) as [ts0|]; simpl;
      by destruct (f [] (-1) (collab w')) as [[x|e] c'].
Qed.

Lemma X5_witness :
  0 < 2 ∧
  valid_targets [10; 11; 12; 13; 14]%nat (Some (Iterable [0; 1; 0; 1; 1])) ∧
  ∃ self : @NodeSequence.t Z unit nat Z (list nat),
    node_lifecycle toy_random_state (Callable (λ h _, mret h)) 2
      (Iterable [10; 11; 12; 13; 14]%nat) (Some (Iterable [0; 1; 0; 1; 1])) true
      (Some 42) (mk_world 7 0 ∅ tt) [id; id] = Return self ∧
    ∃ batch_targets,
      (NodeSequence.getitem (-1) (self, mk_world 7 0 ∅ tt)).1 =
      Return ([], batch_targets).
Proof.
  split; [lia|]. split; [reflexivity|].
  destruct (X5_negative_batch_number_is_served toy_random_state
              (λ (h : list nat) (_ : Z), (mret h : Py.M unit (list nat))) 2
              [10; 11; 12; 13; 14]%nat (Some (Iterable [0; 1; 0; 1; 1])) true
              (Some 42) (mk_world 7 0 ∅ tt) [id; id] ltac:(lia) eq_refl)
    as (self & Hrun & _ & Hget).
  exists self. split; [exact Hrun|]. rewrite Hget. simpl.
  eexists. reflexivity.
Defined.

(** X6.  [LinkSequence] is [NodeSequence] under other attribute names: read
    through [as_node], construction, [__len__], [__getitem__] and
    [on_epoch_end] of a link batcher have the outcome and the effect of
    those of the node batcher, on every argument and in every state; so do
    whole life cycles.  In particular the second length check of the link
    constructor never fires. *)
Theorem X6_link_sequence_is_node_sequence
    {rng : Type} `{RandomGen rng} {C Id Tgt Feats : Type}
    (random_state : option Z → rs_handle rng)
    (sample : pyfun (list Id → Z → Py.M C Feats)) (B : Z) (ids : pyarg Id)
    (targets : option (pyarg Tgt)) (shuffle : bool) (seed : option Z)
    (w : World rng C) (env : list interference)
    (s : @LinkSequence.t rng C Id Tgt Feats) (i : Z) :
  NodeSequence.init random_state sample B ids targets shuffle seed w =
    (outcome_map as_node
       (LinkSequence.init random_state sample B ids targets shuffle seed w).1,
     (LinkSequence.init random_state sample B ids targets shuffle seed w).2) ∧
  NodeSequence.len (as_node s) = LinkSequence.len s ∧
  NodeSequence.getitem i (as_node s, w) =
    on_self as_node (LinkSequence.getitem i (s, w)) ∧
  NodeSequence.on_epoch_end (as_node s, w) =
    on_self as_node (LinkSequence.on_epoch_end (s, w)) ∧
  node_lifecycle random_state sample B ids targets shuffle seed w env =
    outcome_map as_node
      (link_lifecycle random_state sample B ids targets shuffle seed w env).
Proof.
  split; [apply link_init_as_node|].
  split; [apply link_len_as_node|].
  split; [apply link_getitem_as_node|].
  split; [apply link_on_epoch_end_as_node|].
  apply link_lifecycle_as_node.
Qed.

(** ** The on-demand planner *)

(** X7.  A planner built with [shuffle=False] serves the walker's first
    answer for good: after any run of batch fetches and epoch ends the
    instance is the one that was constructed, and fetching batch [k] hands
    the head ids of the [k]-th batch of that answer to the sampling function
    and returns that batch's targets.  A negative batch number [k - n]
    (with [n] the number of batches) is not rejected and serves batch [k]
    as well, counted from the end; the sampling function then receives the
    negative number. *)
Theorem X7_ondemand_unshuffled_serves_first_answer {rng C Id Tgt Feats : Type}
    (f : list Id → Z → Py.M C Feats) (batch_size : Z)
    (run : Z → Py.M C (list (list Id * Tgt)))
    (w : World rng C) (batches : list (list Id * Tgt)) (c' : C)
    (calls : list ((World rng C → World rng C) * ondemand_call)) :
  run batch_size (collab w) = (Return batches, c') →
  ∃ self : @OnDemandLinkSequence.t C Id Tgt Feats,
    OnDemandLinkSequence.init (Callable f) batch_size
      (OnDemandLinkSequence.Sampler run) false w = (Return self, set_collab c' w) ∧
    (ondemand_run calls (self, set_collab c' w)).1 = self ∧
    ∀ (k : nat) h t (w' : World rng C),
      batches !! k = Some (h, t) →
      ∀ i : Z, i = Z.of_nat k ∨ i = Z.of_nat k - Z.of_nat (length batches) →
        OnDemandLinkSequence.getitem i (self, w') =
        let '(r, c'') := f h i (collab w') in
        (match r with
         | Return batch_feats => Return (batch_feats, t)
         | Raise e => Raise e
         end, (self, set_collab c'' w')).
Proof.
  intros Hrun. eexists. split; [simpl; by rewrite Hrun|].
  split; [by apply ondemand_run_unshuffled|].
  intros k h t w' Hk i Hi.
  rewrite (ondemand_getitem_served _ w' i k h t); [done| |done|done].
  apply lookup_lt_Some in Hk.
  unfold OnDemandLinkSequence.len, OnDemandLinkSequence.batch in *. simpl.
  destruct Hi; lia.
Qed.

Lemma X7_witness :
  shrinking_walker 4 (collab (mk_world (C := nat) 0 0 ∅ 0%nat)) =
    (Return [([0], 0); ([0], 0); ([0], 0)]%nat, 1%nat) ∧
  ∃ self : @OnDemandLinkSequence.t nat nat nat (list nat),
    OnDemandLinkSequence.init (Callable (λ h _, mret h)) 4
      (OnDemandLinkSequence.Sampler shrinking_walker) false (mk_world 0 0 ∅ 0%nat)
      = (Return self, mk_world 0 0 ∅ 1%nat) ∧
    (OnDemandLinkSequence.getitem (-1) (self, mk_world 0 0 ∅ 1%nat)).1 =
      Return ([0%nat], 0%nat).
Proof.
  split; [reflexivity|].
  destruct (X7_ondemand_unshuffled_serves_first_answer (rng := Z)
              (λ (h : list nat) (_ : Z), (mret h : Py.M nat (list nat))) 4
              shrinking_walker (mk_world 0 0 ∅ 0%nat)
              [([0], 0); ([0], 0); ([0], 0)]%nat 1%nat [] eq_refl)
    as (self & Hinit & _ & Hget).
  exists self. split; [exact Hinit|].
  rewrite (Hget 2%nat [0%nat] 0%nat (mk_world 0 0 ∅ 1%nat) eq_refl (-1));
    [reflexivity|right; reflexivity].
Defined.

(** X8.  The reported length can go stale.  When a shuffling planner
    regenerates its batches at an epoch end and the walker returns [bs'],
    the batches served afterwards are those of [bs'], but the accepted batch
    numbers are still those below the number [n] of batches at construction:
    batch [i] with [0 <= i < min(n, len(bs'))] serves [bs'[i]]; a batch
    number [i < n] at or past [len(bs')] raises [IndexError] although
    [__len__] reports it as valid; and the batches of [bs'] from number [n]
    on are never served. *)
Theorem X8_ondemand_stale_length {rng C Id Tgt Feats : Type}
    (f : list Id → Z → Py.M C Feats) (batch_size : Z)
    (run : Z → Py.M C (list (list Id * Tgt)))
    (w w0 : World rng C) (self : @OnDemandLinkSequence.t C Id Tgt Feats)
    (bs' : list (list Id * Tgt)) (c' : C) :
  OnDemandLinkSequence.init (Callable f) batch_size
    (OnDemandLinkSequence.Sampler run) true w = (Return self, w0) →
  ∀ w1 : World rng C,
    run batch_size (collab w1) = (Return bs', c') →
    ∃ self' : @OnDemandLinkSequence.t C Id Tgt Feats,
      OnDemandLinkSequence.on_epoch_end (self, w1) =
        (Return tt, (self', set_collab c' w1)) ∧
      OnDemandLinkSequence.len self' =
        Z.of_nat (length (OnDemandLinkSequence._batches self)) ∧
      (∀ (k : nat) h t (w' : World rng C),
         bs' !! k = Some (h, t) →
         (k < length (OnDemandLinkSequence._batches self))%nat →
         OnDemandLinkSequence.getitem (Z.of_nat k) (self', w') =
         let '(r, c'') := f h (Z.of_nat k) (collab w') in
         (match r with
          | Return batch_feats => Return (batch_feats, t)
          | Raise e => Raise e
          end, (self', set_collab c'' w'))) ∧
      ∀ (i : Z) (w' : World rng C),
        Z.of_nat (length bs') ≤ i ∨
          Z.of_nat (length (OnDemandLinkSequence._batches self)) ≤ i →
        OnDemandLinkSequence.getitem i (self', w') = (Raise IndexError, (self', w')).
Proof.
  intros Hinit w1 Hrun. simpl in Hinit.
  destruct (run batch_size (collab w)) as [[bs|e] c0] eqn:Hrun0; [|done].
  injection Hinit as <- <-.
  eexists. split; [|split; [|split]].
  - unfold OnDemandLinkSequence.on_epoch_end, OnDemandLinkSequence._create_batches.
    unfold_py. simpl. by rewrite Hrun.
  - done.
  - intros k h t w' Hk Hlt.
    rewrite (ondemand_getitem_served _ w' (Z.of_nat k) k h t);
      [done| |done|by left].
    unfold OnDemandLinkSequence.len, OnDemandLinkSequence.batch in *.
    simpl in *. lia.
  - intros i w' [Hi|Hi].
    + by apply ondemand_getitem_missing.
    + apply ondemand_getitem_out_of_range.
      unfold OnDemandLinkSequence.len, OnDemandLinkSequence.batch in *.
      simpl in *. lia.
Qed.

(** Over the shrinking walker: three batches at construction, two after the
    first epoch end; batch number 2 is below the reported length 3 and
    raises [IndexError]. *)
Lemma X8_witness :
  ∃ (self self' : @OnDemandLinkSequence.t nat nat nat (list nat)),
    OnDemandLinkSequence.init (Callable (λ h _, mret h)) 4
      (OnDemandLinkSequence.Sampler shrinking_walker) true (mk_world 0 0 ∅ 0%nat)
      = (Return self, mk_world 0 0 ∅ 1%nat) ∧
    shrinking_walker 4 (collab (mk_world (C := nat) 0 0 ∅ 1%nat)) =
      (Return [([1], 1); ([1], 1)]%nat, 2%nat) ∧
    OnDemandLinkSequence.on_epoch_end (self, mk_world 0 0 ∅ 1%nat) =
      (Return tt, (self', mk_world 0 0 ∅ 2%nat)) ∧
    OnDemandLinkSequence.len self' = 3 ∧
    OnDemandLinkSequence.getitem 2 (self', mk_world 0 0 ∅ 2%nat) =
      (Raise IndexError, (self', mk_world 0 0 ∅ 2%nat)).
Proof.
  eexists _.
  destruct (X8_ondemand_stale_length (rng := Z)
              (λ (h : list nat) (_ : Z), (mret h : Py.M nat (list nat))) 4
              shrinking_walker (mk_world 0 0 ∅ 0%nat) _ _
              [([1], 1); ([1], 1)]%nat 2%nat eq_refl
              (mk_world 0 0 ∅ 1%nat) eq_refl)
    as (self' & Hend & Hlen & _ & Hmiss).
  exists self'. split; [reflexivity|]. split; [reflexivity|].
  split; [exact Hend|]. split; [exact Hlen|].
  apply Hmiss. left. simpl. lia.
Defined.

(** ** The graph batcher *)

Lemma example_graphs_Forall_wf : Forall (graph_wf 2) [graph3; graph5; graph2].
Proof.
  destruct example_graphs_wf as (Hwf3 & Hwf5 & Hwf2).
  repeat (apply Forall_cons; split; [done|]). apply Forall_nil_2.
Qed.

(** X9.  Construction of the graph batcher.  Targets whose number differs
    from the number of graphs are rejected with [ValueError] before any
    matrix is built: the process state is untouched.  Otherwise (with
    normalisation) construction returns an instance that refers to one new
    matrix object per graph, holding the normalised adjacency matrix of that
    graph; the new objects are distinct, none of them replaces an existing
    object, the objects that existed before are as they were, and each graph
    of the (shuffled) instance is still paired with the object built for
    it. *)
Theorem X9_graph_construction
    {rng : Type} `{RandomGen rng} `{!RandomGenLaws rng} {C Tgt : Type}
    (normalize : Sparse.spmatrix → Sparse.spmatrix) (gs : list Graph) (F : nat)
    (targets : option (list Tgt)) (flag : bool) (B : Z) (name : option string)
    (w : World rng C) :
  normalize_ok normalize → Forall (graph_wf F) gs →
  (∀ ts, targets = Some ts → length ts ≠ length gs →
     GraphSequence.init normalize gs targets flag B name w = (Raise ValueError, w)) ∧
  ((∀ ts, targets = Some ts → length ts = length gs) →
   ∃ (self : @GraphSequence.t Tgt) (w' : World rng C) (ls0 adjs : list nat),
     GraphSequence.init normalize gs targets true B name w = (Return self, w') ∧
     length ls0 = length gs ∧ NoDup ls0 ∧
     (∀ l, l ∈ ls0 → heap w !! l = None) ∧
     (∀ k g l, gs !! k = Some g → ls0 !! k = Some l →
        heap w' !! l = Some (normalize (to_adjacency_matrix g))) ∧
     (∀ l, is_Some (heap w !! l) → heap w' !! l = heap w !! l) ∧
     collab w' = collab w ∧ numpy_random w' = numpy_random w ∧
     GraphSequence.normalized_adjs self = Some adjs ∧
     zip (GraphSequence.graphs self) adjs ≡ₚ zip gs ls0).
Proof.
  intros Hn Hwf. split.
  - intros ts -> Hne. unfold GraphSequence.init, GraphSequence.construct.
    unfold_py. simpl. rewrite decide_True by (intros ?; apply Hne; done). done.
  - intros Hts.
    destruct (graph_init_kept normalize gs targets B name w F Hn Hwf Hts)
      as (self & w' & ls0 & Hinit & _ & Hinv & _ & Hnew & Hval & Hold & Hc & Hnp).
    destruct Hinv as (Hlen0 & Hnd & _ & _ & adjs & Hadjs & _ & Hzip).
    exists self, w', ls0, adjs. simpl in *. by repeat (split; [done|]).
Qed.

Lemma X9_witness :
  normalize_ok keep_adjacency ∧ Forall (graph_wf 2) [graph3; graph5; graph2] ∧
  GraphSequence.init (Tgt := nat) keep_adjacency [graph3; graph5; graph2]
    (Some [1; 0]%nat) true 3 None (mk_world 11 0 ∅ tt)
  = (Raise ValueError, mk_world 11 0 ∅ tt) ∧
  ∃ (self : @GraphSequence.t nat) (w' : World Z unit),
    GraphSequence.init keep_adjacency [graph3; graph5; graph2]
      (Some [1; 0; 1]%nat) true 3 None (mk_world 11 0 ∅ tt) = (Return self, w').
Proof.
  split; [exact keep_adjacency_ok|]. split; [exact example_graphs_Forall_wf|].
  split.
  - apply (proj1 (X9_graph_construction (rng := Z) (C := unit) keep_adjacency
                    [graph3; graph5; graph2] 2 (Some [1; 0]%nat) true 3 None
                    (mk_world 11 0 ∅ tt) keep_adjacency_ok example_graphs_Forall_wf)
             [1; 0]%nat eq_refl).
    simpl. lia.
  - destruct (proj2 (X9_graph_construction (rng := Z) (C := unit) keep_adjacency
                       [graph3; graph5; graph2] 2 (Some [1; 0; 1]%nat) true 3 None
                       (mk_world 11 0 ∅ tt) keep_adjacency_ok
                       example_graphs_Forall_wf))
      as (self & w' & _ & _ & Hinit & _).
    + by intros ? [= <-].
    + by exists self, w'.
Defined.

(** X10.  Every graph is served once per epoch.  At any point of the life
    of a graph batcher with a positive batch size [B] over [N] graphs, the
    reported length is [L = ceil(N / B)]; every batch [0 <= i < L] is
    returned, with [min(B, N - i*B)] graphs (at least one) in each of its
    three arrays; and the graphs of the batches [0 .. L-1], end to end, are a
    rearrangement of the graphs given at construction. *)
Theorem X10_graph_batches_cover_the_graphs
    {rng : Type} `{RandomGen rng} `{!RandomGenLaws rng} {C Tgt : Type}
    (normalize : Sparse.spmatrix → Sparse.spmatrix) (gs : list Graph) (F : nat)
    (targets : option (list Tgt)) (B : Z) (name : option string)
    (w : World rng C) (calls : list (rng * graph_call)) :
  normalize_ok normalize → Forall (graph_wf F) gs →
  (∀ ts, targets = Some ts → length ts = length gs) →
  0 < B →
  ∃ (self : @GraphSequence.t Tgt) (w' : World rng C) (L : Z),
    GraphSequence.init normalize gs targets true B name w = (Return self, w') ∧
    GraphSequence.len (graph_run calls (self, w')).1 = Return L ∧
    0 ≤ L ∧ Z.of_nat (length gs) ≤ L * B ∧ (L - 1) * B < Z.of_nat (length gs) ∧
    (∀ i : Z, 0 ≤ i < L →
       ∃ (b : @GraphSequence.batch Tgt) st',
         GraphSequence.getitem i (graph_run calls (self, w')) = (Return b, st') ∧
         Z.of_nat (length (batch_graphs (graph_run calls (self, w')).1 i)) =
           Z.min B (Z.of_nat (length gs) - i * B) ∧
         length (GraphSequence.features b) =
           length (batch_graphs (graph_run calls (self, w')).1 i) ∧
         length (GraphSequence.masks b) =
           length (batch_graphs (graph_run calls (self, w')).1 i) ∧
         length (GraphSequence.adj_graphs b) =
           length (batch_graphs (graph_run calls (self, w')).1 i)) ∧
    concat ((λ i : nat, batch_graphs (graph_run calls (self, w')).1 (Z.of_nat i))
              <$> seq 0 (Z.to_nat L)) ≡ₚ gs.
Proof.
  intros Hn Hwf Hts HB.
  destruct (graph_life normalize gs targets B name w F calls Hn Hwf Hts)
    as (self & w' & ls0 & Hinit & Hinv & HBs & _ & _ & Hperm).
  destruct (graph_run calls (self, w')) as [s w1] eqn:Hrun. simpl in HBs, Hperm.
  destruct (graph_batches_concat s ltac:(lia)) as (L & HL & HL0 & Hup & Hlo & Hcat).
  assert (length (GraphSequence.graphs s) = length gs) as HN by by rewrite Hperm.
  rewrite HBs, HN in Hup, Hlo.
  exists self, w', L. rewrite Hrun. cbn [fst snd]. do 5 (split; [done|]).
  split; [|by rewrite Hcat].
  intros i Hi.
  pose proof (graph_batch_length s i ltac:(lia) ltac:(lia)) as Hlen.
  rewrite HBs, HN in Hlen. specialize (Hlen ltac:(nia)).
  destruct (graph_getitem_spec gs ls0 s w1 i F Hinv Hwf)
    as (m & _ & Hget & HF2 & _).
  { intros Hnil. rewrite Hnil in Hlen. simpl in Hlen. nia. }
  eexists _, _. split; [exact Hget|]. split; [done|].
  unfold padded_batch.
  cbn [GraphSequence.masks GraphSequence.features GraphSequence.adj_graphs].
  rewrite !length_fmap. split; [done|]. split; [done|].
  by rewrite (Forall2_length _ _ _ HF2).
Qed.

Lemma X10_witness :
  normalize_ok keep_adjacency ∧ Forall (graph_wf 2) [graph3; graph5; graph2] ∧
  0 < 2 ∧
  ∃ (self : @GraphSequence.t nat) (w' : World Z unit),
    GraphSequence.init keep_adjacency [graph3; graph5; graph2] None true 2 None
      (mk_world 11 0 ∅ tt) = (Return self, w') ∧
    GraphSequence.len (graph_run [(5, GraphEpochEnd)] (self, w')).1 = Return 2 ∧
    length (batch_graphs (graph_run [(5, GraphEpochEnd)] (self, w')).1 1) = 1%nat.
Proof.
  split; [exact keep_adjacency_ok|]. split; [exact example_graphs_Forall_wf|].
  split; [lia|].
  destruct (X10_graph_batches_cover_the_graphs (rng := Z) (C := unit) (Tgt := nat)
              keep_adjacency [graph3; graph5; graph2] 2 None 2 None
              (mk_world 11 0 ∅ tt) [(5, GraphEpochEnd)]
              keep_adjacency_ok example_graphs_Forall_wf ltac:(by intros ? [=])
              ltac:(lia))
    as (self & w' & L & Hinit & HL & HL0 & Hup & Hlo & Hget & _).
  assert (L = 2) as -> by (simpl in Hup, Hlo; lia).
  exists self, w'. split; [exact Hinit|]. split; [exact HL|].
  destruct (Hget 1 ltac:(lia)) as (b & st' & _ & Hlen & _).
  change (Z.of_nat (length [graph3; graph5; graph2])) with 3 in Hlen. lia.
Defined.

(** X11.  Padding keeps the data of each graph.  At any point of the life
    of a graph batcher with a positive batch size, in a batch [0 <= index]
    with [index * B < N], the entry for each graph [g] of the batch (with
    [n] nodes, [m] being the largest node count in the batch) is: a mask
    that is true on the first [n] positions and false on the rest; the
    feature rows of [g] followed by [m - n] zero rows; and an [m × m]
    adjacency matrix that agrees with the dense normalised adjacency matrix
    of [g] on the leading [n × n] block and is zero elsewhere, however often
    and to whatever sizes the cached matrix has been resized by earlier
    batches. *)
Theorem X11_graph_padding_keeps_the_data
    {rng : Type} `{RandomGen rng} `{!RandomGenLaws rng} {C Tgt : Type}
    (normalize : Sparse.spmatrix → Sparse.spmatrix) (gs : list Graph) (F : nat)
    (targets : option (list Tgt)) (B : Z) (name : option string)
    (w : World rng C) (calls : list (rng * graph_call)) :
  normalize_ok normalize → Forall (graph_wf F) gs →
  (∀ ts, targets = Some ts → length ts = length gs) →
  0 < B →
  ∃ (self : @GraphSequence.t Tgt) (w' : World rng C),
    GraphSequence.init normalize gs targets true B name w = (Return self, w') ∧
    ∀ index : Z, 0 ≤ index → index * B < Z.of_nat (length gs) →
      ∃ (b : @GraphSequence.batch Tgt) st' (m : nat),
        GraphSequence.getitem index (graph_run calls (self, w')) = (Return b, st') ∧
        Py.max_of (number_of_nodes <$>
                     batch_graphs (graph_run calls (self, w')).1 index) = Return m ∧
        ∀ (k : nat) (g : Graph),
          batch_graphs (graph_run calls (self, w')).1 index !! k = Some g →
          g ∈ gs ∧ (number_of_nodes g ≤ m)%nat ∧
          GraphSequence.masks b !! k =
            Some (replicate (number_of_nodes g) true ++
                  replicate (m - number_of_nodes g) false) ∧
          GraphSequence.features b !! k =
            Some (Np.rows (node_features g) ++
                  replicate (m - number_of_nodes g) (replicate F 0)) ∧
          ∃ M, GraphSequence.adj_graphs b !! k = Some M ∧
               ∀ i j, (i < m)%nat → (j < m)%nat →
                 cell M i j =
                 if decide (i < number_of_nodes g ∧ j < number_of_nodes g)%nat
                 then cell (Sparse.toarray (normalize (to_adjacency_matrix g))) i j
                 else Some 0.
Proof.
  intros Hn Hwf Hts HB.
  destruct (graph_life normalize gs targets B name w F calls Hn Hwf Hts)
    as (self & w' & ls0 & Hinit & Hinv & HBs & Hc & _ & Hperm).
  exists self, w'. split; [done|]. intros index Hi0 Hi.
  destruct (graph_run calls (self, w')) as [s w1]. simpl in HBs, Hperm, Hc.
  assert (length (GraphSequence.graphs s) = length gs) as HN by by rewrite Hperm.
  pose proof (graph_batch_length s index ltac:(lia) ltac:(lia)) as Hlen.
  rewrite HBs, HN in Hlen. specialize (Hlen ltac:(nia)).
  assert (batch_graphs s index ≠ []) as Hne.
  { intros Hnil. rewrite Hnil in Hlen. simpl in Hlen. nia. }
  destruct (graph_getitem_spec gs ls0 s w1 index F Hinv Hwf Hne)
    as (m & Hmax & Hget & HF2 & _ & _).
  destruct (max_of_spec (number_of_nodes <$> batch_graphs s index))
    as (m' & Hmax' & Hle & _).
  { intros Hnil%fmap_nil_inv. done. }
  rewrite Hmax in Hmax'. injection Hmax' as <-.
  eexists _, _, m. split; [exact Hget|]. split; [done|].
  intros k g Hg. simpl in Hg.
  destruct (Forall2_lookup_l _ _ _ _ _ HF2 Hg) as (l & Hl & Hgl).
  assert (number_of_nodes g ≤ m)%nat as Hnm.
  { rewrite Forall_forall in Hle. apply Hle, list_elem_of_fmap.
    exists g. split; [done|]. by eapply list_elem_of_lookup_2. }
  assert (graph_wf F g) as Hwfg.
  { rewrite Forall_forall in Hwf. apply Hwf. exact (elem_of_zip_l _ l _ ls0 Hgl). }
  split; [exact (elem_of_zip_l _ l _ ls0 Hgl)|]. split; [done|].
  unfold padded_batch.
  cbn [GraphSequence.masks GraphSequence.features GraphSequence.adj_graphs].
  rewrite !list_lookup_fmap, Hg, Hl. cbn [fmap option_fmap option_map].
  split; [done|]. split; [done|].
  eexists. split; [done|]. intros i j Him Hjm.
  destruct Hinv as (_ & _ & Hheap & _). simpl in Hheap.
  pose proof (Hheap g l Hgl) as Hw.
  destruct Hwfg as (_ & _ & Hshape & Hin).
  destruct (Hn _ Hin) as [Hs _]. rewrite Hshape in Hs.
  case_decide as Hij.
  - apply cell_toarray_entries.
    + rewrite (resize_entries_within (number_of_nodes g)) by done.
      by apply Hc.
    + by rewrite shape_resize.
    + by rewrite shape_resize.
    + rewrite Hs. simpl. lia.
    + rewrite Hs. simpl. lia.
  - apply (toarray_zero_outside _ (number_of_nodes g)).
    + by apply within_resize.
    + by rewrite shape_resize.
    + by rewrite shape_resize.
    + lia.
Qed.

Lemma X11_witness :
  normalize_ok keep_adjacency ∧ Forall (graph_wf 2) [graph3; graph5; graph2] ∧
  0 < 3 ∧
  ∃ (self : @GraphSequence.t nat) (w' : World Z unit)
    (b : @GraphSequence.batch nat) st',
    GraphSequence.init keep_adjacency [graph3; graph5; graph2] None true 3 None
      (mk_world 11 0 ∅ tt) = (Return self, w') ∧
    GraphSequence.getitem 0
      (graph_run [(5, GraphEpochEnd); (9, GraphGetItem 0)] (self, w')) =
      (Return b, st').
Proof.
  split; [exact keep_adjacency_ok|]. split; [exact example_graphs_Forall_wf|].
  split; [lia|].
  destruct (X11_graph_padding_keeps_the_data (rng := Z) (C := unit) (Tgt := nat)
              keep_adjacency [graph3; graph5; graph2] 2 None 3 None
              (mk_world 11 0 ∅ tt) [(5, GraphEpochEnd); (9, GraphGetItem 0)]
              keep_adjacency_ok example_graphs_Forall_wf ltac:(by intros ? [=])
              ltac:(lia))
    as (self & w' & Hinit & Hget).
  destruct (Hget 0 ltac:(lia) ltac:(simpl; lia)) as (b & st' & m & Hb & _).
  by exists self, w', b, st'.
Defined.

(** X12.  Targets stay with their graphs.  At any point of the life of a
    graph batcher built with targets, a batch returns one target per graph
    of the batch, and the graph and the target at one place of the batch
    come from one position of the constructor's arguments; a batcher built
    without targets returns [None]. *)
Theorem X12_graph_targets_aligned
    {rng : Type} `{RandomGen rng} `{!RandomGenLaws rng} {C Tgt : Type}
    (normalize : Sparse.spmatrix → Sparse.spmatrix) (gs : list Graph) (F : nat)
    (targets : option (list Tgt)) (B : Z) (name : option string)
    (w : World rng C) (calls : list (rng * graph_call)) :
  normalize_ok normalize → Forall (graph_wf F) gs →
  (∀ ts, targets = Some ts → length ts = length gs) →
  0 < B →
  ∃ (self : @GraphSequence.t Tgt) (w' : World rng C),
    GraphSequence.init normalize gs targets true B name w = (Return self, w') ∧
    ∀ index : Z, 0 ≤ index → index * B < Z.of_nat (length gs) →
      ∃ (b : @GraphSequence.batch Tgt) st',
        GraphSequence.getitem index (graph_run calls (self, w')) = (Return b, st') ∧
        match targets with
        | None => GraphSequence.graph_targets b = None
        | Some ts0 =>
            ∃ rows, GraphSequence.graph_targets b = Some rows ∧
              length rows =
                length (batch_graphs (graph_run calls (self, w')).1 index) ∧
              ∀ (k : nat) g t,
                batch_graphs (graph_run calls (self, w')).1 index !! k = Some g →
                rows !! k = Some t →
                ∃ p : nat, gs !! p = Some g ∧ ts0 !! p = Some t
        end.
Proof.
  intros Hn Hwf Hts HB.
  destruct (graph_life normalize gs targets B name w F calls Hn Hwf Hts)
    as (self & w' & ls0 & Hinit & Hinv & HBs & _ & Hlab & Hperm).
  exists self, w'. split; [done|]. intros index Hi0 Hi.
  destruct (graph_run calls (self, w')) as [s w1]. simpl in HBs, Hperm, Hlab.
  assert (length (GraphSequence.graphs s) = length gs) as HN by by rewrite Hperm.
  pose proof (graph_batch_length s index ltac:(lia) ltac:(lia)) as Hlen.
  rewrite HBs, HN in Hlen. specialize (Hlen ltac:(nia)).
  assert (batch_graphs s index ≠ []) as Hne.
  { intros Hnil. rewrite Hnil in Hlen. simpl in Hlen. nia. }
  destruct (graph_getitem_spec gs ls0 s w1 index F Hinv Hwf Hne)
    as (m & _ & Hget & _).
  eexists _, _. split; [exact Hget|].
  unfold padded_batch. cbn [GraphSequence.graph_targets].
  unfold graph_labelled in Hlab. destruct targets as [ts0|].
  - destruct Hlab as (ts & Htg & Hz). rewrite Htg. simpl.
    destruct Hinv as (_ & _ & _ & Hlts & _). simpl in Hlts.
    specialize (Hlts ts Htg).
    eexists. split; [done|]. split.
    + symmetry. by apply slice_length_eq.
    + intros k g t Hg Ht. simpl.
      assert ((g, t) ∈ zip gs ts0) as Hin.
      { rewrite <-Hz. eapply sublist_subseteq; [apply slice_sublist|].
        rewrite <-slice_zip by done.
        apply (list_elem_of_lookup_2 _ k). apply lookup_zip_with_Some.
        exists g, t. split; [done|]. split; [exact Hg|exact Ht]. }
      apply list_elem_of_lookup in Hin as [p Hp].
      apply lookup_zip_with_Some in Hp as (g' & t' & [= <- <-] & ? & ?).
      by exists p.
  - by rewrite Hlab.
Qed.

Lemma X12_witness :
  normalize_ok keep_adjacency ∧ Forall (graph_wf 2) [graph3; graph5; graph2] ∧
  0 < 2 ∧
  ∃ (self : @GraphSequence.t nat) (w' : World Z unit)
    (b : @GraphSequence.batch nat) st' rows,
    GraphSequence.init keep_adjacency [graph3; graph5; graph2]
      (Some [30; 50; 20]%nat) true 2 None (mk_world 11 0 ∅ tt) = (Return self, w') ∧
    GraphSequence.getitem 1 (graph_run [(5, GraphEpochEnd)] (self, w')) =
      (Return b, st') ∧
    GraphSequence.graph_targets b = Some rows.
Proof.
  split; [exact keep_adjacency_ok|]. split; [exact example_graphs_Forall_wf|].
  split; [lia|].
  destruct (X12_graph_targets_aligned (rng := Z) (C := unit)
              keep_adjacency [graph3; graph5; graph2] 2 (Some [30; 50; 20]%nat)
              2 None (mk_world 11 0 ∅ tt) [(5, GraphEpochEnd)]
              keep_adjacency_ok example_graphs_Forall_wf
              ltac:(by intros ? [= <-]) ltac:(lia))
    as (self & w' & Hinit & Hget).
  destruct (Hget 1 ltac:(lia) ltac:(simpl; lia)) as (b & st' & Hb & rows & Hr & _).
  by exists self, w', b, st', rows.
Defined.

(** ** The full-batch sequences *)


(** X14.  The sparse packer loses nothing of the matrix.  Its index array
    has one [[row, col]] pair and its value array one value per stored entry
    of the adjacency matrix, in the order of storage: shapes [(1, E, 2)] and
    [(1, E)].  The pairs lie inside the shape of the matrix when its entries
    do.  The inputs are the features and the indices under a new leading
    axis, followed by these two arrays; the targets get the leading axis
    unless they are [None]; and a fetch returns these inputs and targets for
    every batch number, in range or not, and changes nothing. *)
Theorem X14_sparse_packer_keeps_the_entries
    (features : Np.tensor) (A : Sparse.spmatrix) (targets indices : Np.tensor)
    (s : SparseFullBatchSequence.t) :
  SparseFullBatchSequence.init features (SpMatrix A) targets indices = Return s →
  ∃ (idx : list (list Z)) (vals : list Z),
    SparseFullBatchSequence.A_indices s = [idx] ∧
    SparseFullBatchSequence.A_values s = [vals] ∧
    length idx = length (Sparse.entries A) ∧
    length vals = length (Sparse.entries A) ∧
    (∀ (k r c : nat) (v : Z),
       Sparse.entries A !! k = Some (r, c, v) ↔
       idx !! k = Some [Z.of_nat r; Z.of_nat c] ∧ vals !! k = Some v) ∧
    (Sparse.in_bounds A →
     Forall (λ rc, ∃ r c : nat, rc = [Z.of_nat r; Z.of_nat c] ∧
                     (r < (Sparse.shape A).1)%nat ∧ (c < (Sparse.shape A).2)%nat)
       idx) ∧
    SparseFullBatchSequence.inputs s =
      [Np.Arr [features]; Np.Arr [indices]; Np.cube [idx]; Np.mat [vals]] ∧
    SparseFullBatchSequence.targets s =
      match targets with
      | Np.PyNone => Np.PyNone
      | _ => Np.Arr [targets]
      end ∧
    ∀ (W : Type) (index : Z) (w : W),
      SparseFullBatchSequence.getitem index (s, w) =
      (Return (SparseFullBatchSequence.inputs s, SparseFullBatchSequence.targets s),
       (s, w)).
Proof.
  unfold SparseFullBatchSequence.init.
  destruct (targets_indices_mismatch targets indices) as [[|]|e]; try done.
  intros [= <-]. simpl.
  unfold SparseFullBatchSequence.coordinates, Sparse.row, Sparse.col, Sparse.data.
  eexists _, _. split; [done|]. split; [done|].
  split; [by rewrite length_zip_with, !length_fmap, Nat.min_id|].
  split; [by rewrite length_fmap|]. split; [|split; [|split; [|split]]].
  - intros k r c v. rewrite lookup_zip_with, !list_lookup_fmap.
    destruct (Sparse.entries A !! k) as [[[r' c'] v']|]; simpl;
      [|split; [done|by intros [? ?]]].
    split.
    + by intros [= -> -> ->].
    + intros [[= Hr Hc] [= ->]]. by rewrite (Nat2Z.inj _ _ Hr), (Nat2Z.inj _ _ Hc).
  - unfold Sparse.in_bounds. intros Hb. apply Forall_lookup. intros k rc.
    rewrite lookup_zip_with, !list_lookup_fmap.
    destruct (Sparse.entries A !! k) as [[[r c] v]|] eqn:Hk; simpl; [|done].
    intros [= <-]. exists r, c. split; [done|].
    exact (Forall_lookup_1 _ _ _ _ Hb Hk).
  - done.
  - by destruct targets.
  - done.
Qed.

Lemma X14_witness :
  ∃ s,
    SparseFullBatchSequence.init (Np.mat [[5]; [6]]) (SpMatrix edge_adjacency)
      Np.PyNone (Np.vec [0; 1]) = Return s ∧
    SparseFullBatchSequence.A_indices s = [[[0; 1]; [1; 0]]] ∧
    SparseFullBatchSequence.A_values s = [[1; 1]] ∧
    ∃ idx vals,
      SparseFullBatchSequence.A_indices s = [idx] ∧
      SparseFullBatchSequence.A_values s = [vals] ∧
      length idx = 2%nat ∧ length vals = 2%nat.
Proof.
  eexists. split; [reflexivity|]. split; [reflexivity|]. split; [reflexivity|].
  destruct (X14_sparse_packer_keeps_the_entries (Np.mat [[5]; [6]]) edge_adjacency
              Np.PyNone (Np.vec [0; 1]) _ eq_refl)
    as (idx & vals & Hi & Hv & Hli & Hlv & _).
  exists idx, vals. split; [exact Hi|]. split; [exact Hv|].
  split; [exact Hli|exact Hlv].
Defined.

(** X15.  In sparse mode the relational packer is the sparse packer applied
    to every relation.  Over [R] relations its inputs are the features, the
    indices, then the [R] index arrays and then the [R] value arrays,
    [2 + 2R] in all; the arrays of relation [k] (at positions [2 + k] and
    [2 + R + k]) are the index and value arrays the sparse packer builds
    from that relation's matrix alone, and the features, indices and targets
    are those of the sparse packer too. *)
Theorem X15_relational_sparse_is_sparse_per_relation
    (features : Np.tensor) (As : list Sparse.spmatrix) (targets indices : Np.tensor)
    (r : RelationalFullBatchNodeSequence.t) :
  RelationalFullBatchNodeSequence.init features As true targets indices = Return r →
  length (RelationalFullBatchNodeSequence.inputs r) = (2 + 2 * length As)%nat ∧
  ∀ (k : nat) (A : Sparse.spmatrix), As !! k = Some A →
    ∃ s,
      SparseFullBatchSequence.init features (SpMatrix A) targets indices = Return s ∧
      RelationalFullBatchNodeSequence.inputs r !! 0%nat =
        SparseFullBatchSequence.inputs s !! 0%nat ∧
      RelationalFullBatchNodeSequence.inputs r !! 1%nat =
        SparseFullBatchSequence.inputs s !! 1%nat ∧
      RelationalFullBatchNodeSequence.inputs r !! (2 + k)%nat =
        SparseFullBatchSequence.inputs s !! 2%nat ∧
      RelationalFullBatchNodeSequence.inputs r !! (2 + length As + k)%nat =
        SparseFullBatchSequence.inputs s !! 3%nat ∧
      RelationalFullBatchNodeSequence.targets r = SparseFullBatchSequence.targets s.
Proof.
  unfold RelationalFullBatchNodeSequence.init, SparseFullBatchSequence.init.
  destruct (targets_indices_mismatch targets indices) as [[|]|e]; try done.
  intros [= <-]. cbn [RelationalFullBatchNodeSequence.inputs
                      RelationalFullBatchNodeSequence.targets]. split.
  - simpl. rewrite length_app, !length_fmap. lia.
  - intros k A Hk. eexists. split; [done|].
    cbn [SparseFullBatchSequence.inputs SparseFullBatchSequence.targets].
    split; [done|]. split; [done|]. split; [|split; [|done]].
    + change (2 + k)%nat with (S (S k)). simpl.
      rewrite lookup_app_l by (rewrite length_fmap; by eapply lookup_lt_Some).
      by rewrite list_lookup_fmap, Hk.
    + change (2 + length As + k)%nat with (S (S (length As + k))). simpl.
      rewrite lookup_app_r by (rewrite length_fmap; lia).
      rewrite length_fmap. replace (length As + k - length As)%nat with k by lia.
      by rewrite list_lookup_fmap, Hk.
Qed.

Lemma X15_witness :
  ∃ r s,
    RelationalFullBatchNodeSequence.init (Np.mat [[5]; [6]])
      [edge_adjacency; doubled_adjacency] true Np.PyNone (Np.vec [0; 1]) = Return r ∧
    SparseFullBatchSequence.init (Np.mat [[5]; [6]]) (SpMatrix doubled_adjacency)
      Np.PyNone (Np.vec [0; 1]) = Return s ∧
    length (RelationalFullBatchNodeSequence.inputs r) = 6%nat ∧
    RelationalFullBatchNodeSequence.inputs r !! 5%nat =
      SparseFullBatchSequence.inputs s !! 3%nat.
Proof.
  eexists.
  destruct (X15_relational_sparse_is_sparse_per_relation (Np.mat [[5]; [6]])
              [edge_adjacency; doubled_adjacency] Np.PyNone (Np.vec [0; 1]) _ eq_refl)
    as (Hlen & Hrel).
  destruct (Hrel 1%nat doubled_adjacency eq_refl) as (s & Hs & _ & _ & _ & Hv & _).
  exists s. split; [reflexivity|]. split; [exact Hs|]. split; [exact Hlen|exact Hv].
Defined.

(** ** The corruption wrapper *)

(** X16.  The targets of the corruption wrapper.  Over a dense or a sparse
    full-batch sequence built by its constructor, the wrapper's targets are
    the single row [[1, 0]] under two leading axes of size one, shape
    [(1, 1, 2)], whatever the number of target indices: the stored index
    array has got its leading axis by then, so that its length is one.  Over
    a node batcher with batch size [B >= 0] the targets are [B] rows
    [[1, 0]]. *)
Theorem X16_corruption_targets {rng C Id Tgt LinkTgt : Type} :
  (∀ features A targets indices d,
     FullBatchSequence.init features A targets indices = Return d →
     CorruptedNodeSequence.init (rng := rng) (C := C) (Id := Id) (Tgt := Tgt)
       (LinkTgt := LinkTgt) (CorruptedNodeSequence.AFullBatchSequence d) =
     Return (CorruptedNodeSequence.mk (CorruptedNodeSequence.WrapFullBatch d)
               (Np.cube [[[1; 0]]]))) ∧
  (∀ features A targets indices s,
     SparseFullBatchSequence.init features A targets indices = Return s →
     CorruptedNodeSequence.init (rng := rng) (C := C) (Id := Id) (Tgt := Tgt)
       (LinkTgt := LinkTgt) (CorruptedNodeSequence.ASparseFullBatchSequence s) =
     Return (CorruptedNodeSequence.mk (CorruptedNodeSequence.WrapSparseFullBatch s)
               (Np.cube [[[1; 0]]]))) ∧
  (∀ s : @NodeSequence.t rng C Id Tgt (list Np.tensor),
     0 ≤ NodeSequence.batch_size s →
     CorruptedNodeSequence.init (LinkTgt := LinkTgt)
       (CorruptedNodeSequence.ANodeSequence s) =
     Return (CorruptedNodeSequence.mk (CorruptedNodeSequence.WrapNode s)
               (Np.mat (replicate (Z.to_nat (NodeSequence.batch_size s)) [1; 0])))).
Proof.
  split; [|split].
  - intros features A targets indices d.
    unfold FullBatchSequence.init.
    destruct (targets_indices_mismatch targets indices) as [[|]|]; try done.
    destruct A as [A|A|]; intros [= <-]; done.
  - intros features A targets indices s.
    unfold SparseFullBatchSequence.init.
    destruct (targets_indices_mismatch targets indices) as [[|]|]; try done.
    destruct A as [A|A|]; intros [= <-]; done.
  - intros s HB. unfold CorruptedNodeSequence.init. simpl.
    rewrite decide_False by lia. simpl. do 2 f_equal.
    unfold Np.mat. by rewrite !fmap_replicate.
Qed.

Lemma X16_witness :
  ∃ d,
    FullBatchSequence.init (Np.mat [[5]; [6]]) (SpMatrix edge_adjacency)
      (Np.mat [[1; 0]; [0; 1]]) (Np.vec [0; 1]) = Return d ∧
    Np.len (FullBatchSequence.target_indices d) = Return 1%nat ∧
    CorruptedNodeSequence.init (rng := Z) (C := unit) (Id := nat) (Tgt := nat)
      (LinkTgt := nat) (CorruptedNodeSequence.AFullBatchSequence d) =
    Return (CorruptedNodeSequence.mk (CorruptedNodeSequence.WrapFullBatch d)
              (Np.cube [[[1; 0]]])).
Proof.
  eexists. split; [reflexivity|]. split; [reflexivity|].
  exact (proj1 (X16_corruption_targets (rng := Z) (C := unit) (Id := nat)
                  (Tgt := nat) (LinkTgt := nat))
           (Np.mat [[5]; [6]]) (SpMatrix edge_adjacency)
           (Np.mat [[1; 0]; [0; 1]]) (Np.vec [0; 1]) _ eq_refl).
Defined.

(** X17.  Over a node batcher the wrapper delegates.  Its length is the
    length of the node batcher.  A fetch first fetches the same batch from
    the node batcher: when that raises (a batch number past the data raises
    [IndexError]; the sampling function may raise anything), the wrapper
    raises the same exception, the wrapper and the node batcher are as
    before and neither random generator has been consulted; when it returns
    features, they are corrupted in the state the node batcher's fetch
    left, and the targets of the node batcher are dropped. *)
Theorem X17_corruption_delegates_to_the_node_batcher
    {rng : Type} `{RandomGen rng} `{ArrayOps} {C Id Tgt LinkTgt : Type}
    (s : @NodeSequence.t rng C Id Tgt (list Np.tensor))
    (c : @CorruptedNodeSequence.t rng C Id Tgt) (index : Z) (w : World rng C) :
  CorruptedNodeSequence.init (LinkTgt := LinkTgt)
    (CorruptedNodeSequence.ANodeSequence s) = Return c →
  CorruptedNodeSequence.len c = NodeSequence.len s ∧
  (NodeSequence.batch_size s * index >= Z.of_nat (NodeSequence.data_size s) →
   CorruptedNodeSequence.getitem index (c, w) = (Raise IndexError, (c, w))) ∧
  (∀ e, (NodeSequence.getitem index (s, w)).1 = Raise e →
     CorruptedNodeSequence.getitem index (c, w) =
       (Raise e, (c, (NodeSequence.getitem index (s, w)).2.2)) ∧
     numpy_random (NodeSequence.getitem index (s, w)).2.2 = numpy_random w ∧
     random_module (NodeSequence.getitem index (s, w)).2.2 = random_module w) ∧
  (∀ inputs tg, (NodeSequence.getitem index (s, w)).1 = Return (inputs, tg) →
     CorruptedNodeSequence.getitem index (c, w) =
     CorruptedNodeSequence.corrupt_per_hop inputs
       (c, (NodeSequence.getitem index (s, w)).2.2)).
Proof.
  unfold CorruptedNodeSequence.init.
  destruct (Np.zeros _) as [z|]; [|done]. intros [= <-].
  split; [done|].
  assert (∀ r st', NodeSequence.getitem index (s, w) = (r, st') →
            st'.1 = s ∧ random_module st'.2 = random_module w ∧
            numpy_random st'.2 = numpy_random w) as Hframe.
  { intros r st' Hrun. pose proof (node_getitem_frame index (s, w)) as Hf.
    rewrite Hrun in Hf. by destruct Hf as (? & ? & ? & ?). }
  split; [|split].
  - intros Hpast.
    unfold CorruptedNodeSequence.getitem, CorruptedNodeSequence.on_base.
    unfold mbind, M_bind, Py.bind, Py.get. simpl.
    by rewrite node_getitem_out_of_range.
  - intros e He.
    destruct (NodeSequence.getitem index (s, w)) as [r [s' w']] eqn:Hrun.
    destruct (Hframe _ _ eq_refl) as (Hs & Hr & Hn). simpl in *. subst s' r.
    split; [|done].
    unfold CorruptedNodeSequence.getitem, CorruptedNodeSequence.on_base.
    unfold mbind, M_bind, Py.bind, Py.get. simpl. by rewrite Hrun.
  - intros inputs tg Hret.
    destruct (NodeSequence.getitem index (s, w)) as [r [s' w']] eqn:Hrun.
    destruct (Hframe _ _ eq_refl) as (Hs & Hr & Hn). simpl in *. subst s' r.
    unfold CorruptedNodeSequence.getitem, CorruptedNodeSequence.on_base.
    unfold mbind, M_bind, Py.bind at 1, Py.get. simpl.
    unfold Py.bind at 1. by rewrite Hrun.
Qed.

Lemma X17_witness :
  ∃ c,
    CorruptedNodeSequence.init (rng := Z) (C := unit) (Id := nat) (Tgt := nat)
      (LinkTgt := nat)
      (CorruptedNodeSequence.ANodeSequence
         (NodeSequence.mk None (λ _ _, mret []) [10; 11; 12]%nat 3 false 2
            GlobalRS [0; 1; 2]%nat)) = Return c ∧
    CorruptedNodeSequence.len c = Return 2 ∧
    CorruptedNodeSequence.getitem 2 (c, mk_world 7 0 ∅ tt) =
      (Raise IndexError, (c, mk_world 7 0 ∅ tt)).
Proof.
  eexists.
  destruct (X17_corruption_delegates_to_the_node_batcher (rng := Z) (C := unit)
              (Id := nat) (Tgt := nat) (LinkTgt := nat)
              (NodeSequence.mk None (λ _ _, mret []) [10; 11; 12]%nat 3 false 2
                 GlobalRS [0; 1; 2]%nat) _ 2 (mk_world 7 0 ∅ tt) eq_refl)
    as (Hlen & Hpast & _).
  split; [reflexivity|]. split; [exact Hlen|].
  apply Hpast. simpl. lia.
Defined.

(** X18.  A fetch through the wrapper of a full-batch sequence.  For every
    batch number, in range or not, one permutation of the node positions
    [0 .. n-1] is drawn from the process-wide NumPy generator ([n] is the
    second dimension of the stored features) and the fetch returns the
    features with their nodes rearranged by it, followed by all inputs of
    the wrapped sequence as they are, and the wrapper's targets [[[1, 0]]];
    the targets of the wrapped sequence are dropped.  The wrapper and the
    wrapped sequence stay as they are, and nothing but the NumPy generator
    changes. *)
Theorem X18_corrupted_full_batch_fetch
    {rng : Type} `{RandomGen rng} `{!RandomGenLaws rng} `{ArrayOps}
    {C Id Tgt LinkTgt : Type}
    (features : Np.tensor) (A : adjacency) (targets indices : Np.tensor)
    (n : nat) (index : Z) (w : World rng C) :
  np_shape (Np.Arr [features]) !! 1%nat = Some n →
  ∃ (idxs : list nat) (g' : rng),
    rs_shuffle (numpy_random w) (seq 0 n) = (idxs, g') ∧ idxs ≡ₚ seq 0 n ∧
    (∀ d (c : @CorruptedNodeSequence.t rng C Id Tgt),
       FullBatchSequence.init features A targets indices = Return d →
       CorruptedNodeSequence.init (LinkTgt := LinkTgt)
         (CorruptedNodeSequence.AFullBatchSequence d) = Return c →
       ∃ dense,
         FullBatchSequence.inputs d =
           [Np.Arr [features]; Np.Arr [indices]; dense] ∧
         CorruptedNodeSequence.getitem index (c, w) =
         (match np_take_axis1 (Np.Arr [features]) idxs with
          | Return shuffled =>
              Return ([shuffled; Np.Arr [features]; Np.Arr [indices]; dense],
                      Np.cube [[[1; 0]]])
          | Raise e => Raise e
          end, (c, set_numpy_random g' w))) ∧
    (∀ s (c : @CorruptedNodeSequence.t rng C Id Tgt),
       SparseFullBatchSequence.init features A targets indices = Return s →
       CorruptedNodeSequence.init (LinkTgt := LinkTgt)
         (CorruptedNodeSequence.ASparseFullBatchSequence s) = Return c →
       ∃ A_indices A_values,
         SparseFullBatchSequence.inputs s =
           [Np.Arr [features]; Np.Arr [indices]; A_indices; A_values] ∧
         CorruptedNodeSequence.getitem index (c, w) =
         (match np_take_axis1 (Np.Arr [features]) idxs with
          | Return shuffled =>
              Return ([shuffled; Np.Arr [features]; Np.Arr [indices];
                       A_indices; A_values],
                      Np.cube [[[1; 0]]])
          | Raise e => Raise e
          end, (c, set_numpy_random g' w))).
Proof.
  intros Hn.
  pose proof (rs_shuffle_perm (numpy_random w) (seq 0 n)) as Hp.
  destruct (rs_shuffle (numpy_random w) (seq 0 n)) as [idxs g'] eqn:Hsh.
  exists idxs, g'. split; [done|]. split; [done|].
  assert (Py.index (np_shape (Np.Arr [features])) 1 = Return n) as Hidx
    by exact (index_lookup _ 1%nat _ Hn).
  split.
  - intros d c. unfold FullBatchSequence.init.
    destruct (targets_indices_mismatch targets indices) as [[|]|]; try done.
    destruct A as [A|A|]; intros [= <-] [= <-]; eexists; (split; [done|]).
    all: unfold CorruptedNodeSequence.getitem, CorruptedNodeSequence.on_base,
           CorruptedNodeSequence.corrupt_full_batch,
           CorruptedNodeSequence.np_random_permutation,
           FullBatchSequence.getitem.
    all: unfold_py; simpl.
    all: change (_full_batch_array_and_reshape features false)
           with (Np.Arr [features]).
    all: rewrite Hidx; unfold Py.range; rewrite Hsh; simpl.
    all: by destruct (np_take_axis1 (Np.Arr [features]) idxs).
  - intros s c. unfold SparseFullBatchSequence.init.
    destruct (targets_indices_mismatch targets indices) as [[|]|]; try done.
    destruct A as [A|A|]; intros [= <-] [= <-]; eexists _, _; (split; [done|]).
    unfold CorruptedNodeSequence.getitem, CorruptedNodeSequence.on_base,
      CorruptedNodeSequence.corrupt_full_batch,
      CorruptedNodeSequence.np_random_permutation,
      SparseFullBatchSequence.getitem.
    unfold_py; simpl.
    change (_full_batch_array_and_reshape features false) with (Np.Arr [features]).
    rewrite Hidx; unfold Py.range; rewrite Hsh; simpl.
    by destruct (np_take_axis1 (Np.Arr [features]) idxs).
Qed.

(** Two nodes, with the list implementation of the array arithmetic. *)
Lemma X18_witness :
  np_shape (Np.Arr [Np.mat [[5]; [6]]]) !! 1%nat = Some 2%nat ∧
  ∃ d c r,
    FullBatchSequence.init (Np.mat [[5]; [6]]) (SpMatrix edge_adjacency)
      Np.PyNone (Np.vec [0; 1]) = Return d ∧
    CorruptedNodeSequence.init (rng := Z) (C := unit) (Id := nat) (Tgt := nat)
      (LinkTgt := nat) (CorruptedNodeSequence.AFullBatchSequence d) = Return c ∧
    (CorruptedNodeSequence.getitem 7 (c, mk_world 0 3 ∅ tt)).1 = Return r ∧
    length r.1 = 4%nat ∧ r.2 = Np.cube [[[1; 0]]].
Proof.
  split; [reflexivity|].
  destruct (@X18_corrupted_full_batch_fetch Z toy_rng toy_rng_laws list_array_ops
              unit nat nat nat (Np.mat [[5]; [6]])
              (SpMatrix edge_adjacency) Np.PyNone (Np.vec [0; 1]) 2 7
              (mk_world 0 3 ∅ tt) ltac:(reflexivity))
    as (idxs & g' & Hsh & _ & Hdense & _).
  vm_compute in Hsh. injection Hsh as <- <-.
  eexists _, _.
  destruct (Hdense _ _ eq_refl eq_refl) as (dense & _ & Hget).
  eexists. split; [reflexivity|]. split; [reflexivity|].
  rewrite Hget. split; [reflexivity|]. split; reflexivity.
Defined.

(** ** Degenerate batch sizes *)

(** X19.  A batch size of zero is accepted by the constructor of the node
    batcher, and shows only later: [__len__] raises [ZeroDivisionError];
    with no ids every fetch raises [IndexError]; and with at least one id
    every batch number is served, the sampling function being called with
    an empty list of head ids (and the targets, if any, being an empty
    array). *)
Theorem X19_zero_batch_size
    {rng : Type} `{RandomGen rng} `{!RandomGenLaws rng} {C Id Tgt Feats : Type}
    (random_state : option Z → rs_handle rng)
    (f : list Id → Z → Py.M C Feats) (ids : list Id)
    (targets : option (pyarg Tgt)) (shuffle : bool) (seed : option Z)
    (w : World rng C) (env : list interference) :
  valid_targets ids targets →
  ∃ self : @NodeSequence.t rng C Id Tgt Feats,
    node_lifecycle random_state (Callable f) 0 (Iterable ids) targets shuffle
      seed w env = Return self ∧
    NodeSequence.len self = Raise ZeroDivisionError ∧
    ∀ (i : Z) (w' : World rng C),
      NodeSequence.getitem i (self, w') =
      match ids with
      | [] => (Raise IndexError, (self, w'))
      | _ :: _ =>
          let '(r, c') := f [] i (collab w') in
          (match r with
           | Return batch_feats =>
               Return (batch_feats, (λ _, []) <$> NodeSequence.targets self)
           | Raise e => Raise e
           end, (self, set_collab c' w'))
      end.
Proof.
  intros Hv.
  destruct (node_lifecycle_spec random_state f 0 ids targets shuffle seed w env Hv)
    as (self & Hrun & (Hf & Hb & Hids & Ht & _) & (Hn & _)).
  exists self. split; [done|]. split.
  - unfold NodeSequence.len. rewrite Hb. done.
  - intros i w'. unfold NodeSequence.getitem, NodeSequence.head_ids,
      NodeSequence.batch_indices. unfold_py. simpl.
    rewrite Hb, Hn, Hids. destruct ids as [|x ids'].
    + rewrite decide_True by (simpl; lia). done.
    + rewrite decide_False by (simpl; lia).
      replace (0 * i + 0) with (0 * i) by lia.
      assert (∀ X (l : list X), Py.slice l (0 * i) (0 * i) = []) as Hnil.
      { intros X l. unfold Py.slice. by rewrite Nat.sub_diag. }
      rewrite Hnil. simpl. rewrite Hf.
      destruct (NodeSequence.targets self) as [ts0|]; simpl;
        by destruct (f [] i (collab w')) as [[y|e] c'].
Qed.

Lemma X19_witness :
  valid_targets [10; 11; 12]%nat (@None (pyarg nat)) ∧
  ∃ (self : @NodeSequence.t Z unit nat nat (list nat)) batch_targets,
    node_lifecycle toy_random_state (Callable (λ h _, mret h)) 0
      (Iterable [10; 11; 12]%nat) None true (Some 42)
      (mk_world 7 0 ∅ tt) [id] = Return self ∧
    NodeSequence.len self = Raise ZeroDivisionError ∧
    (NodeSequence.getitem 5 (self, mk_world 7 0 ∅ tt)).1 =
      Return ([], batch_targets).
Proof.
  split; [exact I|].
  destruct (X19_zero_batch_size (Tgt := nat) toy_random_state
              (λ (h : list nat) (_ : Z), (mret h : Py.M unit (list nat)))
              [10; 11; 12]%nat None true (Some 42) (mk_world 7 0 ∅ tt) [id] I)
    as (self & Hrun & Hlen & Hget).
  exists self. eexists. split; [exact Hrun|]. split; [exact Hlen|].
  rewrite Hget. reflexivity.
Defined.

(** X20.  A batch size of zero in the graph batcher.  Construction
    succeeds; at any point of the life of the instance [__len__] raises
    [ZeroDivisionError], and every fetch raises [ValueError] (the maximum of
    an empty list of node counts) without touching the instance or the
    cached matrices. *)
Theorem X20_graph_zero_batch_size
    {rng : Type} `{RandomGen rng} `{!RandomGenLaws rng} {C Tgt : Type}
    (normalize : Sparse.spmatrix → Sparse.spmatrix) (gs : list Graph) (F : nat)
    (targets : option (list Tgt)) (name : option string)
    (w : World rng C) (calls : list (rng * graph_call)) :
  normalize_ok normalize → Forall (graph_wf F) gs →
  (∀ ts, targets = Some ts → length ts = length gs) →
  ∃ (self : @GraphSequence.t Tgt) (w' : World rng C),
    GraphSequence.init normalize gs targets true 0 name w = (Return self, w') ∧
    GraphSequence.len (graph_run calls (self, w')).1 = Raise ZeroDivisionError ∧
    ∀ index : Z,
      GraphSequence.getitem index (graph_run calls (self, w')) =
      (Raise ValueError, graph_run calls (self, w')).
Proof.
  intros Hn Hwf Hts.
  destruct (graph_life normalize gs targets 0 name w F calls Hn Hwf Hts)
    as (self & w' & ls0 & Hinit & Hinv & HBs & _ & _ & _).
  exists self, w'. split; [done|].
  destruct (graph_run calls (self, w')) as [s w1]. simpl in HBs.
  split.
  - unfold GraphSequence.len. simpl. rewrite HBs. done.
  - intros index.
    destruct Hinv as (_ & _ & _ & _ & adjs & Hadjs & _). simpl in Hadjs.
    apply (graph_getitem_empty s w1 index adjs Hadjs).
    unfold batch_graphs. rewrite HBs. unfold Py.slice.
    replace ((index + 1) * 0) with (index * 0) by lia.
    by rewrite Nat.sub_diag.
Qed.

Lemma X20_witness :
  normalize_ok keep_adjacency ∧ Forall (graph_wf 2) [graph3; graph5; graph2] ∧
  ∃ (self : @GraphSequence.t nat) (w' : World Z unit),
    GraphSequence.init keep_adjacency [graph3; graph5; graph2] None true 0 None
      (mk_world 11 0 ∅ tt) = (Return self, w') ∧
    GraphSequence.len (graph_run [(5, GraphEpochEnd)] (self, w')).1 =
      Raise ZeroDivisionError ∧
    (GraphSequence.getitem 0 (graph_run [(5, GraphEpochEnd)] (self, w'))).1 =
      Raise ValueError.
Proof.
  split; [exact keep_adjacency_ok|]. split; [exact example_graphs_Forall_wf|].
  destruct (X20_graph_zero_batch_size (rng := Z) (C := unit) (Tgt := nat)
              keep_adjacency [graph3; graph5; graph2] 2 None None
              (mk_world 11 0 ∅ tt) [(5, GraphEpochEnd)]
              keep_adjacency_ok example_graphs_Forall_wf ltac:(by intros ? [=]))
    as (self & w' & Hinit & Hlen & Hget).
  exists self, w'. split; [exact Hinit|]. split; [exact Hlen|].
  by rewrite Hget.
Defined.
